(** * Anomaly detection notebook: forecast-to-actual reconciliation

    A shallow embedding of [notebooks/AnomalyDetection.ipynb]: the
    [AnomalyResult] container, [get_minutes_between_dates], the
    [get_anomaly_summary] pipeline (validation, 30-minute aggregation,
    three forecasts, corridor merge, 1-minute upsampling, join with the
    actual observations, deviation score), and the three plotting
    functions that read the container.

    Conventions of the embedding.
    - A [float64] cell is a member of [Float64.t]: an exact rational, or one
      of the IEEE special values +inf, -inf, NaN.  Rounding and overflow are
      not represented, and the two IEEE zeros are the one rational 0;
      everything else (comparisons with NaN are false, division by zero
      yields an infinity or NaN as numpy scalars do) follows IEEE 754.
      Since a zero has no sign here, the sign of an infinity that comes from
      a zero divisor is that of the divisor +0.0 only: statements about
      such a quotient say that it is an infinity, not which one.
    - A cell of a [bool] column is carried as 0.0 or 1.0.  Its type matters
      in one place: a row that mixes [float] and [bool] cells reaches the
      scorer as a row of Python objects, whose division raises on a zero
      divisor where numpy's yields an infinity.
    - A timestamp is the integer number of nanoseconds since the epoch,
      which is how pandas stores it.
    - A frame is a list of rows in index order; an index may repeat a label.
      Of the caller's frame the pipeline carries the [value] column: the
      forecasts are requested for that target and the final join selects
      [df[['value']]].
    - Python objects that are shared (the frames handed to [AnomalyResult])
      live in a store and are named by their address.  Next to the store
      sits the set of the objects whose own storage refuses writes.  A numpy
      array that [.values] hands out is an object of its own, with a flag of
      its own.
    - The predictor behind [generate_forecast] is a parameter.  The stages
      a run enters are recorded next to the store, so that "no stage was
      invoked" can be stated. *)

From Stdlib Require Import ZArith QArith Qcanon Qround String List.
From stdpp Require Import base numbers list strings gmap.

Local Open Scope Z_scope.

(** ** IEEE-like numbers without rounding *)

Module Float64.

Inductive t : Type :=
| Fin (q : Qc)
| PInf
| NInf
| NaN.

Definition zero : t := Fin (Q2Qc 0).
Definition one : t := Fin (Q2Qc 1).
Definition of_Z (z : Z) : t := Fin (Q2Qc (inject_Z z)).
Definition of_Q (q : Q) : t := Fin (Q2Qc q).

Definition Qc_ltb (a b : Qc) : bool :=
  match (a ?= b)%Qc with Lt => true | _ => false end.

Definition Qc_eqb (a b : Qc) : bool :=
  match (a ?= b)%Qc with Eq => true | _ => false end.

Definition is_nan (x : t) : bool :=
  match x with NaN => true | _ => false end.

Definition is_finite (x : t) : bool :=
  match x with Fin _ => true | _ => false end.

Definition is_infinite (x : t) : bool :=
  match x with PInf | NInf => true | _ => false end.

Definition is_zero (x : t) : bool :=
  match x with Fin a => Qc_eqb a (Q2Qc 0) | _ => false end.

Definition of_bool (b : bool) : t := if b then Fin (Q2Qc 1) else Fin (Q2Qc 0).

(** The integer part of a finite number. *)
Definition to_Z (x : t) : Z :=
  match x with Fin a => Qfloor (this a) | _ => 0%Z end.

(** [x < y]; false as soon as one side is NaN. *)
Definition ltb (x y : t) : bool :=
  match x, y with
  | NaN, _ | _, NaN => false
  | Fin a, Fin b => Qc_ltb a b
  | _, NInf => false
  | NInf, _ => true
  | PInf, _ => false
  | Fin _, PInf => true
  end.

(** [x > y] is [y < x]. *)
Definition gtb (x y : t) : bool := ltb y x.

(** [x <= y]; false as soon as one side is NaN. *)
Definition leb (x y : t) : bool :=
  match x, y with
  | NaN, _ | _, NaN => false
  | Fin a, Fin b => negb (Qc_ltb b a)
  | NInf, _ => true
  | _, PInf => true
  | _, NInf => false
  | PInf, _ => false
  end.

Definition neg (x : t) : t :=
  match x with
  | Fin a => Fin (- a)%Qc
  | PInf => NInf
  | NInf => PInf
  | NaN => NaN
  end.

Definition add (x y : t) : t :=
  match x, y with
  | NaN, _ | _, NaN => NaN
  | Fin a, Fin b => Fin (a + b)%Qc
  | PInf, NInf | NInf, PInf => NaN
  | PInf, _ | _, PInf => PInf
  | NInf, _ | _, NInf => NInf
  end.

(** IEEE subtraction is addition of the negated operand. *)
Definition sub (x y : t) : t := add x (neg y).

Definition mul (x y : t) : t :=
  match x, y with
  | NaN, _ | _, NaN => NaN
  | Fin a, Fin b => Fin (a * b)%Qc
  | Fin a, i | i, Fin a =>
      if Qc_eqb a (Q2Qc 0) then NaN
      else if Qc_ltb a (Q2Qc 0) then neg i else i
  | PInf, PInf | NInf, NInf => PInf
  | PInf, NInf | NInf, PInf => NInf
  end.

(** The infinity carrying the sign of [a], for a non-zero [a]. *)
Definition inf_of_sign (a : Qc) : t :=
  if Qc_ltb a (Q2Qc 0) then NInf else PInf.

(** Division as numpy float64 scalars perform it: a zero divisor yields
    an infinity (NaN for 0/0), never an exception.  The infinity has the
    sign of the dividend, as for the divisor +0.0; for the divisor -0.0,
    which the type does not tell apart, IEEE 754 gives the opposite one. *)
Definition div (x y : t) : t :=
  match x, y with
  | NaN, _ | _, NaN => NaN
  | Fin a, Fin b =>
      if Qc_eqb b (Q2Qc 0) then
        if Qc_eqb a (Q2Qc 0) then NaN else inf_of_sign a
      else Fin (a / b)%Qc
  | Fin _, _ => zero
  | _, Fin b => if Qc_ltb b (Q2Qc 0) then neg x else x
  | _, _ => NaN
  end.

End Float64.

Abbreviation float64 := Float64.t.

(** ** The Deviation Scorer's row function *)

(** One row of the frame the scorer walks over: the three corridor columns
    and the observation joined to them.  The source names the upper bound
    [hat]; the specification calls it the ceiling. *)
Record Row : Type := mkRow {
  mean : float64;
  floor : float64;
  hat : float64;
  actual : float64
}.

(** The lambda handed to [merged.apply(..., axis=1)].  [None] is Python's
    [None]: no number for the row. *)
Definition deviation (x : Row) : option float64 :=
  if Float64.gtb (floor x) (actual x) then
    Some (Float64.add (Float64.div (Float64.neg (floor x)) (actual x)) Float64.one)
  else if Float64.gtb (actual x) (hat x) then
    Some (Float64.sub (Float64.div (actual x) (hat x)) Float64.one)
  else None.

(** ** Frames *)

(** Nanoseconds since the epoch. *)
Definition Timestamp : Type := Z.

Definition minute_ns : Z := 60 * 1000000000.

Inductive Index : Type :=
| DatetimeIndex (labels : list Timestamp)
| PlainIndex (size : nat).          (* RangeIndex and every other kind *)

Inductive Column : Type :=
| NumericColumn (cells : list float64)   (* int or float dtype *)
| BoolColumn (cells : list bool)         (* bool dtype *)
| ObjectColumn (cells : list string).    (* anything else *)

(** The caller's frame [df]. *)
Record DataFrame : Type := mkDataFrame {
  df_index : Index;
  df_columns : list (string * Column)
}.

(** A frame indexed by timestamp whose rows have type [A]. *)
Definition Table (A : Type) : Type := list (Timestamp * A).

Definition TimeSeries : Type := Table float64.

Definition index_length (i : Index) : nat :=
  match i with
  | DatetimeIndex labels => length labels
  | PlainIndex n => n
  end.

(** [isinstance(df.index, pd.DatetimeIndex)] *)
Definition is_DatetimeIndex (i : Index) : bool :=
  match i with DatetimeIndex _ => true | PlainIndex _ => false end.

(** [pd.api.types.is_numeric_dtype]: [bool] counts as numeric. *)
Definition is_numeric_dtype (c : Column) : bool :=
  match c with
  | NumericColumn _ | BoolColumn _ => true
  | ObjectColumn _ => false
  end.

(** [col in df.columns] *)
Definition has_column (df : DataFrame) (col : string) : bool :=
  existsb (String.eqb col) (map fst (df_columns df)).

(** [df[col]] *)
Definition get_column (df : DataFrame) (col : string) : option Column :=
  snd <$> find (fun c => String.eqb col (fst c)) (df_columns df).

(** [df.empty]: some axis has length zero. *)
Definition empty (df : DataFrame) : bool :=
  (index_length (df_index df) =? 0)%nat || (length (df_columns df) =? 0)%nat.

(** [df[['value']]] of a frame indexed by time, row by row. *)
Definition value_series (df : DataFrame) : TimeSeries :=
  match df_index df, get_column df "value" with
  | DatetimeIndex labels, Some (NumericColumn cells) => combine labels cells
  | DatetimeIndex labels, Some (BoolColumn cells) =>
      combine labels (map Float64.of_bool cells)
  | _, _ => []
  end.

(** The index of a frame indexed by time. *)
Definition timestamps {A : Type} (t : Table A) : list Timestamp := map fst t.

(** ** [get_minutes_between_dates] *)

(** [Timedelta.total_seconds()], in microseconds.  A [Timedelta] splits
    into days, seconds, microseconds and nanoseconds by rounding down, and
    [total_seconds] adds up the first three: the microseconds of the
    difference, rounded down, its nanoseconds left out. *)
Definition total_microseconds (delta : Z) : Z := delta / 1000.

Definition minute_us : Z := 60 * 1000000.

(** [int((to_time - from_time).total_seconds() / 60)]: [int] truncates
    towards zero. *)
Definition get_minutes_between_dates (from_time to_time : Timestamp) : Z :=
  Z.quot (total_microseconds (to_time - from_time)) minute_us.

(** ** Interval Aggregator: [resample('30min').mean() / .min() / .max()] *)

Inductive Agg : Type := AggMean | AggMin | AggMax.

Definition floor_to (width t : Z) : Z := width * (t / width).

(** The left edges [lo, lo + width, ..., hi]. *)
Definition bucket_starts (width lo hi : Z) : list Z :=
  map (fun k => lo + width * Z.of_nat k) (seq 0 (S (Z.to_nat ((hi - lo) / width)))).

Definition in_bucket (width start t : Z) : bool :=
  (start <=? t) && (t <? start + width).

Definition fmin (x y : float64) : float64 := if Float64.ltb y x then y else x.
Definition fmax (x y : float64) : float64 := if Float64.ltb x y then y else x.

(** The aggregate of the non-missing cells of one bucket; a bucket without
    any yields NaN. *)
Definition aggregate (a : Agg) (cells : list float64) : float64 :=
  match cells with
  | [] => Float64.NaN
  | c :: cs =>
      match a with
      | AggMean => Float64.div (fold_left Float64.add cs c)
                     (Float64.of_Z (Z.of_nat (length cells)))
      | AggMin => fold_left fmin cs c
      | AggMax => fold_left fmax cs c
      end
  end.

Definition Zlist_min (z : Z) (zs : list Z) : Z := fold_left Z.min zs z.
Definition Zlist_max (z : Z) (zs : list Z) : Z := fold_left Z.max zs z.

Definition resample_agg (width : Z) (a : Agg) (s : TimeSeries) : TimeSeries :=
  match timestamps s with
  | [] => []
  | t :: ts =>
      let lo := floor_to width (Zlist_min t ts) in
      let hi := floor_to width (Zlist_max t ts) in
      map (fun b =>
             (b, aggregate a
                   (List.filter (fun c => negb (Float64.is_nan c))
                      (map snd (List.filter (fun r => in_bucket width b (fst r)) s)))))
          (bucket_starts width lo hi)
  end.

(** A row of [dfMean], [dfMin], [dfMax] once the [timestamp] and [item_id]
    columns are added; the frame's index is the bucket start. *)
Record SummaryRow : Type := mkSummaryRow {
  value : float64;
  timestamp : Timestamp;
  item_id : string
}.

Definition IntervalSummary : Type := Table SummaryRow.

(** [d['timestamp'] = d.index; d['item_id'] = 'single_item'] *)
Definition label_summary (s : TimeSeries) : IntervalSummary :=
  map (fun r => (fst r, mkSummaryRow (snd r) (fst r) "single_item")) s.

(** ** Forecast Requester: [generate_forecast] *)

Inductive Exception : Type :=
| ValueError (msg : string)
| AttributeError (msg : string)
| ZeroDivisionError (msg : string)
| PredictorError (msg : string).

(** The arguments [generate_forecast] gives to [TimeSeriesPredictor] and
    to [fit]. *)
Record PredictorConfig : Type := mkPredictorConfig {
  prediction_length : Z;
  quantile_levels : list Q;
  target : string;
  verbosity : Z;
  presets : string
}.

(** [TimeSeriesDataFrame]: rows keyed by [(item_id, timestamp)]. *)
Definition ItemKey : Type := (string * Timestamp)%type.

Definition TimeSeriesDataFrame : Type := list (ItemKey * float64).

(** A row of the predictor's answer: the columns ['mean'], ['0.1'],
    ['0.5'], ['0.9']. *)
Record ForecastRow : Type := mkForecastRow {
  fc_mean : float64;
  fc_q10 : float64;
  fc_q50 : float64;
  fc_q90 : float64
}.

Definition Forecast : Type := list (ItemKey * ForecastRow).

(** [TimeSeriesDataFrame(df)] reads the [item_id], [timestamp] and target
    columns. *)
Definition to_TimeSeriesDataFrame (df : IntervalSummary) : TimeSeriesDataFrame :=
  map (fun r => ((item_id (snd r), timestamp (snd r)), value (snd r))) df.

(** ** Corridor Merger *)

(** [pd.merge(l, r, left_index=True, right_index=True, how='inner')]:
    every pair of rows with equal index labels, in the order of the left
    frame. *)
Definition merge_inner {K A B : Type} `{EqDecision K}
    (l : list (K * A)) (r : list (K * B)) : list (K * (A * B)) :=
  flat_map (fun x =>
              map (fun y => (fst x, (snd x, snd y)))
                  (List.filter (fun y => bool_decide (fst x = fst y)) r))
           l.

(** [f[[c]]]: one column of a forecast. *)
Definition select {K : Type} (c : ForecastRow -> float64)
    (f : list (K * ForecastRow)) : list (K * float64) :=
  map (fun r => (fst r, c (snd r))) f.

(** A row of the corridor.  The columns ['0.1'] and ['0.9'] get their final
    names [floor] and [hat] from the [rename] that ends the upsampling
    chain; the record uses those names throughout. *)
Record Band : Type := mkBand {
  band_mean : float64;
  band_floor : float64;
  band_hat : float64
}.

(** The two merges of [get_anomaly_summary], still keyed by
    [(item_id, timestamp)]. *)
Definition merge_forecasts (forecastMean forecastMin forecastMax : Forecast)
  : list (ItemKey * Band) :=
  map (fun r => (fst r, mkBand (fst (fst (snd r))) (snd (fst (snd r))) (snd (snd r))))
      (merge_inner
         (merge_inner (select fc_mean forecastMean) (select fc_q10 forecastMin))
         (select fc_q90 forecastMax)).

(** [.reset_index().set_index('timestamp').drop(['item_id'], axis=1)] *)
Definition index_by_timestamp {A : Type} (t : list (ItemKey * A)) : Table A :=
  map (fun r => (snd (fst r), snd r)) t.

Definition corridor (forecastMean forecastMin forecastMax : Forecast) : Table Band :=
  index_by_timestamp (merge_forecasts forecastMean forecastMin forecastMax).

(** ** Temporal Upsampler: [.resample('1min').interpolate(method='time')] *)

Definition nan_band : Band := mkBand Float64.NaN Float64.NaN Float64.NaN.

Definition lookup_row {A : Type} (t : Timestamp) (c : Table A) : option A :=
  snd <$> find (fun r => Z.eqb (fst r) t) c.

(** Re-indexing onto the regular grid that spans the frame: a grid point
    that is no label of the frame gets a row of NaN. *)
Definition asfreq (width : Z) (c : Table Band) : Table Band :=
  match timestamps c with
  | [] => []
  | t :: ts =>
      map (fun b => (b, default nan_band (lookup_row b c)))
          (bucket_starts width (floor_to width (Zlist_min t ts))
                               (floor_to width (Zlist_max t ts)))
  end.

Definition known (p : Timestamp * float64) : bool :=
  negb (Float64.is_nan (snd p)).

(** Linear interpolation on the time axis.  A missing cell between two
    known ones lies on the segment joining them; after the last known cell
    the value is carried forward; before the first it stays missing. *)
Definition interpolate_at (pts : TimeSeries) (p : Timestamp * float64) : float64 :=
  if known p then snd p
  else
    match last (List.filter (fun q => (fst q <? fst p) && known q) pts),
          head (List.filter (fun q => (fst p <? fst q) && known q) pts) with
    | Some (t0, y0), Some (t1, y1) =>
        Float64.add
          (Float64.mul (Float64.div (Float64.sub y1 y0) (Float64.of_Z (t1 - t0)))
                       (Float64.of_Z (fst p - t0)))
          y0
    | Some (_, y0), None => y0
    | None, _ => Float64.NaN
    end.

Definition column_of (col : Band -> float64) (c : Table Band) : TimeSeries :=
  map (fun r => (fst r, col (snd r))) c.

Definition interpolate_time (c : Table Band) : Table Band :=
  map (fun r =>
         (fst r,
          mkBand (interpolate_at (column_of band_mean c) (fst r, band_mean (snd r)))
                 (interpolate_at (column_of band_floor c) (fst r, band_floor (snd r)))
                 (interpolate_at (column_of band_hat c) (fst r, band_hat (snd r)))))
      c.

(** Re-indexing refuses an index that repeats a label. *)
Definition upsample (width : Z) (c : Table Band) : Exception + Table Band :=
  if bool_decide (NoDup (timestamps c))
  then inr (interpolate_time (asfreq width c))
  else inl (ValueError "cannot reindex on an axis with duplicate labels").

(** ** Deviation Scorer *)

(** The rows of [pd.merge(merged, df[['value']], ..., how='inner')
    .rename(columns={'value': 'actual'})] when both frames are indexed by
    time. *)
Definition join_actual (up : Table Band) (actuals : TimeSeries) : Table Row :=
  map (fun r =>
         (fst r,
          mkRow (band_mean (fst (snd r))) (band_floor (fst (snd r)))
                (band_hat (fst (snd r))) (snd (snd r))))
      (merge_inner up actuals).

(** The merge itself.  Resampling a frame without rows does not give back
    a frame indexed by time: pandas 2 leaves it with a MultiIndex, and
    [pd.merge] refuses to join that index with the time index of [df].  An
    upsampled corridor has no row exactly when the corridor had none. *)
Definition merge_actual (up : Table Band) (actuals : TimeSeries)
  : Exception + Table Row :=
  match up with
  | [] => inl (ValueError "cannot join with no overlapping index names")
  | _ :: _ => inr (join_actual up actuals)
  end.

(** A row of the final frame: the joined row and its [deviation] cell. *)
Record ScoredRow : Type := mkScoredRow {
  scored : Row;
  deviation_cell : option float64
}.

Definition DeviationTable : Type := Table ScoredRow.

(** The frame with its [deviation] column when every row is a row of
    float64 cells: the lambda is [deviation] and raises on no row. *)
Definition add_deviation (t : Table Row) : DeviationTable :=
  map (fun r => (fst r, mkScoredRow (snd r) (deviation (snd r)))) t.

Definition deviation_table (up : Table Band) (actuals : TimeSeries) : DeviationTable :=
  add_deviation (join_actual up actuals).

(** What a row handed to the lambda is made of.  [apply(..., axis=1)]
    builds each row from the four columns in their common type.  With an
    [int] or [float] column [value] that type is float64 and the cells are
    numpy scalars; with a [bool] column it is [object], and the cells are
    Python floats and a Python bool. *)
Inductive RowDtype : Type := Float64Rows | ObjectRows.

Definition row_dtype (df : DataFrame) : RowDtype :=
  match get_column df "value" with
  | Some (BoolColumn _) => ObjectRows
  | _ => Float64Rows
  end.

(** [x / y] on Python numbers: a zero divisor raises, whatever its sign. *)
Definition truediv (x y : float64) : Exception + float64 :=
  if Float64.is_zero y then inl (ZeroDivisionError "float division by zero")
  else inr (Float64.div x y).

(** The lambda on a row of Python objects. *)
Definition deviation_object (x : Row) : Exception + option float64 :=
  if Float64.gtb (floor x) (actual x) then
    match truediv (Float64.neg (floor x)) (actual x) with
    | inl e => inl e
    | inr q => inr (Some (Float64.add q Float64.one))
    end
  else if Float64.gtb (actual x) (hat x) then
    match truediv (actual x) (hat x) with
    | inl e => inl e
    | inr q => inr (Some (Float64.sub q Float64.one))
    end
  else inr None.

Definition score_row (dtype : RowDtype) (x : Row) : Exception + option float64 :=
  match dtype with
  | Float64Rows => inr (deviation x)
  | ObjectRows => deviation_object x
  end.

(** [merged.apply(f, axis=1)] and the assignment of its result to the
    column [deviation]: the rows are visited in index order and the first
    one on which [f] raises ends the walk. *)
Fixpoint apply_axis1 (f : Row -> Exception + option float64) (t : Table Row)
  : Exception + DeviationTable :=
  match t with
  | [] => inr []
  | r :: rest =>
      match f (snd r) with
      | inl e => inl e
      | inr cell =>
          match apply_axis1 f rest with
          | inl e => inl e
          | inr scored_rest => inr ((fst r, mkScoredRow (snd r) cell) :: scored_rest)
          end
      end
  end.

(** [merged['deviation'] = merged.apply(lambda x: ..., axis=1)] *)
Definition apply_deviation (dtype : RowDtype) (t : Table Row)
  : Exception + DeviationTable :=
  apply_axis1 (score_row dtype) t.

(** ** The store of shared objects and the calls made *)

(** A Python frame object: the caller's frame, or the frame the pipeline
    builds. *)
Inductive PyObject : Type :=
| FrameObj (df : DataFrame)
| TableObj (t : DeviationTable).

(** The address of an object in the store. *)
Definition loc : Type := nat.

(** The stages of the pipeline, recorded as they are entered. *)
Inductive Call : Type :=
| CallResample (a : Agg)
| CallGenerateForecast (a : Agg)
| CallMerge
| CallInterpolate
| CallJoinActual
| CallApply
| CallAnomalyResult.

(** [readonly] lists the objects of the store whose storage refuses a
    write. *)
Record World : Type := mkWorld {
  store : list PyObject;
  calls : list Call;
  readonly : list loc
}.

(** Computations that read and extend the store, record calls and may
    raise. *)
Definition M (A : Type) : Type := World -> (Exception + A) * World.

Definition ret {A : Type} (a : A) : M A := fun w => (inr a, w).

Definition raise {A : Type} (e : Exception) : M A := fun w => (inl e, w).

Definition bind {A B : Type} (m : M A) (k : A -> M B) : M B :=
  fun w =>
    match m w with
    | (inl e, w') => (inl e, w')
    | (inr a, w') => k a w'
    end.

Declare Scope py_scope.
Delimit Scope py_scope with py.
Notation "x <- m ;; k" := (bind m (fun x => k))
  (at level 20, m at level 99, k at level 200, only parsing) : py_scope.
Notation "m ;; k" := (bind m (fun _ => k))
  (at level 100, k at level 200, only parsing, right associativity) : py_scope.

Local Open Scope py_scope.

Definition lift {A : Type} (r : Exception + A) : M A :=
  match r with
  | inl e => raise e
  | inr a => ret a
  end.

Definition enter (c : Call) : M unit :=
  fun w => (inr tt, mkWorld (store w) (calls w ++ [c]) (readonly w)).

(** A fresh object. *)
Definition alloc (o : PyObject) : M loc :=
  fun w => (inr (length (store w)), mkWorld (store w ++ [o]) (calls w) (readonly w)).

(** Dereferencing; an address outside the store stands for [None]. *)
Definition deref (l : loc) : M PyObject :=
  fun w =>
    match store w !! l with
    | Some o => (inr o, w)
    | None => (inl (AttributeError "'NoneType' object has no attribute"), w)
    end.

(** [o.copy()]: a new object with a copy of the data of [o]. *)
Definition copy (l : loc) : M loc :=
  o <- deref l ;; alloc o.

(** A numpy array: the object whose cells it shows, and its own
    [flags.writeable]. *)
Record ndarray : Type := mk_ndarray {
  array_of : loc;
  writeable : bool
}.

(** [o.values]: a new array object on the cells of [o].  It is a view of
    them or a copy; in both cases its flags are its own, and they start
    from what the storage of [o] allows. *)
Definition values (l : loc) : M ndarray :=
  _ <- deref l ;;
  (fun w => (inr (mk_ndarray l (negb (bool_decide (l ∈ readonly w)))), w)).

(** [a.flags.writeable = False] *)
Definition clear_writeable (a : ndarray) : ndarray :=
  mk_ndarray (array_of a) false.

(** [o.values.flags.writeable = False]: the flag that is cleared is the
    one of the array [o.values] has just handed out.  Nothing refers to
    that array afterwards; the store and the flags of the stored objects
    are as before. *)
Definition set_values_readonly (l : loc) : M ndarray :=
  a <- values l ;; ret (clear_writeable a).

(** An in-place change of the object at [l], as a caller may perform
    through a reference it holds. *)
Definition mutate (l : loc) (f : PyObject -> PyObject) : M unit :=
  o <- deref l ;;
  (fun w => (inr tt, mkWorld (<[l := f o]> (store w)) (calls w) (readonly w))).

(** An assignment into the cells of the object at [l], such as
    [o.iloc[i, j] = v]: refused when the storage of the object is
    read-only. *)
Definition setitem (l : loc) (f : PyObject -> PyObject) : M unit :=
  fun w =>
    if bool_decide (l ∈ readonly w)
    then (inl (ValueError "assignment destination is read-only"), w)
    else mutate l f w.

(** ** Result Container: [AnomalyResult] *)

Record AnomalyResult : Type := mkAnomalyResult {
  _forecast : loc;
  _actual : loc
}.

Module AnomalyResult_.

(** [__init__] *)
Definition init (forecast_data actual_data : loc) : M AnomalyResult :=
  let self_forecast := forecast_data in
  self_actual <- copy actual_data ;;
  set_values_readonly self_forecast ;;
  set_values_readonly self_actual ;;
  ret (mkAnomalyResult self_forecast self_actual).

(** The [forecast] property. *)
Definition forecast (self : AnomalyResult) : M loc := copy (_forecast self).

(** The [actual] property. *)
Definition actual (self : AnomalyResult) : M loc := copy (_actual self).

End AnomalyResult_.

(** ** [get_anomaly_summary] *)

(** In a float column [None] is stored as NaN. *)
Definition cell_of (o : option float64) : float64 := default Float64.NaN o.

(** A pipeline frame seen through the [DataFrame] interface: a time index
    and five numeric columns. *)
Definition table_frame (t : DeviationTable) : DataFrame :=
  mkDataFrame (DatetimeIndex (timestamps t))
    [ ("mean"%string, NumericColumn (map (fun r => mean (scored (snd r))) t));
      ("floor"%string, NumericColumn (map (fun r => floor (scored (snd r))) t));
      ("hat"%string, NumericColumn (map (fun r => hat (scored (snd r))) t));
      ("actual"%string, NumericColumn (map (fun r => actual (scored (snd r))) t));
      ("deviation"%string, NumericColumn (map (fun r => cell_of (deviation_cell (snd r))) t)) ].

Definition as_frame (o : PyObject) : DataFrame :=
  match o with
  | FrameObj df => df
  | TableObj t => table_frame t
  end.

Definition required_column : list string := ["value"%string].

(** The four checks that open [get_anomaly_summary], in source order. *)
Definition validate (df : DataFrame) : Exception + unit :=
  if negb (forallb (has_column df) required_column) then
    inl (ValueError "DataFrame must contain column: {'value'}")
  else if empty df then
    inl (ValueError "DataFrame cannot be empty")
  else if negb (from_option is_numeric_dtype false (get_column df "value")) then
    inl (ValueError "'value' column must contain numeric data")
  else if negb (is_DatetimeIndex (df_index df)) then
    inl (ValueError "DataFrame must have a DatetimeIndex")
  else inr tt.

Definition interval_length : Z := 30.

Section Pipeline.

(** The forecasting capability behind [TimeSeriesPredictor(...).fit(...)
    .predict(...)], external to the notebook. *)
Variable fit_predict : PredictorConfig -> TimeSeriesDataFrame -> Exception + Forecast.

Definition generate_forecast (df : IntervalSummary) (prediction_length : Z)
  : Exception + Forecast :=
  let data := to_TimeSeriesDataFrame df in
  fit_predict
    (mkPredictorConfig prediction_length [0.1%Q; 0.5%Q; 0.9%Q] "value" 0 "bolt_tiny")
    data.

Definition resample_summary (a : Agg) (dfHistoricalData : TimeSeries) : M IntervalSummary :=
  enter (CallResample a) ;;
  ret (label_summary (resample_agg (interval_length * minute_ns) a dfHistoricalData)).

Definition request_forecast (a : Agg) (df : IntervalSummary) (prediction_intervals : Z)
  : M Forecast :=
  enter (CallGenerateForecast a) ;;
  lift (generate_forecast df prediction_intervals).

Definition get_anomaly_summary (df : loc) (fromTime toTime : Timestamp)
  : M AnomalyResult :=
  o <- deref df ;;
  let d := as_frame o in
  lift (validate d) ;;
  let prediction_steps := get_minutes_between_dates fromTime toTime in
  let prediction_intervals := Z.quot prediction_steps interval_length in
  let dfHistoricalData := List.filter (fun r => fst r <? fromTime) (value_series d) in
  dfMean <- resample_summary AggMean dfHistoricalData ;;
  dfMin <- resample_summary AggMin dfHistoricalData ;;
  dfMax <- resample_summary AggMax dfHistoricalData ;;
  forecastMean <- request_forecast AggMean dfMean prediction_intervals ;;
  forecastMin <- request_forecast AggMin dfMin prediction_intervals ;;
  forecastMax <- request_forecast AggMax dfMax prediction_intervals ;;
  enter CallMerge ;;
  let merged := corridor forecastMean forecastMin forecastMax in
  enter CallInterpolate ;;
  merged <- lift (upsample minute_ns merged) ;;
  enter CallJoinActual ;;
  merged <- lift (merge_actual merged (value_series d)) ;;
  enter CallApply ;;
  merged <- lift (apply_deviation (row_dtype d) merged) ;;
  forecast_data <- alloc (TableObj merged) ;;
  enter CallAnomalyResult ;;
  AnomalyResult_.init forecast_data df.

End Pipeline.

(** ** A stand-in predictor and sample frames, to run the pipeline *)

(** Repeats the last observed value over the horizon, one 30-minute bucket
    after another, for the item of the last row. *)
Definition persistence_predictor (cfg : PredictorConfig) (data : TimeSeriesDataFrame)
  : Exception + Forecast :=
  match last data with
  | None => inl (PredictorError "no history")
  | Some ((item, t), v) =>
      if prediction_length cfg <=? 0 then inl (PredictorError "empty horizon")
      else
        inr (map (fun k =>
                    ((item, t + interval_length * minute_ns * Z.of_nat k),
                     mkForecastRow v v v v))
                 (seq 1 (Z.to_nat (prediction_length cfg))))
  end.

Definition minutes (n : Z) : Timestamp := n * minute_ns.

Definition frame_of (rows : list (Z * Z)) : DataFrame :=
  mkDataFrame (DatetimeIndex (map (fun r => minutes (fst r)) rows))
    [("value"%string, NumericColumn (map (fun r => Float64.of_Z (snd r)) rows))].

(** A stand-in whose answer depends on the series: as
    [persistence_predictor], but starting as many minutes late as the last
    observed value says.  Series that end on different values, less than
    30 apart, get answers that share no timestamp. *)
Definition drifting_predictor (cfg : PredictorConfig) (data : TimeSeriesDataFrame)
  : Exception + Forecast :=
  match last data with
  | None => inl (PredictorError "no history")
  | Some ((item, t), v) =>
      if prediction_length cfg <=? 0 then inl (PredictorError "empty horizon")
      else
        inr (map (fun k =>
                    ((item, t + minutes (Float64.to_Z v)
                            + interval_length * minute_ns * Z.of_nat k),
                     mkForecastRow v v v v))
                 (seq 1 (Z.to_nat (prediction_length cfg))))
  end.

(** A frame with a [bool] column [value]. *)
Definition bool_frame_of (rows : list (Z * bool)) : DataFrame :=
  mkDataFrame (DatetimeIndex (map (fun r => minutes (fst r)) rows))
    [("value"%string, BoolColumn (map snd rows))].

(** A switch that is on at minutes 0, 30 and 60, and off at minute 90. *)
Definition switch_df : DataFrame :=
  bool_frame_of [(0, true); (30, true); (60, true); (90, false)].

(** History at minutes 0, 30 and 45: the last bucket holds 10 and 30. *)
Definition spread_df : DataFrame :=
  frame_of [(0, 10); (30, 10); (45, 30); (60, 10); (90, 4)].

(** History at minutes 0 and 30, observations at minutes 60, 61 and 90. *)
Definition sample_df : DataFrame :=
  frame_of [(0, 10); (30, 10); (60, 10); (61, 50); (90, 4)].

(** The same observations with the first two rows swapped: the index is
    not increasing. *)
Definition unsorted_df : DataFrame :=
  frame_of [(30, 10); (0, 10); (60, 10); (61, 50); (90, 4)].

Definition world_of (df : DataFrame) : World := mkWorld [FrameObj df] [] [].

(** Rows used in the examples: a corridor whose bounds cross, and a row
    inside its corridor. *)
Definition row_of (m f h a : Z) : Row :=
  mkRow (Float64.of_Z m) (Float64.of_Z f) (Float64.of_Z h) (Float64.of_Z a).

Definition crossed_row : Row := row_of 2 3 1 2.
Definition inside_row : Row := row_of 2 1 3 2.
Definition above_row : Row := row_of 10 5 20 50.
Definition zero_actual_row : Row := row_of 2 1 3 0.

(** ** Notions used to state the properties *)

Definition timestamp_set {A : Type} (t : Table A) : gset Z :=
  list_to_set (timestamps t).

Definition forecast_timestamps (f : Forecast) : list Timestamp :=
  map (fun r => snd (fst r)) f.

Definition forecast_timestamp_set (f : Forecast) : gset Z :=
  list_to_set (forecast_timestamps f).

(** Every row of the forecast belongs to the one item [item]. *)
Definition single_item (item : string) (f : Forecast) : Prop :=
  Forall (fun r => fst (fst r) = item) f.

Fixpoint strictly_increasing (l : list Z) : bool :=
  match l with
  | a :: ((b :: _) as tl) => (a <? b) && strictly_increasing tl
  | _ => true
  end.

Definition index_strictly_increasing (df : DataFrame) : bool :=
  match df_index df with
  | DatetimeIndex labels => strictly_increasing labels
  | PlainIndex _ => true
  end.

(** The history, the horizon and the three forecasts of a run, as
    [get_anomaly_summary] computes them. *)
Definition history (d : DataFrame) (fromTime : Timestamp) : TimeSeries :=
  List.filter (fun r => fst r <? fromTime) (value_series d).

Definition horizon (fromTime toTime : Timestamp) : Z :=
  Z.quot (get_minutes_between_dates fromTime toTime) interval_length.

Definition forecast_of
    (fit_predict : PredictorConfig -> TimeSeriesDataFrame -> Exception + Forecast)
    (a : Agg) (d : DataFrame) (fromTime toTime : Timestamp) : Exception + Forecast :=
  generate_forecast fit_predict
    (label_summary (resample_agg (interval_length * minute_ns) a (history d fromTime)))
    (horizon fromTime toTime).

Definition all_calls : list Call :=
  [CallResample AggMean; CallResample AggMin; CallResample AggMax;
   CallGenerateForecast AggMean; CallGenerateForecast AggMin;
   CallGenerateForecast AggMax; CallMerge; CallInterpolate; CallJoinActual;
   CallApply; CallAnomalyResult].

(** A client of the container: read through an accessor, change what was
    returned in place, read again.  It reports what the first read gave,
    what became of it, and what the second read gave. *)
Definition read_mutate_read (accessor : AnomalyResult -> M loc)
    (self : AnomalyResult) (f : PyObject -> PyObject)
  : M (PyObject * PyObject * PyObject) :=
  l1 <- accessor self ;;
  before <- deref l1 ;;
  mutate l1 f ;;
  after <- deref l1 ;;
  l2 <- accessor self ;;
  again <- deref l2 ;;
  ret (before, after, again).

(** Sample forecasts: two buckets each, sharing the bucket at minute 90
    only. *)
Definition flat_forecast (v : Z) (ts : list Z) : Forecast :=
  map (fun t => (("single_item"%string, minutes t),
                 mkForecastRow (Float64.of_Z v) (Float64.of_Z (v - 1))
                               (Float64.of_Z v) (Float64.of_Z (v + 1))))
      ts.


(** What a request delivered, [[]] when it raised. *)
Definition delivered {A : Type} (r : Exception + list A) : list A :=
  match r with
  | inr l => l
  | inl _ => []
  end.

(** A change in place that discards the rows, and a store holding a
    one-row table and the sample frame. *)
Definition wipe (o : PyObject) : PyObject := TableObj [].

Definition sample_world : World :=
  mkWorld [TableObj (deviation_table [(minutes 60, mkBand Float64.one Float64.one Float64.one)]
                       [(minutes 60, Float64.zero)]);
           FrameObj sample_df] [] [].

(** The rational a finite cell holds, to display results. *)
Definition rational_of (x : float64) : option Q :=
  match x with
  | Float64.Fin q => Some (this q)
  | _ => None
  end.

Definition deviation_cells (o : option PyObject)
  : list (Timestamp * option (option Q)) :=
  match o with
  | Some (TableObj t) => map (fun r => (fst r, rational_of <$> deviation_cell (snd r))) t
  | _ => []
  end.

(** ** Further notions: the samples of a bucket *)

(** The non-missing cells of the samples that fall in the bucket starting
    at [start], as [resample_agg] collects them. *)
Definition bucket_cells (width start : Z) (s : TimeSeries) : list float64 :=
  List.filter (fun c => negb (Float64.is_nan c))
    (map snd (List.filter (fun r => in_bucket width start (fst r)) s)).

(** ** Further notions: a caller that keeps its references *)

(** A caller builds a container, then changes in place the object at
    [target], one of the two it passed in, and reads the container through
    [accessor]. *)
Definition construct_mutate_read (forecast_data actual_data target : loc)
    (f : PyObject -> PyObject) (accessor : AnomalyResult -> M loc) : M PyObject :=
  self <- AnomalyResult_.init forecast_data actual_data ;;
  mutate target f ;;
  l <- accessor self ;;
  deref l.

(** The keys of a forecast. *)
Definition forecast_keys (f : Forecast) : list ItemKey := map fst f.

(** ** The plotting functions *)

(** [plot_deviation], [plot_prediction] and [plot_combined_graphs] read
    the container through its two accessors and assemble a figure from
    what they read.  The figure is modelled by its content (traces and
    layout), and [fig.show()] by returning it. *)
Module Plot.

(** Besides what the store operations raise, indexing a frame by a column
    it does not have raises [KeyError]. *)
Inductive PlotException : Type :=
| KeyError (key : string)
| Raised (e : Exception).

Definition P (A : Type) : Type := World -> (PlotException + A) * World.

Definition ret {A : Type} (a : A) : P A := fun w => (inr a, w).

Definition raise {A : Type} (e : PlotException) : P A := fun w => (inl e, w).

Definition bind {A B : Type} (m : P A) (k : A -> P B) : P B :=
  fun w =>
    match m w with
    | (inl e, w') => (inl e, w')
    | (inr a, w') => k a w'
    end.

Definition lift_M {A : Type} (m : M A) : P A :=
  fun w =>
    match m w with
    | (inl e, w') => (inl (Raised e), w')
    | (inr a, w') => (inr a, w')
    end.

Declare Scope plot_scope.
Delimit Scope plot_scope with plot.
Notation "x <- m ;; k" := (bind m (fun x => k))
  (at level 20, m at level 99, k at level 200, only parsing) : plot_scope.

Local Open Scope plot_scope.

(** [go.Scatter(x=..., y=..., mode=..., name=..., fill=..., line=dict(color=...))];
    an argument that is not given is [None]. *)
Record Scatter : Type := mkScatter {
  trace_x : Index;
  trace_y : Column;
  trace_mode : option string;
  trace_name : option string;
  trace_fill : option string;
  trace_line_color : option string
}.

(** [make_subplots(rows=..., cols=..., shared_xaxes=..., vertical_spacing=...)] *)
Record Subplots : Type := mkSubplots {
  rows : nat;
  cols : nat;
  shared_xaxes : bool;
  vertical_spacing : Q
}.

(** An axis range [[lo, hi]]; [None] is the missing value an empty index
    gives for its minimum and maximum. *)
Definition Range : Type := (option Z * option Z)%type.

Record Layout : Type := mkLayout {
  title : option string;
  xaxis_title : option string;
  yaxis_title : option string;
  template : option string;
  height : option Z;
  showlegend : option bool;
  xaxis_range : option Range;
  xaxis2_range : option Range;
  yaxes_titles : list (nat * nat * string)
}.

(** A figure: its subplot grid if it has one, its traces with the cell
    each was added to, and its layout. *)
Record Figure : Type := mkFigure {
  grid : option Subplots;
  data : list (Scatter * option (nat * nat));
  layout : Layout
}.

(** [index.min()] and [index.max()] *)
Definition index_min (i : Index) : option Z :=
  match i with
  | DatetimeIndex [] => None
  | DatetimeIndex (t :: ts) => Some (Zlist_min t ts)
  | PlainIndex O => None
  | PlainIndex (S _) => Some 0
  end.

Definition index_max (i : Index) : option Z :=
  match i with
  | DatetimeIndex [] => None
  | DatetimeIndex (t :: ts) => Some (Zlist_max t ts)
  | PlainIndex O => None
  | PlainIndex (S n) => Some (Z.of_nat n)
  end.

(** [anomalyResult.<accessor>.index]: one call of the accessor. *)
Definition read_index (accessor : AnomalyResult -> M loc) (r : AnomalyResult) : P Index :=
  l <- lift_M (accessor r) ;;
  o <- lift_M (deref l) ;;
  ret (df_index (as_frame o)).

(** [anomalyResult.<accessor>[key]]: one call of the accessor. *)
Definition read_column (accessor : AnomalyResult -> M loc) (r : AnomalyResult)
    (key : string) : P Column :=
  l <- lift_M (accessor r) ;;
  o <- lift_M (deref l) ;;
  match get_column (as_frame o) key with
  | Some c => ret c
  | None => raise (KeyError key)
  end.

(** [go.Scatter(x=anomalyResult.<accessor>.index, y=anomalyResult.<accessor>[key], ...)] *)
Definition scatter_of (accessor : AnomalyResult -> M loc) (r : AnomalyResult)
    (key : string) (mode name fill line_color : option string) : P Scatter :=
  x <- read_index accessor r ;;
  y <- read_column accessor r key ;;
  ret (mkScatter x y mode name fill line_color).

(** [[anomalyResult.forecast.index.min(), anomalyResult.forecast.index.max()]] *)
Definition forecast_range (r : AnomalyResult) : P Range :=
  lo <- read_index AnomalyResult_.forecast r ;;
  hi <- read_index AnomalyResult_.forecast r ;;
  ret (index_min lo, index_max hi).

Definition plot_deviation (anomalyResult : AnomalyResult) : P Figure :=
  t <- scatter_of AnomalyResult_.forecast anomalyResult "deviation"
         (Some "markers"%string) (Some "Deviation"%string) None None ;;
  range <- forecast_range anomalyResult ;;
  ret (mkFigure None [(t, None)]
         (mkLayout (Some "Deviation"%string) (Some "Date"%string) (Some "Value"%string)
            (Some "plotly_white"%string) None None (Some range) None [])).

Definition plot_prediction (anomalyResult : AnomalyResult) : P Figure :=
  t1 <- scatter_of AnomalyResult_.forecast anomalyResult "mean"
          (Some "lines"%string) (Some "Forecast"%string) None None ;;
  t2 <- scatter_of AnomalyResult_.forecast anomalyResult "floor"
          None None None (Some "rgba(0,100,80,0.2)"%string) ;;
  t3 <- scatter_of AnomalyResult_.forecast anomalyResult "hat"
          None (Some "Confidence interval"%string) (Some "tonexty"%string)
          (Some "rgba(0,100,80,0.1)"%string) ;;
  t4 <- scatter_of AnomalyResult_.actual anomalyResult "value"
          (Some "lines"%string) (Some "Actual"%string) None None ;;
  range <- forecast_range anomalyResult ;;
  ret (mkFigure None [(t1, None); (t2, None); (t3, None); (t4, None)]
         (mkLayout (Some "Forecast"%string) (Some "Date"%string) (Some "Value"%string)
            (Some "plotly_white"%string) None None (Some range) None [])).

Definition plot_combined_graphs (anomalyResult : AnomalyResult) : P Figure :=
  t1 <- scatter_of AnomalyResult_.forecast anomalyResult "mean"
          (Some "lines"%string) (Some "Forecast"%string) None None ;;
  t2 <- scatter_of AnomalyResult_.forecast anomalyResult "floor"
          None (Some "Lower bound"%string) None (Some "rgba(0,100,80,0.2)"%string) ;;
  t3 <- scatter_of AnomalyResult_.forecast anomalyResult "hat"
          None (Some "Upper bound"%string) (Some "tonexty"%string)
          (Some "rgba(0,100,80,0.1)"%string) ;;
  t4 <- scatter_of AnomalyResult_.actual anomalyResult "value"
          (Some "lines"%string) (Some "Actual"%string) None None ;;
  t5 <- scatter_of AnomalyResult_.forecast anomalyResult "deviation"
          (Some "markers"%string) (Some "Deviation"%string) None None ;;
  xaxis_range <- forecast_range anomalyResult ;;
  ret (mkFigure (Some (mkSubplots 2 1 true 0.1%Q))
         [(t1, Some (1, 1)%nat); (t2, Some (1, 1)%nat); (t3, Some (1, 1)%nat);
          (t4, Some (1, 1)%nat); (t5, Some (2, 1)%nat)]
         (mkLayout (Some "Forecast and Deviation Analysis"%string) None None
            (Some "plotly_white"%string) (Some 800%Z) (Some true)
            (Some xaxis_range) (Some xaxis_range)
            [((1, 1)%nat, "Value"%string); ((2, 1)%nat, "Deviation"%string)])).

End Plot.

(** A plotting computation that only adds objects to the store, at most
    [n] of them, and enters no stage. *)
Definition allocates_at_most {A : Type} (n : nat) (m : Plot.P A) : Prop :=
  forall w,
    exists extra,
      store (snd (m w)) = store w ++ extra /\
      (length extra <= n)%nat /\
      calls (snd (m w)) = calls w.

(** The index and the columns of a deviation table, as a figure shows
    them. *)
Definition table_index (t : DeviationTable) : Index := DatetimeIndex (timestamps t).

Definition table_column (t : DeviationTable) (key : string) : option Column :=
  get_column (table_frame t) key.

(** * Properties *)

(** ** Arithmetic of [Float64] *)

Section Float64Facts.

Import Float64.
Local Open Scope Qc_scope.

Lemma Qc_ltb_lt (a b : Qc) : Qc_ltb a b = true <-> a < b.
Proof.
  unfold Qc_ltb. rewrite Qclt_alt.
  destruct (a ?= b); split; congruence.
Qed.

Lemma Qc_eqb_eq (a b : Qc) : Qc_eqb a b = true <-> a = b.
Proof.
  unfold Qc_eqb. rewrite Qceq_alt.
  destruct (a ?= b); split; congruence.
Qed.

Lemma Qc_eqb_neq (a b : Qc) : Qc_eqb a b = false <-> a <> b.
Proof.
  rewrite <- Qc_eqb_eq. destruct (Qc_eqb a b); split; congruence.
Qed.

Lemma Qc_ltb_asym (a b : Qc) : Qc_ltb a b = true -> Qc_ltb b a = false.
Proof.
  intros H. apply Qc_ltb_lt in H.
  destruct (Qc_ltb b a) eqn:E; [|reflexivity].
  apply Qc_ltb_lt in E. exfalso. apply (Qclt_not_le _ _ H).
  now apply Qclt_le_weak.
Qed.

Lemma Qc_ltb_opp_0 (a : Qc) :
  a <> 0 -> Qc_ltb (- a) 0 = negb (Qc_ltb a 0).
Proof.
  intros Ha.
  destruct (Qc_ltb a 0) eqn:E; simpl.
  - apply Qc_ltb_lt in E.
    destruct (Qc_ltb (- a) 0) eqn:E'; [|reflexivity].
    apply Qc_ltb_lt in E'. exfalso.
    apply (Qcplus_lt_mono_r _ _ a) in E'.
    rewrite Qcplus_0_l, Qcplus_comm, Qcplus_opp_r in E'.
    apply (Qclt_not_le _ _ E). now apply Qclt_le_weak.
  - apply Qc_ltb_lt.
    apply (Qcplus_lt_mono_r _ _ a).
    rewrite Qcplus_0_l, Qcplus_comm, Qcplus_opp_r.
    destruct (Qclt_le_dec 0 a) as [Hlt|Hle]; [assumption|].
    exfalso. apply Qcle_lt_or_eq in Hle as [Hlt|Heq]; [|congruence].
    apply Qc_ltb_lt in Hlt. congruence.
Qed.

Lemma Qcopp_eq_0 (a : Qc) : - a = 0 <-> a = 0.
Proof.
  split; intros H.
  - rewrite <- (Qcopp_involutive a), H. reflexivity.
  - subst. reflexivity.
Qed.

Lemma Qc_eqb_opp_0 (a : Qc) : Qc_eqb (- a) 0 = Qc_eqb a 0.
Proof.
  destruct (Qc_eqb a 0) eqn:E.
  - apply Qc_eqb_eq. apply Qc_eqb_eq in E. now apply Qcopp_eq_0.
  - apply Qc_eqb_neq. apply Qc_eqb_neq in E. now rewrite Qcopp_eq_0.
Qed.

Lemma neg_involutive (x : t) : neg (neg x) = x.
Proof. destruct x; simpl; try reflexivity. now rewrite Qcopp_involutive. Qed.

Lemma add_comm (x y : t) : add x y = add y x.
Proof.
  destruct x, y; simpl; try reflexivity. now rewrite Qcplus_comm.
Qed.

(** Negating the dividend negates the quotient, special values included. *)
Lemma div_neg_l (x y : t) : div (neg x) y = neg (div x y).
Proof.
  destruct x as [a| | |], y as [b| | |]; simpl; try reflexivity.
  - rewrite Qc_eqb_opp_0.
    destruct (Qc_eqb b 0) eqn:Eb.
    + destruct (Qc_eqb a 0) eqn:Ea; [reflexivity|].
      apply Qc_eqb_neq in Ea. unfold inf_of_sign.
      rewrite (Qc_ltb_opp_0 _ Ea). now destruct (Qc_ltb a 0).
    + simpl. f_equal. unfold Qcdiv. ring.
  - destruct (Qc_ltb b 0); reflexivity.
  - destruct (Qc_ltb b 0); reflexivity.
Qed.

(** The expression the source evaluates, [-floor / actual + 1], is
    [1 - floor / actual]. *)
Lemma floor_breach_value (f a : t) :
  add (div (neg f) a) one = sub one (div f a).
Proof. unfold sub. now rewrite div_neg_l, add_comm. Qed.

Lemma gtb_Fin (a b : Qc) : gtb (Fin a) (Fin b) = true <-> b < a.
Proof. unfold gtb; simpl. apply Qc_ltb_lt. Qed.

(** Above a positive ceiling the ceiling-breach value is positive. *)
Lemma ceiling_breach_positive (a h : t) :
  gtb a h = true -> gtb h zero = true ->
  gtb (sub (div a h) one) zero = true.
Proof.
  destruct h as [c| | |]; destruct a as [q| | |]; try discriminate.
  - intros Hq Hc. apply gtb_Fin in Hq. apply gtb_Fin in Hc.
    assert (Hne : c <> 0) by (intros ->; exact (Qclt_not_eq _ _ Hc eq_refl)).
    unfold div. apply Qc_eqb_neq in Hne as Hne'.
    rewrite Hne'. simpl.
    apply gtb_Fin.
    replace (q / c + - 1) with ((q + - c) * / c) by (field; assumption).
    apply Qcmult_pos_pos.
    + now apply Qclt_minus_iff in Hq.
    + now apply Qcinv_pos.
  - intros _ Hc. apply gtb_Fin in Hc. apply Qc_ltb_lt in Hc.
    apply Qc_ltb_asym in Hc. simpl. rewrite Hc. reflexivity.
Qed.

Lemma leb_not_gtb (x y : t) : leb x y = true -> gtb x y = false.
Proof.
  unfold gtb.
  destruct x as [a| | |], y as [b| | |]; simpl; try congruence.
  intros H. now apply negb_true_iff in H.
Qed.

(** The negation of a positive number, divided by zero, is -inf. *)
Lemma div_zero_of_positive (f : t) :
  gtb f zero = true -> div (neg f) zero = NInf.
Proof.
  destruct f as [a| | |]; try discriminate.
  - intros Ha. apply gtb_Fin in Ha.
    assert (Hne : a <> 0) by (intros ->; exact (Qclt_not_eq _ _ Ha eq_refl)).
    unfold div, neg, zero.
    replace (Qc_eqb 0 0) with true by (symmetry; now apply Qc_eqb_eq).
    rewrite Qc_eqb_opp_0. rewrite (proj2 (Qc_eqb_neq _ _) Hne).
    unfold inf_of_sign. rewrite (Qc_ltb_opp_0 _ Hne).
    replace (Qc_ltb a 0) with false; [reflexivity|].
    symmetry. apply Qc_ltb_lt in Ha. now apply Qc_ltb_asym.
  - intros _. reflexivity.
Qed.

End Float64Facts.

(** ** The deviation score *)

Ltac float_eq := repeat f_equal; apply Qc_is_canon; vm_compute; reflexivity.

Lemma deviation_floor_branch (x : Row) :
  Float64.gtb (floor x) (actual x) = true ->
  deviation x = Some (Float64.sub Float64.one (Float64.div (floor x) (actual x))).
Proof.
  intros H. unfold deviation. rewrite H. f_equal. apply floor_breach_value.
Qed.

Lemma deviation_ceiling_branch (x : Row) :
  Float64.gtb (floor x) (actual x) = false ->
  Float64.gtb (actual x) (hat x) = true ->
  deviation x = Some (Float64.sub (Float64.div (actual x) (hat x)) Float64.one).
Proof. intros H1 H2. unfold deviation. now rewrite H1, H2. Qed.

(** C1, as stated, fails on a row whose corridor is crossed: with floor 3,
    actual 2 and ceiling 1 the observation is above the ceiling, yet the
    deviation is the floor-breach value -1/2 and not 2/1 - 1 = 1. *)
Lemma deviation_ceiling_formula_fails_when_crossed :
  Float64.gtb (actual crossed_row) (hat crossed_row) = true /\
  deviation crossed_row = Some (Float64.of_Q (-1 # 2)) /\
  deviation crossed_row <>
    Some (Float64.sub (Float64.div (actual crossed_row) (hat crossed_row)) Float64.one).
Proof.
  split; [reflexivity|]. split; [float_eq|].
  intros H. vm_compute in H. discriminate H.
Qed.

(** C1 (amended): for every row, if floor > actual the deviation is
    1 - floor/actual; if actual > ceiling and the floor test did not fire,
    the deviation is actual/ceiling - 1, which is strictly positive when
    ceiling > 0. *)
Theorem deviation_breach_formulas (x : Row) :
  (Float64.gtb (floor x) (actual x) = true ->
   deviation x = Some (Float64.sub Float64.one (Float64.div (floor x) (actual x))))
  /\
  (Float64.gtb (floor x) (actual x) = false ->
   Float64.gtb (actual x) (hat x) = true ->
   deviation x = Some (Float64.sub (Float64.div (actual x) (hat x)) Float64.one) /\
   (Float64.gtb (hat x) Float64.zero = true ->
    Float64.gtb (Float64.sub (Float64.div (actual x) (hat x)) Float64.one)
                Float64.zero = true)).
Proof.
  split.
  - apply deviation_floor_branch.
  - intros H1 H2. split.
    + now apply deviation_ceiling_branch.
    + now apply ceiling_breach_positive.
Qed.

Lemma deviation_breach_formulas_witness :
  deviation (row_of 10 10 4 1) = Some (Float64.of_Z (-9)) /\
  deviation above_row = Some (Float64.of_Q (3 # 2)) /\
  Float64.gtb (Float64.of_Q (3 # 2)) Float64.zero = true.
Proof.
  destruct (deviation_breach_formulas (row_of 10 10 4 1)) as [Hf _].
  destruct (deviation_breach_formulas above_row) as [_ Hc].
  destruct (Hc eq_refl eq_refl) as [Hv Hp].
  split; [|split].
  - rewrite (Hf eq_refl). float_eq.
  - rewrite Hv. float_eq.
  - reflexivity.
Defined.

(** C2: for every row with floor <= actual <= ceiling the deviation is
    absent. *)
Theorem deviation_absent_inside_corridor (x : Row) :
  Float64.leb (floor x) (actual x) = true ->
  Float64.leb (actual x) (hat x) = true ->
  deviation x = None.
Proof.
  intros H1 H2. unfold deviation.
  now rewrite (leb_not_gtb _ _ H1), (leb_not_gtb _ _ H2).
Qed.

Lemma deviation_absent_inside_corridor_witness : deviation inside_row = None.
Proof.
  apply (deviation_absent_inside_corridor inside_row); reflexivity.
Defined.

Lemma deviation_object_inr (x : Row) (cell : option float64) :
  deviation_object x = inr cell -> cell = deviation x.
Proof.
  unfold deviation_object, deviation, truediv.
  destruct (Float64.gtb (floor x) (actual x)).
  - destruct (Float64.is_zero (actual x)); [discriminate|]. now intros [= <-].
  - destruct (Float64.gtb (actual x) (hat x)); [|now intros [= <-]].
    destruct (Float64.is_zero (hat x)); [discriminate|]. now intros [= <-].
Qed.

Lemma deviation_object_inl (x : Row) (e : Exception) :
  deviation_object x = inl e <->
  e = ZeroDivisionError "float division by zero" /\
  (Float64.gtb (floor x) (actual x) = true /\ Float64.is_zero (actual x) = true \/
   Float64.gtb (floor x) (actual x) = false /\ Float64.gtb (actual x) (hat x) = true /\
   Float64.is_zero (hat x) = true).
Proof.
  unfold deviation_object, truediv.
  destruct (Float64.gtb (floor x) (actual x)).
  - destruct (Float64.is_zero (actual x)).
    + split; [intros [= <-]; auto|intros [-> _]; reflexivity].
    + split; [discriminate|]. intros [_ [[_ H]|[H _]]]; discriminate.
  - destruct (Float64.gtb (actual x) (hat x)).
    + destruct (Float64.is_zero (hat x)).
      * split; [intros [= <-]; auto|intros [-> _]; reflexivity].
      * split; [discriminate|]. intros [_ [[H _]|(_ & _ & H)]]; discriminate.
    + split; [discriminate|]. intros [_ [[H _]|(_ & H & _)]]; discriminate.
Qed.

(** C8: for every row with floor > actual and actual = 0, the scorer takes
    the floor-breach branch and divides by the zero observation without
    any guard.  On a row of float64 cells what it returns is that very
    quotient plus one, an infinity (which of the two follows the sign of
    the zero): no finite number, and not replaced by an absent value.  On
    a row of Python objects, as a [bool] observation makes it, the
    division raises [ZeroDivisionError]. *)
Theorem deviation_divides_by_zero_actual (x : Row) :
  Float64.gtb (floor x) (actual x) = true ->
  actual x = Float64.zero ->
  (exists v,
      deviation x = Some v /\
      v = Float64.add (Float64.div (Float64.neg (floor x)) (actual x)) Float64.one /\
      Float64.is_infinite v = true)
  /\
  (exists msg, deviation_object x = inl (ZeroDivisionError msg)).
Proof.
  intros Hgt Hz. split.
  - unfold deviation. rewrite Hgt. eexists. split; [reflexivity|].
    split; [reflexivity|].
    rewrite Hz in *. now rewrite (div_zero_of_positive _ Hgt).
  - eexists. apply deviation_object_inl. split; [reflexivity|].
    left. split; [assumption|]. now rewrite Hz.
Qed.

Lemma deviation_divides_by_zero_actual_witness :
  (exists v,
      deviation zero_actual_row = Some v /\
      v = Float64.add
            (Float64.div (Float64.neg (floor zero_actual_row)) (actual zero_actual_row))
            Float64.one /\
      Float64.is_infinite v = true)
  /\
  (exists msg, deviation_object zero_actual_row = inl (ZeroDivisionError msg)).
Proof.
  apply (deviation_divides_by_zero_actual zero_actual_row); reflexivity.
Defined.

(** C9: for every row whose corridor is crossed, floor > actual and
    actual > ceiling at once, the scorer returns the floor-breach value
    1 - floor/actual: the floor test comes first. *)
Theorem deviation_floor_breach_takes_precedence (x : Row) :
  Float64.gtb (floor x) (actual x) = true ->
  Float64.gtb (actual x) (hat x) = true ->
  deviation x = Some (Float64.sub Float64.one (Float64.div (floor x) (actual x))).
Proof. intros H _. now apply deviation_floor_branch. Qed.

Lemma deviation_floor_breach_takes_precedence_witness :
  deviation crossed_row
  = Some (Float64.sub Float64.one
            (Float64.div (floor crossed_row) (actual crossed_row))).
Proof.
  apply (deviation_floor_breach_takes_precedence crossed_row); reflexivity.
Defined.

(** ** Inner joins *)

Section Joins.

Context {K A B : Type} `{EqDecision K}.

Lemma in_merge_inner (l : list (K * A)) (r : list (K * B)) k a b :
  In (k, (a, b)) (merge_inner l r) <-> In (k, a) l /\ In (k, b) r.
Proof.
  unfold merge_inner. rewrite in_flat_map. split.
  - intros [[k1 a1] [Hl Hm]]. apply in_map_iff in Hm as [[k2 b2] [Heq Hr]].
    apply filter_In in Hr as [Hr Hk]. apply bool_decide_eq_true in Hk.
    simpl in *. injection Heq as -> -> ->. subst k2. auto.
  - intros [Hl Hr]. exists (k, a). split; [assumption|].
    apply in_map_iff. exists (k, b). split; [reflexivity|].
    apply filter_In. split; [assumption|].
    apply bool_decide_eq_true. reflexivity.
Qed.

Lemma in_keys_merge_inner (l : list (K * A)) (r : list (K * B)) k :
  In k (map fst (merge_inner l r)) <-> In k (map fst l) /\ In k (map fst r).
Proof.
  rewrite !in_map_iff. split.
  - intros [[k' [a b]] [<- Hin]]. apply in_merge_inner in Hin as [Hl Hr].
    split; [exists (k', a) | exists (k', b)]; auto.
  - intros [[[k1 a] [<- Hl]] [[k2 b] [Hk Hr]]]. simpl in *. subst k2.
    exists (k1, (a, b)). split; [reflexivity|]. now apply in_merge_inner.
Qed.

(** A join is empty as soon as one side is. *)
Lemma merge_inner_nil_l (r : list (K * B)) :
  merge_inner (@nil (K * A)) r = [].
Proof. reflexivity. Qed.

Lemma merge_inner_nil_r (l : list (K * A)) :
  merge_inner l (@nil (K * B)) = [].
Proof. unfold merge_inner. induction l; simpl; auto. Qed.

End Joins.

Lemma in_select {K : Type} (c : ForecastRow -> float64) (f : list (K * ForecastRow)) k v :
  In (k, v) (select c f) <-> exists r, In (k, r) f /\ v = c r.
Proof.
  unfold select. rewrite in_map_iff. split.
  - intros [[k' r] [[= <- <-] Hin]]. eauto.
  - intros [r [Hin ->]]. exists (k, r). auto.
Qed.

Lemma in_merge_forecasts (fMean fMin fMax : Forecast) k b :
  In (k, b) (merge_forecasts fMean fMin fMax) <->
  exists rm rn rx,
    In (k, rm) fMean /\ In (k, rn) fMin /\ In (k, rx) fMax /\
    b = mkBand (fc_mean rm) (fc_q10 rn) (fc_q90 rx).
Proof.
  unfold merge_forecasts. rewrite in_map_iff. split.
  - intros [[k' [[m f] h]] [[= <- <-] Hin]]. simpl.
    apply in_merge_inner in Hin as [Hin Hh].
    apply in_merge_inner in Hin as [Hm Hf].
    apply in_select in Hm as [rm [Hm ->]].
    apply in_select in Hf as [rn [Hf ->]].
    apply in_select in Hh as [rx [Hh ->]].
    exists rm, rn, rx. auto.
  - intros (rm & rn & rx & Hm & Hf & Hh & ->).
    exists (k, ((fc_mean rm, fc_q10 rn), fc_q90 rx)). split; [reflexivity|].
    apply in_merge_inner. split; [apply in_merge_inner; split|];
      apply in_select; eauto.
Qed.

Lemma in_corridor (fMean fMin fMax : Forecast) t b :
  In (t, b) (corridor fMean fMin fMax) <->
  exists item rm rn rx,
    In ((item, t), rm) fMean /\ In ((item, t), rn) fMin /\
    In ((item, t), rx) fMax /\
    b = mkBand (fc_mean rm) (fc_q10 rn) (fc_q90 rx).
Proof.
  unfold corridor, index_by_timestamp. rewrite in_map_iff. split.
  - intros [[[item t'] b'] [[= <- <-] Hin]].
    apply in_merge_forecasts in Hin as (rm & rn & rx & H).
    exists item, rm, rn, rx. exact H.
  - intros (item & rm & rn & rx & H).
    exists ((item, t), b). split; [reflexivity|].
    apply in_merge_forecasts. exists rm, rn, rx. exact H.
Qed.

Lemma in_forecast_timestamps (item : string) (f : Forecast) t :
  single_item item f ->
  In t (forecast_timestamps f) <-> exists r, In ((item, t), r) f.
Proof.
  intros Hs. unfold forecast_timestamps. rewrite in_map_iff. split.
  - intros [[[i t'] r] [<- Hin]]. simpl.
    unfold single_item in Hs. rewrite Forall_forall in Hs.
    specialize (Hs _ (proj2 (list_elem_of_In _ _) Hin)). simpl in Hs. subst i. eauto.
  - intros [r Hin]. exists ((item, t), r). auto.
Qed.

(** C4: when the three forecasts are for the one item the pipeline
    labelled, the corridor has exactly the timestamps present in all
    three, and its rows at a timestamp are exactly the triples (mean of
    the mean-series forecast, 0.1 quantile of the min-series forecast, 0.9
    quantile of the max-series forecast) taken at that timestamp. *)
Theorem corridor_is_inner_join (item : string) (fMean fMin fMax : Forecast) :
  single_item item fMean -> single_item item fMin -> single_item item fMax ->
  timestamp_set (corridor fMean fMin fMax)
    = forecast_timestamp_set fMean ∩ forecast_timestamp_set fMin
        ∩ forecast_timestamp_set fMax
  /\
  forall t b,
    In (t, b) (corridor fMean fMin fMax) <->
    exists rm rn rx,
      In ((item, t), rm) fMean /\ In ((item, t), rn) fMin /\
      In ((item, t), rx) fMax /\
      b = mkBand (fc_mean rm) (fc_q10 rn) (fc_q90 rx).
Proof.
  intros Hm Hf Hh.
  assert (Hrows : forall t b,
    In (t, b) (corridor fMean fMin fMax) <->
    exists rm rn rx,
      In ((item, t), rm) fMean /\ In ((item, t), rn) fMin /\
      In ((item, t), rx) fMax /\
      b = mkBand (fc_mean rm) (fc_q10 rn) (fc_q90 rx)).
  { intros t b. rewrite in_corridor. split.
    - intros (item' & rm & rn & rx & H1 & H2 & H3 & ->).
      assert (item' = item) as ->.
      { unfold single_item in Hm. rewrite Forall_forall in Hm.
        exact (Hm _ (proj2 (list_elem_of_In _ _) H1)). }
      exists rm, rn, rx. auto.
    - intros (rm & rn & rx & H). exists item, rm, rn, rx. exact H. }
  split; [|exact Hrows].
  apply set_eq. intros t.
  unfold timestamp_set, forecast_timestamp_set, timestamps.
  rewrite !elem_of_intersection, !elem_of_list_to_set, !list_elem_of_In.
  rewrite (in_forecast_timestamps item fMean t Hm),
          (in_forecast_timestamps item fMin t Hf),
          (in_forecast_timestamps item fMax t Hh).
  rewrite in_map_iff. split.
  - intros [[t' b] [<- Hin]]. simpl.
    apply Hrows in Hin as (rm & rn & rx & H1 & H2 & H3 & _).
    repeat split; eauto.
  - intros [[[rm H1] [rn H2]] [rx H3]].
    exists (t, mkBand (fc_mean rm) (fc_q10 rn) (fc_q90 rx)).
    split; [reflexivity|]. apply Hrows. exists rm, rn, rx. auto.
Qed.

Lemma corridor_is_inner_join_witness :
  timestamp_set (corridor (flat_forecast 10 [60; 90]) (flat_forecast 5 [90; 120])
                          (flat_forecast 20 [30; 90]))
  = forecast_timestamp_set (flat_forecast 10 [60; 90])
      ∩ forecast_timestamp_set (flat_forecast 5 [90; 120])
      ∩ forecast_timestamp_set (flat_forecast 20 [30; 90]).
Proof.
  refine (proj1 (corridor_is_inner_join "single_item"
                   (flat_forecast 10 [60; 90]) (flat_forecast 5 [90; 120])
                   (flat_forecast 20 [30; 90]) _ _ _));
    unfold single_item, flat_forecast; simpl;
    repeat (apply List.Forall_cons; [reflexivity|]); apply List.Forall_nil.
Defined.

(** The corridor of the sample forecasts: the one shared bucket, with the
    mean 10, the 0.1 quantile 4 of the min forecast and the 0.9 quantile
    21 of the max forecast. *)
Example corridor_sample :
  corridor (flat_forecast 10 [60; 90]) (flat_forecast 5 [90; 120])
           (flat_forecast 20 [30; 90])
  = [(minutes 90, mkBand (Float64.of_Z 10) (Float64.of_Z 4) (Float64.of_Z 21))].
Proof. vm_compute. repeat f_equal; apply Qc_is_canon; reflexivity. Qed.

(** ** The join with the observations *)

Lemma timestamps_add_deviation (t : Table Row) :
  timestamps (add_deviation t) = timestamps t.
Proof. unfold timestamps, add_deviation. rewrite map_map. reflexivity. Qed.

Lemma timestamps_join_actual (up : Table Band) (actuals : TimeSeries) :
  timestamps (join_actual up actuals) = map fst (merge_inner up actuals).
Proof. unfold timestamps, join_actual. rewrite map_map. reflexivity. Qed.

Lemma in_timestamps_deviation_table (up : Table Band) (actuals : TimeSeries) t :
  In t (timestamps (deviation_table up actuals)) <->
  In t (timestamps up) /\ In t (timestamps actuals).
Proof.
  unfold deviation_table.
  rewrite timestamps_add_deviation, timestamps_join_actual.
  apply in_keys_merge_inner.
Qed.

(** C5: the timestamps of the deviation table are among those common to
    the upsampled corridor and the observations; a timestamp without an
    observation is not in the table. *)
Theorem deviation_table_timestamps (up : Table Band) (actuals : TimeSeries) :
  timestamp_set (deviation_table up actuals)
    ⊆ timestamp_set up ∩ timestamp_set actuals
  /\
  forall t, t ∉ timestamp_set actuals -> t ∉ timestamp_set (deviation_table up actuals).
Proof.
  assert (H : forall t, t ∈ timestamp_set (deviation_table up actuals) ->
                        t ∈ timestamp_set up /\ t ∈ timestamp_set actuals).
  { intros t. unfold timestamp_set.
    rewrite !elem_of_list_to_set, !list_elem_of_In.
    apply in_timestamps_deviation_table. }
  split.
  - intros t Ht. apply elem_of_intersection. auto.
  - intros t Hn Ht. apply Hn. now apply H.
Qed.

(** ** The two stages that can raise after the upsampling *)

Lemma merge_actual_inr (up : Table Band) (actuals : TimeSeries) (rows : Table Row) :
  merge_actual up actuals = inr rows <-> up <> [] /\ rows = join_actual up actuals.
Proof.
  unfold merge_actual. destruct up as [|r up].
  - split; [discriminate|]. intros [H _]. now contradiction H.
  - split; [intros [= <-]; split; [discriminate|reflexivity]|].
    intros [_ ->]. reflexivity.
Qed.

Lemma merge_actual_inl (up : Table Band) (actuals : TimeSeries) (e : Exception) :
  merge_actual up actuals = inl e ->
  up = [] /\ e = ValueError "cannot join with no overlapping index names".
Proof.
  unfold merge_actual. destruct up; [|discriminate]. now intros [= <-].
Qed.

Lemma score_row_inr (dtype : RowDtype) (x : Row) (cell : option float64) :
  score_row dtype x = inr cell -> cell = deviation x.
Proof.
  destruct dtype; cbn [score_row]; [now intros [= <-]|apply deviation_object_inr].
Qed.

(** When no row raises, the walk over the rows builds the table whose
    [deviation] cells are those of [deviation], whatever the rows are made
    of. *)
Lemma apply_deviation_inr (dtype : RowDtype) (t : Table Row) (t' : DeviationTable) :
  apply_deviation dtype t = inr t' -> t' = add_deviation t.
Proof.
  unfold apply_deviation, add_deviation. revert t'.
  induction t as [|r t IH]; intros t'; cbn [apply_axis1 map].
  - now intros [= <-].
  - destruct (score_row dtype (snd r)) as [e|cell] eqn:E; [discriminate|].
    destruct (apply_axis1 (score_row dtype) t) as [e|rest]; [discriminate|].
    intros [= <-]. rewrite (score_row_inr _ _ _ E). f_equal. now apply IH.
Qed.

Lemma apply_deviation_Float64Rows (t : Table Row) :
  apply_deviation Float64Rows t = inr (add_deviation t).
Proof.
  unfold apply_deviation, add_deviation.
  induction t as [|r t IH]; cbn [apply_axis1 map score_row]; [reflexivity|].
  now rewrite IH.
Qed.

(** The walk raises only on rows of Python objects, and what it raises is
    what the lambda raised on one of the rows. *)
Lemma apply_deviation_inl (dtype : RowDtype) (t : Table Row) (e : Exception) :
  apply_deviation dtype t = inl e ->
  dtype = ObjectRows /\ exists r, In r t /\ deviation_object (snd r) = inl e.
Proof.
  destruct dtype; [now rewrite apply_deviation_Float64Rows|].
  intros H. split; [reflexivity|]. unfold apply_deviation in H.
  induction t as [|r t IH]; cbn [apply_axis1] in H; [discriminate|].
  cbn [score_row] in *.
  destruct (deviation_object (snd r)) as [e'|cell] eqn:E.
  - injection H as ->. exists r. split; [now left|assumption].
  - destruct (apply_axis1 (score_row ObjectRows) t) as [e'|rest]; [|discriminate].
    destruct (IH H) as [r' [Hin Hr']]. exists r'. split; [now right|assumption].
Qed.

(** ** The store monad *)

Lemma bind_inr {A B : Type} (m : M A) (k : A -> M B) w a w' :
  m w = (inr a, w') -> bind m k w = k a w'.
Proof. intros H. unfold bind. now rewrite H. Qed.

Lemma bind_inl {A B : Type} (m : M A) (k : A -> M B) w e w' :
  m w = (inl e, w') -> bind m k w = (inl e, w').
Proof. intros H. unfold bind. now rewrite H. Qed.

Lemma deref_Some (l : loc) w o :
  store w !! l = Some o -> deref l w = (inr o, w).
Proof. intros H. unfold deref. now rewrite H. Qed.

Lemma copy_Some (l : loc) w o :
  store w !! l = Some o ->
  copy l w = (inr (length (store w)), mkWorld (store w ++ [o]) (calls w) (readonly w)).
Proof. intros H. unfold copy. now rewrite (bind_inr _ _ _ _ _ (deref_Some _ _ _ H)). Qed.

Lemma values_Some (l : loc) w o :
  store w !! l = Some o ->
  values l w = (inr (mk_ndarray l (negb (bool_decide (l ∈ readonly w)))), w).
Proof.
  intros H. unfold values.
  now rewrite (bind_inr _ _ _ _ _ (deref_Some _ _ _ H)).
Qed.

(** The flag step returns the array it flagged and leaves the world as it
    is. *)
Lemma set_values_readonly_Some (l : loc) w o :
  store w !! l = Some o -> set_values_readonly l w = (inr (mk_ndarray l false), w).
Proof.
  intros H. unfold set_values_readonly.
  now rewrite (bind_inr _ _ _ _ _ (values_Some _ _ _ H)).
Qed.

Lemma mutate_Some (l : loc) (f : PyObject -> PyObject) w o :
  store w !! l = Some o ->
  mutate l f w = (inr tt, mkWorld (<[l := f o]> (store w)) (calls w) (readonly w)).
Proof.
  intros H. unfold mutate.
  now rewrite (bind_inr _ _ _ _ _ (deref_Some _ _ _ H)).
Qed.

Lemma lookup_snoc_old {A : Type} (l : list A) (x : A) (i : nat) (y : A) :
  l !! i = Some y -> (l ++ [x]) !! i = Some y.
Proof. intros H. rewrite lookup_app_l; [assumption|]. now apply lookup_lt_Some in H. Qed.

Lemma lookup_snoc_new {A : Type} (l : list A) (x : A) :
  (l ++ [x]) !! length l = Some x.
Proof. rewrite lookup_app_r by lia. now rewrite Nat.sub_diag. Qed.

(** The constructor keeps the caller's forecast object itself and a fresh
    copy of the caller's actual object; no existing object changes. *)
Lemma init_spec (forecast_data actual_data : loc) w o_f o_a :
  store w !! forecast_data = Some o_f ->
  store w !! actual_data = Some o_a ->
  AnomalyResult_.init forecast_data actual_data w
  = (inr (mkAnomalyResult forecast_data (length (store w))),
     mkWorld (store w ++ [o_a]) (calls w) (readonly w)).
Proof.
  intros Hf Ha. unfold AnomalyResult_.init.
  rewrite (bind_inr _ _ _ _ _ (copy_Some _ _ _ Ha)).
  erewrite bind_inr
    by (apply set_values_readonly_Some with (o := o_f); simpl; now apply lookup_snoc_old).
  erewrite bind_inr
    by (apply set_values_readonly_Some with (o := o_a); simpl; apply lookup_snoc_new).
  reflexivity.
Qed.

(** ** The pipeline *)

Ltac run_step tac := erewrite bind_inr by tac; cbn [store calls readonly].

Lemma enter_spec (c : Call) w :
  enter c w = (inr tt, mkWorld (store w) (calls w ++ [c]) (readonly w)).
Proof. reflexivity. Qed.

Lemma lift_inr {A : Type} (r : Exception + A) (a : A) w :
  r = inr a -> lift r w = (inr a, w).
Proof. intros ->. reflexivity. Qed.

Lemma lift_inl {A : Type} (r : Exception + A) (e : Exception) w :
  r = inl e -> lift r w = (inl e, w).
Proof. intros ->. reflexivity. Qed.

Lemma alloc_spec (o : PyObject) w :
  alloc o w = (inr (length (store w)), mkWorld (store w ++ [o]) (calls w) (readonly w)).
Proof. reflexivity. Qed.

Lemma resample_summary_spec (a : Agg) (h : TimeSeries) w :
  resample_summary a h w
  = (inr (label_summary (resample_agg (interval_length * minute_ns) a h)),
     mkWorld (store w) (calls w ++ [CallResample a]) (readonly w)).
Proof. reflexivity. Qed.

(** Unfolds a run up to the first forecast request. *)
Ltac run_to_forecasts Hdf Hv :=
  unfold forecast_of, history, horizon in *; unfold get_anomaly_summary;
  rewrite (bind_inr _ _ _ _ _ (deref_Some _ _ _ Hdf));
  run_step ltac:(apply lift_inr; exact Hv);
  do 3 run_step ltac:(apply resample_summary_spec).

Section PipelineFacts.

Variable fit_predict : PredictorConfig -> TimeSeriesDataFrame -> Exception + Forecast.

Lemma request_forecast_spec (a : Agg) (df : IntervalSummary) (n : Z) (f : Forecast) w :
  generate_forecast fit_predict df n = inr f ->
  request_forecast fit_predict a df n w
  = (inr f, mkWorld (store w) (calls w ++ [CallGenerateForecast a]) (readonly w)).
Proof.
  intros H. unfold request_forecast.
  rewrite (bind_inr _ _ _ _ _ (enter_spec _ _)).
  now apply lift_inr.
Qed.

(** A frame that fails validation stops the run where it stands. *)
Lemma get_anomaly_summary_invalid (df : loc) (fromTime toTime : Timestamp) w o e :
  store w !! df = Some o ->
  validate (as_frame o) = inl e ->
  get_anomaly_summary fit_predict df fromTime toTime w = (inl e, w).
Proof.
  intros Hdf Hv. unfold get_anomaly_summary.
  rewrite (bind_inr _ _ _ _ _ (deref_Some _ _ _ Hdf)).
  apply bind_inl. now apply lift_inl.
Qed.

(** A run in which validation, the three forecasts, the upsampling, the
    join and the scoring succeed: every stage is entered once, in order;
    the store gains the deviation table and the copy of the caller's
    frame, and no flag of a stored object changes. *)
Lemma get_anomaly_summary_success (df : loc) (fromTime toTime : Timestamp) w o
    (forecastMean forecastMin forecastMax : Forecast) (up : Table Band)
    (rows : Table Row) (t : DeviationTable) :
  store w !! df = Some o ->
  validate (as_frame o) = inr tt ->
  forecast_of fit_predict AggMean (as_frame o) fromTime toTime = inr forecastMean ->
  forecast_of fit_predict AggMin (as_frame o) fromTime toTime = inr forecastMin ->
  forecast_of fit_predict AggMax (as_frame o) fromTime toTime = inr forecastMax ->
  upsample minute_ns (corridor forecastMean forecastMin forecastMax) = inr up ->
  merge_actual up (value_series (as_frame o)) = inr rows ->
  apply_deviation (row_dtype (as_frame o)) rows = inr t ->
  get_anomaly_summary fit_predict df fromTime toTime w
  = (inr (mkAnomalyResult (length (store w)) (S (length (store w)))),
     mkWorld (store w ++ [TableObj t; o]) (calls w ++ all_calls) (readonly w)).
Proof.
  intros Hdf Hv Hmean Hmin Hmax Hup Hjoin Happly.
  run_to_forecasts Hdf Hv.
  run_step ltac:(apply request_forecast_spec; exact Hmean).
  run_step ltac:(apply request_forecast_spec; exact Hmin).
  run_step ltac:(apply request_forecast_spec; exact Hmax).
  do 2 run_step ltac:(apply enter_spec).
  run_step ltac:(apply lift_inr; exact Hup).
  run_step ltac:(apply enter_spec).
  run_step ltac:(apply lift_inr; exact Hjoin).
  run_step ltac:(apply enter_spec).
  run_step ltac:(apply lift_inr; exact Happly).
  run_step ltac:(apply alloc_spec).
  run_step ltac:(apply enter_spec).
  erewrite init_spec; cbn [store calls readonly].
  - rewrite length_app, Nat.add_1_r. rewrite <- !app_assoc. reflexivity.
  - apply lookup_snoc_new.
  - now apply lookup_snoc_old.
Qed.

(** A run whose upsampled corridor cannot be joined, or one of whose rows
    cannot be scored, ends there. *)
Lemma get_anomaly_summary_join_fails (df : loc) (fromTime toTime : Timestamp) w o
    (forecastMean forecastMin forecastMax : Forecast) (up : Table Band) (e : Exception) :
  store w !! df = Some o ->
  validate (as_frame o) = inr tt ->
  forecast_of fit_predict AggMean (as_frame o) fromTime toTime = inr forecastMean ->
  forecast_of fit_predict AggMin (as_frame o) fromTime toTime = inr forecastMin ->
  forecast_of fit_predict AggMax (as_frame o) fromTime toTime = inr forecastMax ->
  upsample minute_ns (corridor forecastMean forecastMin forecastMax) = inr up ->
  merge_actual up (value_series (as_frame o)) = inl e ->
  get_anomaly_summary fit_predict df fromTime toTime w
  = (inl e, mkWorld (store w) (calls w ++ firstn 9 all_calls) (readonly w)).
Proof.
  intros Hdf Hv Hmean Hmin Hmax Hup Hjoin.
  run_to_forecasts Hdf Hv.
  run_step ltac:(apply request_forecast_spec; exact Hmean).
  run_step ltac:(apply request_forecast_spec; exact Hmin).
  run_step ltac:(apply request_forecast_spec; exact Hmax).
  do 2 run_step ltac:(apply enter_spec).
  run_step ltac:(apply lift_inr; exact Hup).
  run_step ltac:(apply enter_spec).
  erewrite bind_inl by (apply lift_inl; exact Hjoin).
  cbn [store calls readonly]. rewrite <- !app_assoc. reflexivity.
Qed.

Lemma get_anomaly_summary_apply_fails (df : loc) (fromTime toTime : Timestamp) w o
    (forecastMean forecastMin forecastMax : Forecast) (up : Table Band)
    (rows : Table Row) (e : Exception) :
  store w !! df = Some o ->
  validate (as_frame o) = inr tt ->
  forecast_of fit_predict AggMean (as_frame o) fromTime toTime = inr forecastMean ->
  forecast_of fit_predict AggMin (as_frame o) fromTime toTime = inr forecastMin ->
  forecast_of fit_predict AggMax (as_frame o) fromTime toTime = inr forecastMax ->
  upsample minute_ns (corridor forecastMean forecastMin forecastMax) = inr up ->
  merge_actual up (value_series (as_frame o)) = inr rows ->
  apply_deviation (row_dtype (as_frame o)) rows = inl e ->
  get_anomaly_summary fit_predict df fromTime toTime w
  = (inl e, mkWorld (store w) (calls w ++ firstn 10 all_calls) (readonly w)).
Proof.
  intros Hdf Hv Hmean Hmin Hmax Hup Hjoin Happly.
  run_to_forecasts Hdf Hv.
  run_step ltac:(apply request_forecast_spec; exact Hmean).
  run_step ltac:(apply request_forecast_spec; exact Hmin).
  run_step ltac:(apply request_forecast_spec; exact Hmax).
  do 2 run_step ltac:(apply enter_spec).
  run_step ltac:(apply lift_inr; exact Hup).
  run_step ltac:(apply enter_spec).
  run_step ltac:(apply lift_inr; exact Hjoin).
  run_step ltac:(apply enter_spec).
  erewrite bind_inl by (apply lift_inl; exact Happly).
  cbn [store calls readonly]. rewrite <- !app_assoc. reflexivity.
Qed.

Lemma validate_rejects (d : DataFrame) :
  has_column d "value" = false \/
  empty d = true \/
  (exists c, get_column d "value" = Some c /\ is_numeric_dtype c = false) \/
  is_DatetimeIndex (df_index d) = false ->
  exists msg, validate d = inl (ValueError msg).
Proof.
  intros H. unfold validate, required_column. cbn [forallb].
  rewrite andb_true_r.
  destruct (has_column d "value"); cbn [negb]; [|eauto].
  destruct (empty d); [eauto|].
  destruct (get_column d "value") as [c|]; cbn [from_option].
  - destruct (is_numeric_dtype c) eqn:Ec; cbn [negb]; [|eauto].
    destruct (is_DatetimeIndex (df_index d)); cbn [negb]; [|eauto].
    destruct H as [H|[H|[[c' [[= <-] H]]|H]]]; congruence.
  - cbn [negb]. eauto.
Qed.

(** C3 (amended): for every frame that lacks the value column, is empty,
    has a non-numeric value column or is not indexed by time, the entry
    point raises a validation error before any stage is entered: the
    store and the record of calls are as they were.  Whether the index
    increases is not examined. *)
Theorem validation_fails_fast (df : loc) (fromTime toTime : Timestamp) w o :
  store w !! df = Some o ->
  has_column (as_frame o) "value" = false \/
  empty (as_frame o) = true \/
  (exists c, get_column (as_frame o) "value" = Some c /\ is_numeric_dtype c = false) \/
  is_DatetimeIndex (df_index (as_frame o)) = false ->
  exists msg,
    get_anomaly_summary fit_predict df fromTime toTime w = (inl (ValueError msg), w).
Proof.
  intros Hdf H. destruct (validate_rejects _ H) as [msg Hv].
  exists msg. now apply get_anomaly_summary_invalid with (o := o).
Qed.



End PipelineFacts.

Lemma validation_fails_fast_witness :
  exists msg,
    get_anomaly_summary persistence_predictor 0%nat (minutes 60) (minutes 120)
      (world_of (frame_of []))
    = (inl (ValueError msg), world_of (frame_of [])).
Proof.
  apply (validation_fails_fast persistence_predictor 0%nat (minutes 60) (minutes 120)
           (world_of (frame_of [])) (FrameObj (frame_of []))).
  - reflexivity.
  - right. left. reflexivity.
Defined.

(** C3, as stated, fails on a frame whose index is out of order: it passes
    the four checks, every stage of the pipeline is entered and the run
    ends with a container instead of a validation error. *)
Lemma unsorted_index_is_not_rejected :
  index_strictly_increasing unsorted_df = false /\
  validate unsorted_df = inr tt /\
  fst (get_anomaly_summary persistence_predictor 0%nat (minutes 60) (minutes 120)
         (world_of unsorted_df))
  = inr (mkAnomalyResult 1%nat 2%nat) /\
  calls (snd (get_anomaly_summary persistence_predictor 0%nat (minutes 60) (minutes 120)
                (world_of unsorted_df)))
  = all_calls.
Proof. repeat split; vm_compute; reflexivity. Qed.


(** Scenario E on the sample frame: the three summaries end on 20, 10 and
    30, the stand-in predictor starts its three answers 20, 10 and 30
    minutes late, no timestamp is common to them, and the run raises once
    it has entered the join with the observations. *)
Example empty_corridor_run :
  corridor (delivered (forecast_of drifting_predictor AggMean spread_df
                         (minutes 60) (minutes 120)))
           (delivered (forecast_of drifting_predictor AggMin spread_df
                         (minutes 60) (minutes 120)))
           (delivered (forecast_of drifting_predictor AggMax spread_df
                         (minutes 60) (minutes 120))) = [] /\
  get_anomaly_summary drifting_predictor 0%nat (minutes 60) (minutes 120)
    (world_of spread_df)
  = (inl (ValueError "cannot join with no overlapping index names"),
     mkWorld [FrameObj spread_df] (firstn 9 all_calls) []).
Proof. split; vm_compute; reflexivity. Qed.

(** ** The result container *)

Section Container.

Variable self : AnomalyResult.
Variable f : PyObject -> PyObject.

Lemma insert_snoc {A : Type} (l : list A) (x y : A) :
  <[length l := y]> (l ++ [x]) = l ++ [y].
Proof.
  rewrite insert_app_r_alt by lia. now rewrite Nat.sub_diag.
Qed.

(** Reading through an accessor that copies the object at [i], changing
    the copy, and reading again. *)
Lemma read_mutate_read_copy (accessor : AnomalyResult -> M loc) (i : loc) w o :
  (forall w, accessor self w = copy i w) ->
  store w !! i = Some o ->
  read_mutate_read accessor self f w
  = (inr (o, f o, o), mkWorld (store w ++ [f o; o]) (calls w) (readonly w)).
Proof.
  intros Hacc Hi. unfold read_mutate_read.
  pose proof (lookup_lt_Some _ _ _ Hi) as Hlt.
  erewrite bind_inr by (rewrite Hacc; apply copy_Some; exact Hi).
  erewrite bind_inr by (apply deref_Some; cbn [store]; apply lookup_snoc_new).
  erewrite bind_inr
    by (apply mutate_Some with (o := o); cbn [store]; apply lookup_snoc_new).
  cbn [store calls]. rewrite insert_snoc.
  erewrite bind_inr by (apply deref_Some; cbn [store]; apply lookup_snoc_new).
  erewrite bind_inr
    by (rewrite Hacc; apply copy_Some; cbn [store]; apply lookup_snoc_old; exact Hi).
  cbn [store calls].
  erewrite bind_inr
    by (apply deref_Some; cbn [store]; apply lookup_snoc_new).
  rewrite <- app_assoc. reflexivity.
Qed.

Lemma lookup_grown {A : Type} (l l' : list A) (i : nat) (x : A) :
  l !! i = Some x -> (l ++ l') !! i = Some x.
Proof. intros H. rewrite lookup_app_l; [assumption|]. now apply lookup_lt_Some in H. Qed.

(** C7: for a container whose two objects are in the store, a read
    through [forecast] (or [actual]), a change in place of what was
    returned, and a second read give: the owned object, the changed
    copy, and the owned object again.  The owned objects are as before,
    and the address an accessor returns is new: it is neither of the
    container's own. *)
Theorem accessors_return_independent_copies w o_f o_a :
  store w !! _forecast self = Some o_f ->
  store w !! _actual self = Some o_a ->
  (exists w',
      read_mutate_read AnomalyResult_.forecast self f w = (inr (o_f, f o_f, o_f), w') /\
      store w' !! _forecast self = Some o_f /\
      store w' !! _actual self = Some o_a)
  /\
  (exists w',
      read_mutate_read AnomalyResult_.actual self f w = (inr (o_a, f o_a, o_a), w') /\
      store w' !! _forecast self = Some o_f /\
      store w' !! _actual self = Some o_a)
  /\
  (forall l w',
      AnomalyResult_.forecast self w = (inr l, w') \/
      AnomalyResult_.actual self w = (inr l, w') ->
      l <> _forecast self /\ l <> _actual self /\ store w !! l = None).
Proof.
  intros Hf Ha. repeat split.
  - eexists. split; [|split].
    + apply read_mutate_read_copy with (i := _forecast self); [reflexivity|exact Hf].
    + cbn [store]. now apply lookup_grown.
    + cbn [store]. now apply lookup_grown.
  - eexists. split; [|split].
    + apply read_mutate_read_copy with (i := _actual self); [reflexivity|exact Ha].
    + cbn [store]. now apply lookup_grown.
    + cbn [store]. now apply lookup_grown.
  - destruct H as [H|H].
    + unfold AnomalyResult_.forecast in H. rewrite (copy_Some _ _ _ Hf) in H.
      injection H as <- _. apply lookup_lt_Some in Hf. lia.
    + unfold AnomalyResult_.actual in H. rewrite (copy_Some _ _ _ Ha) in H.
      injection H as <- _. apply lookup_lt_Some in Hf. lia.
  - destruct H as [H|H].
    + unfold AnomalyResult_.forecast in H. rewrite (copy_Some _ _ _ Hf) in H.
      injection H as <- _. apply lookup_lt_Some in Ha. lia.
    + unfold AnomalyResult_.actual in H. rewrite (copy_Some _ _ _ Ha) in H.
      injection H as <- _. apply lookup_lt_Some in Ha. lia.
  - destruct H as [H|H].
    + unfold AnomalyResult_.forecast in H. rewrite (copy_Some _ _ _ Hf) in H.
      injection H as <- _. apply lookup_ge_None. lia.
    + unfold AnomalyResult_.actual in H. rewrite (copy_Some _ _ _ Ha) in H.
      injection H as <- _. apply lookup_ge_None. lia.
Qed.

End Container.

(** A constructed container always has its two objects in the store. *)
Lemma init_owns (forecast_data actual_data : loc) w o_f o_a :
  store w !! forecast_data = Some o_f ->
  store w !! actual_data = Some o_a ->
  exists self w',
    AnomalyResult_.init forecast_data actual_data w = (inr self, w') /\
    _forecast self = forecast_data /\
    _actual self <> actual_data /\
    store w' !! _forecast self = Some o_f /\
    store w' !! _actual self = Some o_a.
Proof.
  intros Hf Ha. eexists _, _. split; [now apply init_spec with (o_f := o_f) (o_a := o_a)|].
  cbn [_forecast _actual store]. split; [reflexivity|].
  split; [apply lookup_lt_Some in Ha; lia|].
  split; [now apply lookup_snoc_old | apply lookup_snoc_new].
Qed.

(** ** The flags the constructor sets *)

Lemma setitem_writeable (l : loc) (f : PyObject -> PyObject) w o :
  store w !! l = Some o ->
  l ∉ readonly w ->
  setitem l f w = (inr tt, mkWorld (<[l := f o]> (store w)) (calls w) (readonly w)).
Proof.
  intros Hl Hw. unfold setitem.
  rewrite bool_decide_eq_false_2 by assumption. now apply mutate_Some.
Qed.

Lemma setitem_readonly (l : loc) (f : PyObject -> PyObject) w :
  l ∈ readonly w ->
  setitem l f w = (inl (ValueError "assignment destination is read-only"), w).
Proof.
  intros Hw. unfold setitem. now rewrite bool_decide_eq_true_2 by assumption.
Qed.

(** A frame whose own storage is read-only does refuse a write. *)
Example readonly_storage_refuses_writes :
  setitem 0%nat wipe (mkWorld (store sample_world) [] [0%nat])
  = (inl (ValueError "assignment destination is read-only"),
     mkWorld (store sample_world) [] [0%nat]).
Proof. reflexivity. Qed.

(** C10: the constructor stores the caller's forecast object itself and
    a new copy of the caller's frame.  The two flags it clears are those
    of the arrays that [.values] hands out for the two stored frames.
    Those arrays are not the storage of the frames: after the
    construction every object the caller had is as before, no stored
    object has become read-only, and an assignment into the caller's
    forecast object that was accepted before is accepted still.  The
    caller's frame is not affected either. *)
Theorem constructor_leaves_storage_writeable
    (forecast_data actual_data : loc) (f : PyObject -> PyObject) w o_f o_a :
  store w !! forecast_data = Some o_f ->
  store w !! actual_data = Some o_a ->
  exists self w',
    AnomalyResult_.init forecast_data actual_data w = (inr self, w') /\
    _forecast self = forecast_data /\
    store w !! _actual self = None /\
    store w' !! _actual self = Some o_a /\
    (forall l o, store w !! l = Some o -> store w' !! l = Some o) /\
    readonly w' = readonly w /\
    set_values_readonly (_forecast self) w'
    = (inr (mk_ndarray (_forecast self) false), w') /\
    set_values_readonly (_actual self) w'
    = (inr (mk_ndarray (_actual self) false), w') /\
    (forecast_data ∉ readonly w ->
     setitem forecast_data f w'
     = (inr tt,
        mkWorld (<[forecast_data := f o_f]> (store w')) (calls w') (readonly w'))).
Proof.
  intros Hf Ha. eexists _, _.
  split; [now apply init_spec with (o_f := o_f) (o_a := o_a)|].
  cbn [_forecast _actual store calls readonly].
  split; [reflexivity|].
  split; [apply lookup_ge_None; lia|].
  split; [apply lookup_snoc_new|].
  split; [intros l o Hl; now apply lookup_snoc_old|].
  split; [reflexivity|].
  split; [apply set_values_readonly_Some with (o := o_f); cbn [store];
          now apply lookup_snoc_old|].
  split; [apply set_values_readonly_Some with (o := o_a); cbn [store];
          apply lookup_snoc_new|].
  intros Hw.
  erewrite setitem_writeable;
    [reflexivity | cbn [store]; now apply lookup_snoc_old | cbn [readonly]; assumption].
Qed.

Lemma constructor_leaves_storage_writeable_witness :
  exists self w',
    AnomalyResult_.init 0%nat 1%nat sample_world = (inr self, w') /\
    _forecast self = 0%nat /\
    readonly w' = readonly sample_world /\
    setitem 0%nat wipe w'
    = (inr tt, mkWorld (<[0%nat := TableObj []]> (store w')) (calls w') (readonly w')).
Proof.
  destruct (constructor_leaves_storage_writeable 0%nat 1%nat wipe sample_world _ _
              eq_refl eq_refl)
    as (self & w' & Hrun & Hfc & _ & _ & _ & Hro & _ & _ & Hset).
  exists self, w'. split; [exact Hrun|]. split; [exact Hfc|]. split; [exact Hro|].
  apply Hset. cbn. apply not_elem_of_nil.
Defined.

Lemma accessors_return_independent_copies_witness :
  exists w',
    read_mutate_read AnomalyResult_.actual (mkAnomalyResult 0%nat 1%nat) wipe sample_world
    = (inr (FrameObj sample_df, TableObj [], FrameObj sample_df), w') /\
    store w' !! 0%nat = store sample_world !! 0%nat /\
    store w' !! 1%nat = Some (FrameObj sample_df).
Proof.
  destruct (accessors_return_independent_copies (mkAnomalyResult 0%nat 1%nat) wipe sample_world
              _ _ eq_refl eq_refl) as (_ & H & _).
  exact H.
Defined.

(** ** A complete run *)

(** On the sample frame, with the forecast held at 10 over the hour after
    minute 60: the observation 10 at minute 60 is inside the corridor, the
    observation 50 at minute 61 is scored 50/10 - 1 = 4, and the observation
    4 at minute 90 is scored 1 - 10/4 = -3/2.  The caller's frame is at
    address 0, the table at 1, the container's copy of the frame at 2. *)
Example sample_run :
  let r := get_anomaly_summary persistence_predictor 0%nat (minutes 60) (minutes 120)
             (world_of sample_df) in
  fst r = inr (mkAnomalyResult 1%nat 2%nat) /\
  deviation_cells (store (snd r) !! 1%nat)
  = [(minutes 60, None); (minutes 61, Some (Some (4 # 1)%Q));
     (minutes 90, Some (Some (-3 # 2)%Q))] /\
  store (snd r) !! 2%nat = Some (FrameObj sample_df).
Proof. repeat split; vm_compute; reflexivity. Qed.

(** * Further properties *)

(** ** The deviation score: missing cells, sign *)

Section ScoreFacts.

Import Float64.
Local Open Scope Qc_scope.

Lemma Qc_ltb_ge (a b : Qc) : Qc_ltb a b = false <-> b <= a.
Proof.
  rewrite Qcle_ngt, <- Qc_ltb_lt. destruct (Qc_ltb a b); split; congruence.
Qed.

Lemma Qc_pos_neq_0 (a : Qc) : 0 < a -> a <> 0.
Proof. intros H ->. exact (Qclt_not_eq _ _ H eq_refl). Qed.

Lemma Qc_neg_neq_0 (a : Qc) : a < 0 -> a <> 0.
Proof. intros H ->. exact (Qclt_not_eq _ _ H eq_refl). Qed.

Lemma ltb_nan_l (x : t) : ltb NaN x = false.
Proof. now destruct x. Qed.

Lemma ltb_nan_r (x : t) : ltb x NaN = false.
Proof. now destruct x. Qed.

(** X2: a row whose observation is missing (NaN) gets no score, whatever
    the corridor; so does a row whose two bounds are missing. *)
Theorem deviation_missing_cells (x : Row) :
  is_nan (actual x) = true \/
  (is_nan (floor x) = true /\ is_nan (hat x) = true) ->
  deviation x = None.
Proof.
  unfold deviation, gtb.
  destruct x as [m f h a]; cbn [mean floor hat actual].
  intros [Ha|[Hf Hh]].
  - destruct a; try discriminate. now rewrite ltb_nan_l, ltb_nan_r.
  - destruct f; try discriminate. destruct h; try discriminate.
    now rewrite ltb_nan_l, ltb_nan_r.
Qed.

Lemma floor_value_negative (f a : Qc) :
  0 < a -> a < f -> - f / a + 1 < 0.
Proof.
  intros Ha Hf. pose proof (Qc_pos_neq_0 _ Ha) as Hne.
  replace (- f / a + 1) with (- ((f + - a) * / a)) by (field; assumption).
  apply Qclt_minus_iff. rewrite Qcopp_involutive, Qcplus_0_l.
  apply Qcmult_pos_pos; [now apply Qclt_minus_iff in Hf | now apply Qcinv_pos].
Qed.

Lemma floor_value_positive (f a : Qc) :
  a < 0 -> a < f -> 0 < - f / a + 1.
Proof.
  intros Ha Hf. pose proof (Qc_neg_neq_0 _ Ha) as Hne.
  assert (Hna : 0 < - a).
  { apply Qclt_minus_iff in Ha. now rewrite Qcplus_0_l in Ha. }
  replace (- f / a + 1) with ((f + - a) * / (- a)).
  - apply Qcmult_pos_pos; [now apply Qclt_minus_iff in Hf | now apply Qcinv_pos].
  - field. split; [assumption|]. intros H. apply Hne. now apply Qcopp_eq_0.
Qed.

(** X3: below the floor the sign of the score follows the sign of the
    observation: it is negative for a positive observation and positive
    for a negative finite one. *)
Theorem floor_breach_sign (x : Row) (v : t) :
  gtb (floor x) (actual x) = true ->
  deviation x = Some v ->
  (gtb (actual x) zero = true -> ltb v zero = true) /\
  (ltb (actual x) zero = true -> is_finite (actual x) = true -> gtb v zero = true).
Proof.
  unfold deviation. intros Hgt. rewrite Hgt. intros [= <-].
  destruct x as [m f h a]; cbn [mean floor hat actual] in *.
  unfold gtb in *.
  destruct a as [a| | |]; try (destruct f; discriminate);
    [|split; intros; discriminate].
  split.
  - intros Ha. simpl in Ha. apply Qc_ltb_lt in Ha.
    pose proof (Qc_pos_neq_0 _ Ha) as Hne.
    destruct f as [f| | |]; try discriminate.
    + simpl in Hgt. apply Qc_ltb_lt in Hgt. simpl.
      rewrite (proj2 (Qc_eqb_neq _ _) Hne). simpl.
      apply Qc_ltb_lt. now apply floor_value_negative.
    + simpl. rewrite (proj2 (Qc_ltb_ge _ _) (Qclt_le_weak _ _ Ha)). reflexivity.
  - intros Ha _. simpl in Ha. apply Qc_ltb_lt in Ha.
    pose proof (Qc_neg_neq_0 _ Ha) as Hne.
    destruct f as [f| | |]; try discriminate.
    + simpl in Hgt. apply Qc_ltb_lt in Hgt. simpl.
      rewrite (proj2 (Qc_eqb_neq _ _) Hne). simpl.
      apply Qc_ltb_lt. now apply floor_value_positive.
    + simpl. rewrite (proj2 (Qc_ltb_lt _ _) Ha). reflexivity.
Qed.

Lemma floor_breach_sign_witness :
  deviation (row_of 2 3 5 (-1)) = Some (of_Z 4) /\
  gtb (of_Z 4) zero = true.
Proof.
  assert (E : deviation (row_of 2 3 5 (-1)) = Some (of_Z 4)) by float_eq.
  split; [exact E|].
  exact (proj2 (floor_breach_sign (row_of 2 3 5 (-1)) (of_Z 4) eq_refl E)
           eq_refl eq_refl).
Defined.

(** X25: above a ceiling that is not positive the score loses its
    meaning.  Over a negative finite ceiling it is negative although the
    observation is too high, on rows of either kind.  Over a zero ceiling
    it is an infinity on a row of float64 cells (which of the two follows
    the sign of the zero), and the division raises [ZeroDivisionError] on
    a row of Python objects. *)
Theorem ceiling_breach_nonpositive_ceiling (x : Row) (v : t) :
  gtb (floor x) (actual x) = false ->
  gtb (actual x) (hat x) = true ->
  deviation x = Some v ->
  (hat x = zero ->
   is_infinite v = true /\
   exists msg, deviation_object x = inl (ZeroDivisionError msg)) /\
  (ltb (hat x) zero = true -> is_finite (hat x) = true ->
   ltb v zero = true /\ deviation_object x = inr (Some v)).
Proof.
  intros Hf Hgt Hv. split.
  - intros Hz. split.
    + revert Hv. unfold deviation. rewrite Hf, Hgt. intros [= <-].
      destruct x as [m f h a]; cbn [mean floor hat actual] in *. subst h.
      unfold gtb in Hgt. destruct a as [a| | |]; try discriminate.
      * simpl in Hgt. apply Qc_ltb_lt in Hgt.
        pose proof (Qc_pos_neq_0 _ Hgt) as Hne.
        unfold zero, sub, div.
        replace (Qc_eqb (Q2Qc 0) (Q2Qc 0)) with true by (symmetry; now apply Qc_eqb_eq).
        rewrite (proj2 (Qc_eqb_neq _ _) Hne). unfold inf_of_sign.
        rewrite (proj2 (Qc_ltb_ge _ _) (Qclt_le_weak _ _ Hgt)). reflexivity.
      * reflexivity.
    + eexists. apply deviation_object_inl. split; [reflexivity|].
      right. split; [assumption|]. split; [assumption|]. now rewrite Hz.
  - intros Hh Hfin.
    assert (Hnz : is_zero (hat x) = false).
    { destruct (hat x) as [h| | |]; try discriminate.
      simpl in Hh. apply Qc_ltb_lt in Hh. simpl.
      apply Qc_eqb_neq. now apply Qc_neg_neq_0. }
    split.
    + revert Hv. unfold deviation. rewrite Hf, Hgt. intros [= <-].
      destruct x as [m f h a]; cbn [mean floor hat actual] in *. clear Hf Hnz.
      unfold gtb in *.
      destruct h as [h| | |]; try discriminate.
      simpl in Hh. apply Qc_ltb_lt in Hh.
      pose proof (Qc_neg_neq_0 _ Hh) as Hne.
      destruct a as [a| | |]; try discriminate.
      * simpl in Hgt. apply Qc_ltb_lt in Hgt. unfold sub, div.
        rewrite (proj2 (Qc_eqb_neq _ _) Hne). simpl.
        apply Qc_ltb_lt.
        assert (Hnh : 0 < - h).
        { apply Qclt_minus_iff in Hh. now rewrite Qcplus_0_l in Hh. }
        replace (a / h + - Q2Qc 1) with (- ((a + - h) * / (- h))).
        -- apply Qclt_minus_iff. rewrite Qcopp_involutive, Qcplus_0_l.
           apply Qcmult_pos_pos; [now apply Qclt_minus_iff in Hgt|now apply Qcinv_pos].
        -- field. split; [assumption|]. intros H. apply Hne. now apply Qcopp_eq_0.
      * unfold sub, div. rewrite (proj2 (Qc_ltb_lt _ _) Hh). reflexivity.
    + rewrite <- Hv. unfold deviation_object, deviation, truediv.
      now rewrite Hf, Hgt, Hnz.
Qed.

Lemma ceiling_breach_nonpositive_ceiling_witness :
  (deviation (row_of (-4) (-6) (-1) 2) = Some (of_Z (-3)) /\
   ltb (of_Z (-3)) zero = true /\
   deviation_object (row_of (-4) (-6) (-1) 2) = inr (Some (of_Z (-3)))) /\
  (is_infinite PInf = true /\
   exists msg, deviation_object (row_of 0 (-1) 0 1) = inl (ZeroDivisionError msg)).
Proof.
  assert (E : deviation (row_of (-4) (-6) (-1) 2) = Some (of_Z (-3))) by float_eq.
  assert (E0 : deviation (row_of 0 (-1) 0 1) = Some PInf) by reflexivity.
  split.
  - split; [exact E|].
    exact (proj2 (ceiling_breach_nonpositive_ceiling (row_of (-4) (-6) (-1) 2) (of_Z (-3))
                    eq_refl eq_refl E) eq_refl eq_refl).
  - exact (proj1 (ceiling_breach_nonpositive_ceiling (row_of 0 (-1) 0 1) PInf
                    eq_refl eq_refl E0) eq_refl).
Defined.

End ScoreFacts.

Lemma deviation_missing_cells_witness :
  deviation (mkRow Float64.one Float64.one Float64.one Float64.NaN) = None.
Proof.
  apply (deviation_missing_cells (mkRow Float64.one Float64.one Float64.one Float64.NaN)).
  left. reflexivity.
Defined.

(** ** The forecast window *)

Section Window.

Local Open Scope Z_scope.

Lemma minute_ns_pos : 0 < minute_ns.
Proof. reflexivity. Qed.

Lemma minute_ns_us : minute_ns = 1000 * minute_us.
Proof. reflexivity. Qed.

(** On a window that does not run backwards, leaving out the nanoseconds
    changes nothing: the count is the quotient of the nanoseconds by a
    minute. *)
Lemma get_minutes_between_dates_forward (from_time to_time : Timestamp) :
  from_time <= to_time ->
  get_minutes_between_dates from_time to_time = (to_time - from_time) / minute_ns.
Proof.
  intros H. unfold get_minutes_between_dates, total_microseconds.
  assert (0 <= (to_time - from_time) / 1000) by (apply Z.div_pos; lia).
  rewrite Z.quot_div_nonneg by (try assumption; reflexivity).
  rewrite minute_ns_us. rewrite Z.div_div by (try lia; reflexivity). reflexivity.
Qed.

(** X5: for a window that does not run backwards, the count of minutes is
    the number of whole minutes in it: a started minute is dropped. *)
Theorem get_minutes_between_dates_whole (from_time to_time : Timestamp) :
  from_time <= to_time ->
  0 <= get_minutes_between_dates from_time to_time /\
  get_minutes_between_dates from_time to_time * minute_ns <= to_time - from_time
    < (get_minutes_between_dates from_time to_time + 1) * minute_ns.
Proof.
  intros H. rewrite (get_minutes_between_dates_forward _ _ H).
  pose proof minute_ns_pos as Hm.
  pose proof (Z.div_pos (to_time - from_time) minute_ns ltac:(lia) Hm).
  pose proof (Z.mul_div_le (to_time - from_time) minute_ns Hm).
  pose proof (Z.mul_succ_div_gt (to_time - from_time) minute_ns Hm).
  lia.
Qed.

Lemma get_minutes_between_dates_whole_witness :
  0 <= get_minutes_between_dates (minutes 60) (minutes 61 + 59000000000) /\
  get_minutes_between_dates (minutes 60) (minutes 61 + 59000000000) * minute_ns
    <= minutes 61 + 59000000000 - minutes 60
    < (get_minutes_between_dates (minutes 60) (minutes 61 + 59000000000) + 1) * minute_ns.
Proof.
  apply (get_minutes_between_dates_whole (minutes 60) (minutes 61 + 59000000000)).
  vm_compute. discriminate.
Defined.

(** X6: swapping the two ends of a window negates the count when the
    window is a whole number of microseconds.  In general it does not:
    the nanoseconds are left out after rounding down, so a backwards
    window counts the minutes of the forward one or one more. *)
Theorem get_minutes_between_dates_swap (from_time to_time : Timestamp) :
  from_time <= to_time ->
  ((to_time - from_time) mod 1000 = 0 ->
   get_minutes_between_dates to_time from_time
   = - get_minutes_between_dates from_time to_time)
  /\
  - get_minutes_between_dates from_time to_time - 1
    <= get_minutes_between_dates to_time from_time
    <= - get_minutes_between_dates from_time to_time.
Proof.
  intros H. rewrite (get_minutes_between_dates_forward _ _ H).
  unfold get_minutes_between_dates, total_microseconds.
  set (d := to_time - from_time).
  replace (from_time - to_time) with (- d) by (unfold d; lia).
  assert (Hd : 0 <= d) by (unfold d; lia).
  assert (Hus : 0 < minute_us) by reflexivity.
  rewrite minute_ns_us, <- Z.div_div by (try lia; reflexivity).
  set (u := d / 1000).
  assert (Hu : 0 <= u) by (apply Z.div_pos; lia).
  split.
  - intros Hmod. rewrite Z.div_opp_l_z by (try assumption; lia). fold u.
    rewrite Z.quot_opp_l by lia. rewrite Z.quot_div_nonneg by lia. reflexivity.
  - destruct (Z.eq_dec (d mod 1000) 0) as [Hmod|Hmod].
    + rewrite Z.div_opp_l_z by (try assumption; lia). fold u.
      rewrite Z.quot_opp_l by lia. rewrite Z.quot_div_nonneg by lia. lia.
    + rewrite Z.div_opp_l_nz by (try assumption; lia). fold u.
      replace (- u - 1) with (- (u + 1)) by lia.
      rewrite Z.quot_opp_l by lia. rewrite Z.quot_div_nonneg by lia.
      assert (u / minute_us <= (u + 1) / minute_us) by (apply Z.div_le_mono; lia).
      assert ((u + 1) / minute_us <= u / minute_us + 1).
      { replace (u / minute_us + 1) with ((u + 1 * minute_us) / minute_us)
          by (rewrite Z.div_add by lia; reflexivity).
        apply Z.div_le_mono; lia. }
      lia.
Qed.

(** One nanosecond short of a minute counts for nothing forwards and for
    a whole minute backwards. *)
Lemma get_minutes_between_dates_swap_witness :
  get_minutes_between_dates 0 59999999999 = 0 /\
  get_minutes_between_dates 59999999999 0 = -1 /\
  - get_minutes_between_dates 0 59999999999 - 1
    <= get_minutes_between_dates 59999999999 0
    <= - get_minutes_between_dates 0 59999999999.
Proof.
  split; [reflexivity|]. split; [reflexivity|].
  refine (proj2 (get_minutes_between_dates_swap 0 59999999999 _)).
  vm_compute. discriminate.
Defined.

(** X7: for a window that does not run backwards, the horizon asked of
    the predictor is the number of whole 30-minute buckets in the window;
    a window shorter than 30 minutes asks for none. *)
Theorem horizon_whole_buckets (fromTime toTime : Timestamp) :
  fromTime <= toTime ->
  0 <= horizon fromTime toTime /\
  horizon fromTime toTime * (interval_length * minute_ns) <= toTime - fromTime
    < (horizon fromTime toTime + 1) * (interval_length * minute_ns) /\
  (toTime - fromTime < interval_length * minute_ns -> horizon fromTime toTime = 0).
Proof.
  intros H. unfold horizon. rewrite (get_minutes_between_dates_forward _ _ H).
  pose proof minute_ns_pos as Hm.
  assert (Hi : 0 < interval_length) by reflexivity.
  assert (0 <= (toTime - fromTime) / minute_ns) by (apply Z.div_pos; lia).
  rewrite Z.quot_div_nonneg by lia.
  rewrite Z.div_div by lia.
  set (w := minute_ns * interval_length).
  assert (Hw : 0 < w) by (unfold w; lia).
  replace (interval_length * minute_ns) with w by (unfold w; lia).
  pose proof (Z.div_pos (toTime - fromTime) w ltac:(lia) Hw).
  pose proof (Z.mul_div_le (toTime - fromTime) w Hw).
  pose proof (Z.mul_succ_div_gt (toTime - fromTime) w Hw).
  repeat split; try lia.
  intros Hs. apply Z.div_small. lia.
Qed.

Lemma horizon_whole_buckets_witness :
  0 <= horizon (minutes 60) (minutes 149) /\
  horizon (minutes 60) (minutes 149) * (interval_length * minute_ns)
    <= minutes 149 - minutes 60
    < (horizon (minutes 60) (minutes 149) + 1) * (interval_length * minute_ns) /\
  (minutes 149 - minutes 60 < interval_length * minute_ns ->
   horizon (minutes 60) (minutes 149) = 0).
Proof.
  apply (horizon_whole_buckets (minutes 60) (minutes 149)).
  vm_compute. discriminate.
Defined.

End Window.

(** ** Validation *)

(** X8: the four checks accept exactly the frames that have a [value]
    column of numeric type, at least one row and a time index; whatever
    they raise is a [ValueError]. *)
Theorem validate_accepts_iff (d : DataFrame) :
  (validate d = inr tt <->
   has_column d "value" = true /\ empty d = false /\
   (exists c, get_column d "value" = Some c /\ is_numeric_dtype c = true) /\
   is_DatetimeIndex (df_index d) = true)
  /\
  (forall e, validate d = inl e -> exists msg, e = ValueError msg).
Proof.
  unfold validate, required_column. cbn [forallb]. rewrite andb_true_r.
  destruct (has_column d "value"); cbn [negb].
  2:{ split; [split; [discriminate|intros (H & _); discriminate]|].
      intros e [= <-]. eauto. }
  destruct (empty d).
  { split; [split; [discriminate|intros (_ & H & _); discriminate]|].
    intros e [= <-]. eauto. }
  destruct (get_column d "value") as [c|]; cbn [from_option].
  2:{ cbn [negb]. split; [split; [discriminate|intros (_ & _ & [c [H _]] & _); discriminate]|].
      intros e [= <-]. eauto. }
  destruct (is_numeric_dtype c) eqn:Ec; cbn [negb].
  2:{ split; [split; [discriminate|]|].
      - intros (_ & _ & [c' [[= <-] H]] & _). congruence.
      - intros e [= <-]. eauto. }
  destruct (is_DatetimeIndex (df_index d)); cbn [negb].
  - split; [|discriminate]. split; [|reflexivity].
    intros _. repeat split; eauto.
  - split; [split; [discriminate|intros (_ & _ & _ & H); discriminate]|].
    intros e [= <-]. eauto.
Qed.

(** ** Regular grids of bucket starts *)

Section Grid.

Local Open Scope Z_scope.

Variable width : Z.
Hypothesis width_pos : 0 < width.

Lemma floor_to_bounds (t : Z) : floor_to width t <= t < floor_to width t + width.
Proof.
  unfold floor_to.
  pose proof (Z.mul_div_le t width width_pos).
  pose proof (Z.mul_succ_div_gt t width width_pos). lia.
Qed.

Lemma floor_to_aligned (t : Z) : floor_to width t mod width = 0.
Proof. unfold floor_to. rewrite Z.mul_comm. apply Z_mod_mult. Qed.

Lemma floor_to_mono (t t' : Z) : t <= t' -> floor_to width t <= floor_to width t'.
Proof.
  intros H. unfold floor_to.
  apply Z.mul_le_mono_nonneg_l; [lia|]. now apply Z.div_le_mono.
Qed.

Lemma floor_to_span (t t' : Z) :
  t <= t' -> (floor_to width t' - floor_to width t) / width = t' / width - t / width.
Proof.
  intros H. unfold floor_to.
  replace (width * (t' / width) - width * (t / width))
    with ((t' / width - t / width) * width) by lia.
  apply Z.div_mul. lia.
Qed.

Lemma in_bucket_starts (lo hi b : Z) :
  In b (bucket_starts width lo hi) <->
  exists k : nat, (k <= Z.to_nat ((hi - lo) / width))%nat /\ b = lo + width * Z.of_nat k.
Proof.
  unfold bucket_starts. rewrite in_map_iff. split.
  - intros [k [<- Hk]]. apply in_seq in Hk. exists k. split; [lia|reflexivity].
  - intros [k [Hk ->]]. exists k. split; [reflexivity|]. apply in_seq. lia.
Qed.

Lemma bucket_starts_lookup (lo hi : Z) (i : nat) (b : Z) :
  bucket_starts width lo hi !! i = Some b <->
  (i <= Z.to_nat ((hi - lo) / width))%nat /\ b = lo + width * Z.of_nat i.
Proof.
  unfold bucket_starts.
  change (map ?f ?l) with (f <$> l).
  rewrite list_lookup_fmap. split.
  - intros H. destruct (seq _ _ !! i) as [k|] eqn:E; [|discriminate].
    apply lookup_seq in E as [-> Hi]. simpl in H. injection H as <-.
    split; [lia|reflexivity].
  - intros [Hi ->].
    assert (E : seq 0 (S (Z.to_nat ((hi - lo) / width))) !! i = Some i)
      by (apply lookup_seq; split; [reflexivity|lia]).
    now rewrite E.
Qed.

Lemma bucket_starts_length (lo hi : Z) :
  length (bucket_starts width lo hi) = S (Z.to_nat ((hi - lo) / width)).
Proof. unfold bucket_starts. now rewrite length_map, length_seq. Qed.

Lemma bucket_starts_NoDup (lo hi : Z) : NoDup (bucket_starts width lo hi).
Proof.
  apply NoDup_alt. intros i j b Hi Hj.
  apply bucket_starts_lookup in Hi as [_ ->].
  apply bucket_starts_lookup in Hj as [_ Hj]. nia.
Qed.

Lemma bucket_starts_aligned (lo hi b : Z) :
  lo mod width = 0 -> In b (bucket_starts width lo hi) -> b mod width = 0.
Proof.
  intros Hlo Hb. apply in_bucket_starts in Hb as [k [_ ->]].
  rewrite Z.mul_comm, Z_mod_plus_full. exact Hlo.
Qed.

Lemma Zlist_min_spec (z : Z) (zs : list Z) :
  In (Zlist_min z zs) (z :: zs) /\ forall t, In t (z :: zs) -> Zlist_min z zs <= t.
Proof.
  unfold Zlist_min. revert z. induction zs as [|y zs IH]; intros z; simpl.
  - split; [now left|]. intros t [<-|[]]. lia.
  - destruct (IH (Z.min z y)) as [Hin Hle]. split.
    + destruct Hin as [Hin|Hin]; [|now right; right].
      rewrite <- Hin. destruct (Z.min_spec z y) as [[_ ->]|[_ ->]]; auto.
    + intros t Ht.
      assert (Hm : fold_left Z.min zs (Z.min z y) <= Z.min z y)
        by (apply Hle; now left).
      destruct Ht as [<-|[<-|Ht]]; [lia|lia|]. apply Hle. now right.
Qed.

Lemma Zlist_max_spec (z : Z) (zs : list Z) :
  In (Zlist_max z zs) (z :: zs) /\ forall t, In t (z :: zs) -> t <= Zlist_max z zs.
Proof.
  unfold Zlist_max. revert z. induction zs as [|y zs IH]; intros z; simpl.
  - split; [now left|]. intros t [<-|[]]. lia.
  - destruct (IH (Z.max z y)) as [Hin Hle]. split.
    + destruct Hin as [Hin|Hin]; [|now right; right].
      rewrite <- Hin. destruct (Z.max_spec z y) as [[_ ->]|[_ ->]]; auto.
    + intros t Ht.
      assert (Hm : Z.max z y <= fold_left Z.max zs (Z.max z y))
        by (apply Hle; now left).
      destruct Ht as [<-|[<-|Ht]]; [lia|lia|]. apply Hle. now right.
Qed.

(** The grid spanned by a non-empty list of timestamps. *)
Lemma span_grid (t : Z) (ts : list Z) (b : Z) :
  In b (bucket_starts width (floor_to width (Zlist_min t ts))
                            (floor_to width (Zlist_max t ts))) <->
  b mod width = 0 /\
  floor_to width (Zlist_min t ts) <= b <= floor_to width (Zlist_max t ts).
Proof.
  destruct (Zlist_min_spec t ts) as [_ Hmin].
  destruct (Zlist_max_spec t ts) as [_ Hmax].
  assert (Hle : Zlist_min t ts <= Zlist_max t ts).
  { transitivity t; [apply Hmin|apply Hmax]; now left. }
  rewrite in_bucket_starts, (floor_to_span _ _ Hle).
  pose proof (Z.div_le_mono _ _ width width_pos Hle) as Hd.
  unfold floor_to. split.
  - intros [k [Hk ->]]. split; [|nia].
    rewrite <- Z.mul_add_distr_l, Z.mul_comm. apply Z_mod_mult.
  - intros [Hb [H1 H2]].
    apply Z_div_exact_full_2 in Hb; [|lia].
    exists (Z.to_nat (b / width - Zlist_min t ts / width)).
    split; [nia|]. nia.
Qed.

End Grid.

(** ** The Interval Aggregator *)

Section Aggregator.

Local Open Scope Z_scope.

Variable width : Z.
Hypothesis width_pos : 0 < width.

Lemma timestamps_resample_agg (a : Agg) (s : TimeSeries) :
  timestamps (resample_agg width a s)
  = match timestamps s with
    | [] => []
    | t :: ts => bucket_starts width (floor_to width (Zlist_min t ts))
                                     (floor_to width (Zlist_max t ts))
    end.
Proof.
  unfold resample_agg. destruct (timestamps s) as [|t ts]; [reflexivity|].
  unfold timestamps. rewrite map_map. cbn [fst]. apply map_id.
Qed.

Lemma in_resample_agg (a : Agg) (s : TimeSeries) (b : Z) (v : float64) :
  In (b, v) (resample_agg width a s) ->
  In b (timestamps (resample_agg width a s)) /\
  v = aggregate a (bucket_cells width b s).
Proof.
  intros H. split.
  - unfold timestamps. apply in_map_iff. exists (b, v). auto.
  - unfold resample_agg in H. destruct (timestamps s); [destruct H|].
    apply in_map_iff in H as [b' [[= <- <-] _]]. reflexivity.
Qed.

Lemma resample_agg_index_same (a a' : Agg) (s : TimeSeries) :
  timestamps (resample_agg width a s) = timestamps (resample_agg width a' s).
Proof. now rewrite !timestamps_resample_agg. Qed.

Lemma in_resample_agg_index (a : Agg) (s : TimeSeries) (b : Z) :
  In b (timestamps (resample_agg width a s)) <->
  b mod width = 0 /\
  exists t t', In t (timestamps s) /\ In t' (timestamps s) /\
               floor_to width t <= b <= floor_to width t'.
Proof.
  rewrite timestamps_resample_agg.
  destruct (timestamps s) as [|t ts] eqn:E.
  { split; [intros []|intros (_ & t & _ & [] & _)]. }
  destruct (Zlist_min_spec t ts) as [Hmin_in Hmin].
  destruct (Zlist_max_spec t ts) as [Hmax_in Hmax].
  rewrite (span_grid width width_pos). split.
  - intros [Hb Hr]. split; [assumption|]. eauto.
  - intros [Hb (u & u' & Hu & Hu' & H1 & H2)]. split; [assumption|].
    pose proof (floor_to_mono width width_pos _ _ (Hmin u Hu)).
    pose proof (floor_to_mono width width_pos _ _ (Hmax u' Hu')). lia.
Qed.

Lemma resample_agg_index_NoDup (a : Agg) (s : TimeSeries) :
  NoDup (timestamps (resample_agg width a s)).
Proof.
  rewrite timestamps_resample_agg. destruct (timestamps s); [constructor|].
  apply bucket_starts_NoDup. exact width_pos.
Qed.

(** X9: the mean, min and max summaries of one series have the same
    index.  It is the regular grid spanned by the samples: the multiples
    of the bucket width from the bucket of the earliest sample to the
    bucket of the latest, one width apart and without repetition, whatever
    the order of the samples.  In particular every sample's bucket is on
    it. *)
Theorem resample_agg_index (a a' : Agg) (s : TimeSeries) :
  timestamps (resample_agg width a s) = timestamps (resample_agg width a' s)
  /\
  (forall b,
      In b (timestamps (resample_agg width a s)) <->
      b mod width = 0 /\
      exists t t', In t (timestamps s) /\ In t' (timestamps s) /\
                   floor_to width t <= b <= floor_to width t')
  /\
  (forall (i : nat) b b',
      timestamps (resample_agg width a s) !! i = Some b ->
      timestamps (resample_agg width a s) !! S i = Some b' ->
      b' = b + width)
  /\
  NoDup (timestamps (resample_agg width a s))
  /\
  (forall t, In t (timestamps s) ->
             In (floor_to width t) (timestamps (resample_agg width a s))).
Proof.
  split; [apply resample_agg_index_same|].
  split; [apply in_resample_agg_index|].
  split; [|split; [apply resample_agg_index_NoDup|]].
  - intros i b b'. rewrite timestamps_resample_agg.
    destruct (timestamps s); [rewrite lookup_nil; discriminate|].
    intros Hi Hi'.
    apply (bucket_starts_lookup width) in Hi as [_ ->].
    apply (bucket_starts_lookup width) in Hi' as [_ ->]. lia.
  - intros u Hu. apply in_resample_agg_index.
    split; [now apply floor_to_aligned|].
    exists u, u. repeat split; auto; lia.
Qed.

End Aggregator.

Lemma resample_agg_index_witness :
  timestamps (resample_agg (30 * minute_ns) AggMin (value_series unsorted_df))
  = timestamps (resample_agg (30 * minute_ns) AggMax (value_series unsorted_df)).
Proof.
  refine (proj1 (resample_agg_index (30 * minute_ns) _ AggMin AggMax
                   (value_series unsorted_df))).
  reflexivity.
Defined.

(** ** The order of known cells *)

Section OrderFacts.

Import Float64.
Local Open Scope Qc_scope.

Lemma leb_refl (x : t) : is_nan x = false -> leb x x = true.
Proof.
  destruct x as [a| | |]; try reflexivity; [|discriminate].
  intros _. simpl. apply negb_true_iff. apply Qc_ltb_ge. apply Qcle_refl.
Qed.

Lemma ltb_leb (x y : t) : ltb x y = true -> leb x y = true.
Proof.
  destruct x as [a| | |], y as [b| | |]; simpl; try congruence.
  intros H. apply negb_true_iff. now apply Qc_ltb_asym.
Qed.

Lemma not_ltb_leb (x y : t) :
  is_nan x = false -> is_nan y = false -> ltb y x = false -> leb x y = true.
Proof.
  destruct x as [a| | |], y as [b| | |]; simpl; try congruence.
  intros _ _ ->. reflexivity.
Qed.

Lemma leb_trans (x y z : t) : leb x y = true -> leb y z = true -> leb x z = true.
Proof.
  destruct x as [a| | |], y as [b| | |], z as [c| | |]; simpl; try congruence.
  rewrite !negb_true_iff, !Qc_ltb_ge. intros H1 H2. now apply Qcle_trans with b.
Qed.

Lemma fmin_spec (x y : t) :
  is_nan x = false -> is_nan y = false ->
  (fmin x y = x \/ fmin x y = y) /\
  leb (fmin x y) x = true /\ leb (fmin x y) y = true.
Proof.
  intros Hx Hy. unfold fmin. destruct (ltb y x) eqn:E.
  - split; [now right|]. split; [now apply ltb_leb|now apply leb_refl].
  - split; [now left|]. split; [now apply leb_refl|now apply not_ltb_leb].
Qed.

Lemma fmax_spec (x y : t) :
  is_nan x = false -> is_nan y = false ->
  (fmax x y = x \/ fmax x y = y) /\
  leb x (fmax x y) = true /\ leb y (fmax x y) = true.
Proof.
  intros Hx Hy. unfold fmax. destruct (ltb x y) eqn:E.
  - split; [now right|]. split; [now apply ltb_leb|now apply leb_refl].
  - split; [now left|]. split; [now apply leb_refl|now apply not_ltb_leb].
Qed.

Lemma fold_fmin_spec (cs : list t) (c : t) :
  Forall (fun x => is_nan x = false) (c :: cs) ->
  In (fold_left fmin cs c) (c :: cs) /\
  forall x, In x (c :: cs) -> leb (fold_left fmin cs c) x = true.
Proof.
  revert c. induction cs as [|y cs IH]; intros c Hk.
  - apply List.Forall_inv in Hk. simpl. split; [now left|].
    intros x [<-|[]]. now apply leb_refl.
  - pose proof (proj1 (List.Forall_forall _ _) Hk) as Hall.
    assert (Hc : is_nan c = false) by (apply Hall; now left).
    assert (Hy : is_nan y = false) by (apply Hall; right; now left).
    destruct (fmin_spec c y Hc Hy) as [Hsel [Hlc Hly]].
    assert (Hm : is_nan (fmin c y) = false) by (destruct Hsel as [-> | ->]; assumption).
    destruct (IH (fmin c y)) as [Hin Hle].
    { apply List.Forall_forall. intros x [<-|Hx]; [assumption|].
      apply Hall. now right; right. }
    cbn [fold_left]. split.
    + destruct Hin as [Hin|Hin]; [|now right; right].
      rewrite <- Hin. destruct Hsel as [-> | ->]; [now left|right; now left].
    + intros x Hx.
      assert (H0 : leb (fold_left fmin cs (fmin c y)) (fmin c y) = true)
        by (apply Hle; now left).
      destruct Hx as [<-|[<-|Hx]].
      * now apply leb_trans with (fmin c y).
      * now apply leb_trans with (fmin c y).
      * apply Hle. now right.
Qed.

Lemma fold_fmax_spec (cs : list t) (c : t) :
  Forall (fun x => is_nan x = false) (c :: cs) ->
  In (fold_left fmax cs c) (c :: cs) /\
  forall x, In x (c :: cs) -> leb x (fold_left fmax cs c) = true.
Proof.
  revert c. induction cs as [|y cs IH]; intros c Hk.
  - apply List.Forall_inv in Hk. simpl. split; [now left|].
    intros x [<-|[]]. now apply leb_refl.
  - pose proof (proj1 (List.Forall_forall _ _) Hk) as Hall.
    assert (Hc : is_nan c = false) by (apply Hall; now left).
    assert (Hy : is_nan y = false) by (apply Hall; right; now left).
    destruct (fmax_spec c y Hc Hy) as [Hsel [Hlc Hly]].
    assert (Hm : is_nan (fmax c y) = false) by (destruct Hsel as [-> | ->]; assumption).
    destruct (IH (fmax c y)) as [Hin Hle].
    { apply List.Forall_forall. intros x [<-|Hx]; [assumption|].
      apply Hall. now right; right. }
    cbn [fold_left]. split.
    + destruct Hin as [Hin|Hin]; [|now right; right].
      rewrite <- Hin. destruct Hsel as [-> | ->]; [now left|right; now left].
    + intros x Hx.
      assert (H0 : leb (fmax c y) (fold_left fmax cs (fmax c y)) = true)
        by (apply Hle; now left).
      destruct Hx as [<-|[<-|Hx]].
      * now apply leb_trans with (fmax c y).
      * now apply leb_trans with (fmax c y).
      * apply Hle. now right.
Qed.

End OrderFacts.

Section BucketContents.

Local Open Scope Z_scope.

Variable width : Z.

Lemma in_bucket_cells (b : Z) (s : TimeSeries) (c : float64) :
  In c (bucket_cells width b s) <->
  Float64.is_nan c = false /\
  exists t, In (t, c) s /\ b <= t < b + width.
Proof.
  unfold bucket_cells, in_bucket.
  rewrite filter_In, in_map_iff, negb_true_iff. split.
  - intros [[[t c'] [Hc Hin]] Hn]. simpl in Hc. subst c'.
    apply filter_In in Hin as [Hin Hb]. simpl in Hb.
    apply andb_true_iff in Hb as [H1 H2].
    split; [assumption|]. exists t. split; [assumption|lia].
  - intros [Hn [t [Hin Hb]]]. split; [|assumption].
    exists (t, c). split; [reflexivity|]. apply filter_In. split; [assumption|].
    simpl. apply andb_true_iff. split; lia.
Qed.

Lemma bucket_cells_known (b : Z) (s : TimeSeries) :
  Forall (fun x => Float64.is_nan x = false) (bucket_cells width b s).
Proof.
  apply List.Forall_forall. intros c Hc. now apply in_bucket_cells in Hc as [Hn _].
Qed.

(** X10: in the min and max summaries the value of a bucket is the least,
    respectively the greatest, non-missing sample that falls in the
    bucket: it is one of those samples and bounds them all, so min <= max.
    A bucket with no such sample holds the missing value in both. *)
Theorem resample_agg_min_max (s : TimeSeries) (b : Z) (lo hi : float64) :
  In (b, lo) (resample_agg width AggMin s) ->
  In (b, hi) (resample_agg width AggMax s) ->
  match bucket_cells width b s with
  | [] => lo = Float64.NaN /\ hi = Float64.NaN
  | _ :: _ =>
      In lo (bucket_cells width b s) /\ In hi (bucket_cells width b s) /\
      (forall c, In c (bucket_cells width b s) ->
                 Float64.leb lo c = true /\ Float64.leb c hi = true) /\
      Float64.leb lo hi = true
  end.
Proof.
  intros Hlo Hhi.
  apply in_resample_agg in Hlo as [_ ->]. apply in_resample_agg in Hhi as [_ ->].
  pose proof (bucket_cells_known b s) as Hk.
  destruct (bucket_cells width b s) as [|c cs]; [split; reflexivity|].
  cbn [aggregate].
  destruct (fold_fmin_spec cs c Hk) as [Hmin_in Hmin].
  destruct (fold_fmax_spec cs c Hk) as [Hmax_in Hmax].
  split; [assumption|]. split; [assumption|]. split.
  - intros x Hx. split; [now apply Hmin|now apply Hmax].
  - now apply Hmin.
Qed.

End BucketContents.

Lemma resample_agg_min_max_witness :
  In (Float64.of_Z 10) (bucket_cells (30 * minute_ns) (minutes 60) (value_series sample_df)) /\
  In (Float64.of_Z 50) (bucket_cells (30 * minute_ns) (minutes 60) (value_series sample_df)).
Proof.
  pose proof (resample_agg_min_max (30 * minute_ns) (value_series sample_df) (minutes 60)
                (Float64.of_Z 10) (Float64.of_Z 50)) as H.
  assert (H1 : In (minutes 60, Float64.of_Z 10)
                  (resample_agg (30 * minute_ns) AggMin (value_series sample_df))).
  { vm_compute. right. right. left. reflexivity. }
  assert (H2 : In (minutes 60, Float64.of_Z 50)
                  (resample_agg (30 * minute_ns) AggMax (value_series sample_df))).
  { vm_compute. right. right. left. reflexivity. }
  specialize (H H1 H2).
  change (bucket_cells (30 * minute_ns) (minutes 60) (value_series sample_df))
    with [Float64.of_Z 10; Float64.of_Z 50] in H.
  destruct H as (Ha & Hb & _). split; [exact Ha|exact Hb].
Defined.

(** ** What the predictor is given *)

Section PredictorInput.

Local Open Scope Z_scope.

Lemma in_history (d : DataFrame) (fromTime : Timestamp) (r : Timestamp * float64) :
  In r (history d fromTime) <-> In r (value_series d) /\ fst r < fromTime.
Proof. unfold history. rewrite filter_In. rewrite Z.ltb_lt. reflexivity. Qed.

Lemma in_to_TimeSeriesDataFrame_label (s : TimeSeries) item t v :
  In ((item, t), v) (to_TimeSeriesDataFrame (label_summary s)) <->
  item = "single_item"%string /\ In (t, v) s.
Proof.
  unfold to_TimeSeriesDataFrame, label_summary. rewrite map_map. cbn.
  rewrite in_map_iff. split.
  - intros [[t' v'] [[= <- <- <-] Hin]]. auto.
  - intros [-> Hin]. exists (t, v). auto.
Qed.

Lemma keys_to_TimeSeriesDataFrame_label (s : TimeSeries) :
  map fst (to_TimeSeriesDataFrame (label_summary s))
  = map (fun t => ("single_item"%string, t)) (timestamps s).
Proof.
  unfold to_TimeSeriesDataFrame, label_summary, timestamps.
  rewrite !map_map. reflexivity.
Qed.

(** X11: the data handed to the predictor for a summary is for the one
    item ['single_item'], has one row per bucket and no key twice, and
    looks at nothing from the forecast start on: every bucket starts on a
    multiple of 30 minutes before [fromTime], and its value aggregates
    samples observed before [fromTime] only.  The three summaries have
    the same keys, and when the frame has no row before [fromTime] the
    predictor is given no row at all. *)
Theorem predictor_input_is_history (a a' : Agg) (d : DataFrame) (fromTime : Timestamp) :
  let w := interval_length * minute_ns in
  let data g := to_TimeSeriesDataFrame
                  (label_summary (resample_agg w g (history d fromTime))) in
  (forall item t v,
      In ((item, t), v) (data a) ->
      item = "single_item"%string /\ t mod w = 0 /\ t < fromTime /\
      v = aggregate a (bucket_cells w t (history d fromTime)) /\
      forall c, In c (bucket_cells w t (history d fromTime)) ->
                exists u, In (u, c) (value_series d) /\ t <= u < t + w /\ u < fromTime)
  /\ NoDup (map fst (data a))
  /\ map fst (data a) = map fst (data a')
  /\ ((forall r, In r (value_series d) -> fromTime <= fst r) -> data a = []).
Proof.
  intros w data.
  assert (Hw : 0 < w) by reflexivity.
  pose proof (resample_agg_index_same w a a' (history d fromTime)) as Hsame.
  pose proof (in_resample_agg_index w Hw a (history d fromTime)) as Hgrid.
  pose proof (resample_agg_index_NoDup w Hw a (history d fromTime)) as Hnodup.
  split; [|split; [|split]].
  - intros item t v Hin. unfold data in Hin.
    apply in_to_TimeSeriesDataFrame_label in Hin as [-> Hin].
    apply (in_resample_agg w) in Hin as [Hidx ->].
    apply Hgrid in Hidx as [Hal (u & u' & _ & Hu' & _ & Hle)].
    split; [reflexivity|]. split; [assumption|]. split.
    + apply in_map_iff in Hu' as [r [<- Hr]]. apply in_history in Hr as [_ Hr].
      pose proof (floor_to_bounds w Hw (fst r)). lia.
    + split; [reflexivity|]. intros c Hc.
      apply in_bucket_cells in Hc as [_ [x [Hx Hb]]].
      apply in_history in Hx as [Hx Hlt]. exists x. auto.
  - unfold data. rewrite keys_to_TimeSeriesDataFrame_label.
    apply NoDup_fmap_2; [|exact Hnodup]. intros x y [= ->]. reflexivity.
  - unfold data. rewrite !keys_to_TimeSeriesDataFrame_label. now rewrite Hsame.
  - intros Hlate. unfold data.
    assert (E : history d fromTime = []).
    { destruct (history d fromTime) as [|r rest] eqn:E; [reflexivity|].
      assert (Hr : In r (history d fromTime)) by (rewrite E; now left).
      apply in_history in Hr as [Hr Hlt]. specialize (Hlate _ Hr). lia. }
    rewrite E. reflexivity.
Qed.

End PredictorInput.

(** ** Every way a run can end *)

Section Outcomes.

Variable fit_predict : PredictorConfig -> TimeSeriesDataFrame -> Exception + Forecast.

Lemma request_forecast_fails (a : Agg) (df : IntervalSummary) (n : Z) (e : Exception) w :
  generate_forecast fit_predict df n = inl e ->
  request_forecast fit_predict a df n w
  = (inl e, mkWorld (store w) (calls w ++ [CallGenerateForecast a]) (readonly w)).
Proof.
  intros H. unfold request_forecast.
  rewrite (bind_inr _ _ _ _ _ (enter_spec _ _)).
  now apply lift_inl.
Qed.

(** The run, stage by stage: the first stage that raises ends it. *)
Lemma get_anomaly_summary_cases (df : loc) (fromTime toTime : Timestamp) w :
  get_anomaly_summary fit_predict df fromTime toTime w
  = match store w !! df with
    | None => (inl (AttributeError "'NoneType' object has no attribute"), w)
    | Some o =>
      match validate (as_frame o) with
      | inl e => (inl e, w)
      | inr _ =>
        let failed_at (n : nat) (e : Exception) :=
          (@inl Exception AnomalyResult e,
           mkWorld (store w) (calls w ++ firstn n all_calls) (readonly w)) in
        match forecast_of fit_predict AggMean (as_frame o) fromTime toTime with
        | inl e => failed_at 4%nat e
        | inr forecastMean =>
          match forecast_of fit_predict AggMin (as_frame o) fromTime toTime with
          | inl e => failed_at 5%nat e
          | inr forecastMin =>
            match forecast_of fit_predict AggMax (as_frame o) fromTime toTime with
            | inl e => failed_at 6%nat e
            | inr forecastMax =>
              match upsample minute_ns (corridor forecastMean forecastMin forecastMax) with
              | inl e => failed_at 8%nat e
              | inr up =>
                match merge_actual up (value_series (as_frame o)) with
                | inl e => failed_at 9%nat e
                | inr rows =>
                  match apply_deviation (row_dtype (as_frame o)) rows with
                  | inl e => failed_at 10%nat e
                  | inr t =>
                    (inr (mkAnomalyResult (length (store w)) (S (length (store w)))),
                     mkWorld (store w ++ [TableObj t; o]) (calls w ++ all_calls)
                       (readonly w))
                  end
                end
              end
            end
          end
        end
      end
    end.
Proof.
  destruct (store w !! df) as [o|] eqn:Hdf.
  2:{ unfold get_anomaly_summary. apply bind_inl. unfold deref. now rewrite Hdf. }
  destruct (validate (as_frame o)) as [e|[]] eqn:Hv.
  { now apply get_anomaly_summary_invalid with (o := o). }
  cbv zeta.
  destruct (forecast_of fit_predict AggMean (as_frame o) fromTime toTime)
    as [e|forecastMean] eqn:Hmean.
  { run_to_forecasts Hdf Hv.
    erewrite bind_inl by (apply request_forecast_fails; exact Hmean).
    cbn [store calls readonly]. rewrite <- !app_assoc. reflexivity. }
  destruct (forecast_of fit_predict AggMin (as_frame o) fromTime toTime)
    as [e|forecastMin] eqn:Hmin.
  { run_to_forecasts Hdf Hv.
    run_step ltac:(apply request_forecast_spec; exact Hmean).
    erewrite bind_inl by (apply request_forecast_fails; exact Hmin).
    cbn [store calls readonly]. rewrite <- !app_assoc. reflexivity. }
  destruct (forecast_of fit_predict AggMax (as_frame o) fromTime toTime)
    as [e|forecastMax] eqn:Hmax.
  { run_to_forecasts Hdf Hv.
    run_step ltac:(apply request_forecast_spec; exact Hmean).
    run_step ltac:(apply request_forecast_spec; exact Hmin).
    erewrite bind_inl by (apply request_forecast_fails; exact Hmax).
    cbn [store calls readonly]. rewrite <- !app_assoc. reflexivity. }
  destruct (upsample minute_ns (corridor forecastMean forecastMin forecastMax))
    as [e|up] eqn:Hup.
  { run_to_forecasts Hdf Hv.
    run_step ltac:(apply request_forecast_spec; exact Hmean).
    run_step ltac:(apply request_forecast_spec; exact Hmin).
    run_step ltac:(apply request_forecast_spec; exact Hmax).
    do 2 run_step ltac:(apply enter_spec).
    erewrite bind_inl by (apply lift_inl; exact Hup).
    cbn [store calls readonly]. rewrite <- !app_assoc. reflexivity. }
  destruct (merge_actual up (value_series (as_frame o))) as [e|rows] eqn:Hjoin.
  { apply (get_anomaly_summary_join_fails fit_predict df fromTime toTime w o
             forecastMean forecastMin forecastMax up); assumption. }
  destruct (apply_deviation (row_dtype (as_frame o)) rows) as [e|t] eqn:Happly.
  { apply (get_anomaly_summary_apply_fails fit_predict df fromTime toTime w o
             forecastMean forecastMin forecastMax up rows); assumption. }
  apply (get_anomaly_summary_success fit_predict df fromTime toTime w o
           forecastMean forecastMin forecastMax up rows t); assumption.
Qed.

(** X12: a run that raises leaves the store, and the flags of the stored
    objects, as it found them, and has not reached the construction of the
    container: it ended in one of the ten stages before it, or before the
    first.  There is no partial result. *)
Theorem failed_run_leaves_no_result (df : loc) (fromTime toTime : Timestamp) w e w' :
  get_anomaly_summary fit_predict df fromTime toTime w = (inl e, w') ->
  store w' = store w /\
  readonly w' = readonly w /\
  exists n : nat, (n <= 10)%nat /\ calls w' = calls w ++ firstn n all_calls.
Proof.
  rewrite get_anomaly_summary_cases.
  destruct (store w !! df) as [o|].
  2:{ intros [= _ <-]. split; [reflexivity|]. split; [reflexivity|]. exists 0%nat.
      split; [lia|]. cbn [firstn]. now rewrite app_nil_r. }
  destruct (validate (as_frame o)) as [?|?].
  { intros [= _ <-]. split; [reflexivity|]. split; [reflexivity|]. exists 0%nat.
    split; [lia|]. cbn [firstn]. now rewrite app_nil_r. }
  cbv zeta.
  destruct (forecast_of fit_predict AggMean _ _ _).
  { intros [= _ <-]. repeat split. exists 4%nat. split; [lia|reflexivity]. }
  destruct (forecast_of fit_predict AggMin _ _ _).
  { intros [= _ <-]. repeat split. exists 5%nat. split; [lia|reflexivity]. }
  destruct (forecast_of fit_predict AggMax _ _ _).
  { intros [= _ <-]. repeat split. exists 6%nat. split; [lia|reflexivity]. }
  destruct (upsample _ _).
  { intros [= _ <-]. repeat split. exists 8%nat. split; [lia|reflexivity]. }
  destruct (merge_actual _ _).
  { intros [= _ <-]. repeat split. exists 9%nat. split; [lia|reflexivity]. }
  destruct (apply_deviation _ _).
  { intros [= _ <-]. repeat split. exists 10%nat. split; [lia|reflexivity]. }
  discriminate.
Qed.


End Outcomes.

(** A switch that is off in the forecast window: the forecast is held at
    1, the observation at minute 90 is [False], and the lambda divides by
    it on a row of Python objects. *)
Lemma failed_run_leaves_no_result_witness :
  store (snd (get_anomaly_summary persistence_predictor 0%nat (minutes 60) (minutes 120)
                (world_of switch_df)))
  = store (world_of switch_df).
Proof.
  refine (proj1 (failed_run_leaves_no_result persistence_predictor 0%nat (minutes 60)
                   (minutes 120) (world_of switch_df)
                   (ZeroDivisionError "float division by zero") _ _)).
  vm_compute. reflexivity.
Defined.

Example switch_run :
  get_anomaly_summary persistence_predictor 0%nat (minutes 60) (minutes 120)
    (world_of switch_df)
  = (inl (ZeroDivisionError "float division by zero"),
     mkWorld [FrameObj switch_df] (firstn 10 all_calls) []).
Proof. vm_compute. reflexivity. Qed.


(** ** The Temporal Upsampler *)

Section Upsampler.

Local Open Scope Z_scope.

Variable width : Z.
Hypothesis width_pos : 0 < width.

Lemma timestamps_interpolate_time (c : Table Band) :
  timestamps (interpolate_time c) = timestamps c.
Proof. unfold timestamps, interpolate_time. rewrite map_map. reflexivity. Qed.

Lemma timestamps_asfreq (c : Table Band) :
  timestamps (asfreq width c)
  = match timestamps c with
    | [] => []
    | t :: ts => bucket_starts width (floor_to width (Zlist_min t ts))
                                     (floor_to width (Zlist_max t ts))
    end.
Proof.
  unfold asfreq. destruct (timestamps c); [reflexivity|].
  unfold timestamps. rewrite map_map. cbn [fst]. apply map_id.
Qed.

Lemma upsample_inr (c up : Table Band) :
  upsample width c = inr up <->
  NoDup (timestamps c) /\ up = interpolate_time (asfreq width c).
Proof.
  unfold upsample. destruct (bool_decide (NoDup (timestamps c))) eqn:E.
  - apply bool_decide_eq_true in E. split.
    + intros [= <-]. auto.
    + intros [_ ->]. reflexivity.
  - apply bool_decide_eq_false in E. split; [discriminate|]. intros [H _]. contradiction.
Qed.

Lemma in_upsample_index (c up : Table Band) (b : Z) :
  upsample width c = inr up ->
  In b (timestamps up) <->
  b mod width = 0 /\
  exists t t', In t (timestamps c) /\ In t' (timestamps c) /\
               floor_to width t <= b <= floor_to width t'.
Proof.
  intros Hup. apply upsample_inr in Hup as [_ ->].
  rewrite timestamps_interpolate_time, timestamps_asfreq.
  destruct (timestamps c) as [|t ts] eqn:E.
  { split; [intros []|intros (_ & t & _ & [] & _)]. }
  destruct (Zlist_min_spec t ts) as [_ Hmin].
  destruct (Zlist_max_spec t ts) as [_ Hmax].
  rewrite (span_grid width width_pos). split.
  - intros [Hb Hr]. split; [assumption|].
    destruct (Zlist_min_spec t ts) as [Hi _]. destruct (Zlist_max_spec t ts) as [Hj _].
    eauto.
  - intros [Hb (u & u' & Hu & Hu' & H1 & H2)]. split; [assumption|].
    pose proof (floor_to_mono width width_pos _ _ (Hmin u Hu)).
    pose proof (floor_to_mono width width_pos _ _ (Hmax u' Hu')). lia.
Qed.

Lemma upsample_index_NoDup (c up : Table Band) :
  upsample width c = inr up -> NoDup (timestamps up).
Proof.
  intros Hup. apply upsample_inr in Hup as [_ ->].
  rewrite timestamps_interpolate_time, timestamps_asfreq.
  destruct (timestamps c); [constructor|]. now apply bucket_starts_NoDup.
Qed.

(** X14: upsampling never extrapolates and never leaves the grid: the
    index of the upsampled corridor is made of the multiples of the step
    between the step of the earliest and that of the latest corridor
    timestamp, each once; an empty corridor stays empty. *)
Theorem upsample_stays_in_span (c up : Table Band) :
  upsample width c = inr up ->
  (forall b,
      In b (timestamps up) <->
      b mod width = 0 /\
      exists t t', In t (timestamps c) /\ In t' (timestamps c) /\
                   floor_to width t <= b <= floor_to width t')
  /\ NoDup (timestamps up)
  /\ (forall t, In t (timestamps c) -> In (floor_to width t) (timestamps up))
  /\ (c = [] -> up = []).
Proof.
  intros Hup. split; [|split; [|split]].
  - intros b. now apply in_upsample_index.
  - now apply upsample_index_NoDup with c.
  - intros t Ht. apply (in_upsample_index c up _ Hup).
    split; [now apply floor_to_aligned|]. exists t, t. repeat split; auto; lia.
  - intros ->. apply upsample_inr in Hup as [_ ->]. reflexivity.
Qed.

End Upsampler.

Lemma upsample_stays_in_span_witness :
  In (minutes 61)
     (timestamps (delivered (upsample minute_ns
                               [(minutes 60, nan_band); (minutes 62, nan_band)]))).
Proof.
  assert (Hup : upsample minute_ns [(minutes 60, nan_band); (minutes 62, nan_band)]
                = inr (delivered (upsample minute_ns
                                    [(minutes 60, nan_band); (minutes 62, nan_band)])))
    by (vm_compute; reflexivity).
  apply (proj1 (upsample_stays_in_span minute_ns eq_refl _ _ Hup)).
  split; [reflexivity|].
  exists (minutes 60), (minutes 62).
  split; [now left|]. split; [right; now left|].
  split; vm_compute; discriminate.
Defined.

(** ** A successful run *)

Lemma in_deviation_table (up : Table Band) (actuals : TimeSeries) ts r :
  In (ts, r) (deviation_table up actuals) <->
  exists band v,
    In (ts, band) up /\ In (ts, v) actuals /\
    r = mkScoredRow (mkRow (band_mean band) (band_floor band) (band_hat band) v)
          (deviation (mkRow (band_mean band) (band_floor band) (band_hat band) v)).
Proof.
  unfold deviation_table, add_deviation, join_actual. rewrite map_map. cbn [fst snd].
  rewrite in_map_iff. split.
  - intros [[k [band v]] [[= <- <-] Hin]]. cbn [fst snd].
    apply in_merge_inner in Hin as [H1 H2]. exists band, v. auto.
  - intros (band & v & H1 & H2 & ->). exists (ts, (band, v)).
    split; [reflexivity|]. now apply in_merge_inner.
Qed.

Section SuccessfulRun.

Variable fit_predict : PredictorConfig -> TimeSeriesDataFrame -> Exception + Forecast.

(** What a run that returns has gone through. *)
Lemma get_anomaly_summary_inr (df : loc) (fromTime toTime : Timestamp) w self w' :
  get_anomaly_summary fit_predict df fromTime toTime w = (inr self, w') ->
  exists o forecastMean forecastMin forecastMax up,
    store w !! df = Some o /\
    validate (as_frame o) = inr tt /\
    forecast_of fit_predict AggMean (as_frame o) fromTime toTime = inr forecastMean /\
    forecast_of fit_predict AggMin (as_frame o) fromTime toTime = inr forecastMin /\
    forecast_of fit_predict AggMax (as_frame o) fromTime toTime = inr forecastMax /\
    upsample minute_ns (corridor forecastMean forecastMin forecastMax) = inr up /\
    up <> [] /\
    self = mkAnomalyResult (length (store w)) (S (length (store w))) /\
    w' = mkWorld
           (store w ++ [TableObj (deviation_table up (value_series (as_frame o))); o])
           (calls w ++ all_calls) (readonly w).
Proof.
  rewrite get_anomaly_summary_cases.
  destruct (store w !! df) as [o|] eqn:Hdf; [|discriminate].
  destruct (validate (as_frame o)) as [?|[]] eqn:Hv; [discriminate|]. cbv zeta.
  destruct (forecast_of fit_predict AggMean _ _ _) as [?|f1] eqn:H1; [discriminate|].
  destruct (forecast_of fit_predict AggMin _ _ _) as [?|f2] eqn:H2; [discriminate|].
  destruct (forecast_of fit_predict AggMax _ _ _) as [?|f3] eqn:H3; [discriminate|].
  destruct (upsample _ _) as [?|up] eqn:Hup; [discriminate|].
  destruct (merge_actual _ _) as [?|rows] eqn:Hjoin; [discriminate|].
  destruct (apply_deviation _ _) as [?|t] eqn:Happly; [discriminate|].
  apply merge_actual_inr in Hjoin as [Hne ->].
  apply apply_deviation_inr in Happly. subst t.
  intros [= <- <-]. exists o, f1, f2, f3, up.
  repeat (split; [first [reflexivity | assumption]|]). reflexivity.
Qed.

(** X15: a run that returns has entered every stage once, in order, and
    has changed no object that existed before: the table and the
    container's copy of the caller's frame are two new objects, and the
    copy holds what the caller's frame holds. *)
Theorem successful_run_frame (df : loc) (fromTime toTime : Timestamp) w self w' :
  get_anomaly_summary fit_predict df fromTime toTime w = (inr self, w') ->
  (forall l o', store w !! l = Some o' -> store w' !! l = Some o') /\
  calls w' = calls w ++ all_calls /\
  store w !! _forecast self = None /\
  store w !! _actual self = None /\
  _forecast self <> _actual self /\
  exists o, store w !! df = Some o /\ store w' !! _actual self = Some o.
Proof.
  intros Hrun.
  apply get_anomaly_summary_inr in Hrun
    as (o & f1 & f2 & f3 & up & Hdf & _ & _ & _ & _ & _ & _ & -> & ->).
  cbn [store calls _forecast _actual].
  split; [intros l o' Hl; now apply lookup_app_l_Some|].
  split; [reflexivity|].
  split; [apply lookup_ge_None; lia|].
  split; [apply lookup_ge_None; lia|].
  split; [lia|].
  exists o. split; [assumption|].
  rewrite lookup_app_r by lia.
  replace (S (length (store w)) - length (store w))%nat with 1%nat by lia.
  reflexivity.
Qed.

(** X16: the table a run returns is the join of the upsampled corridor of
    that run with the observations of the caller's frame, scored: its
    rows at a timestamp are exactly the pairs of a row the upsampled
    corridor has at that timestamp (its mean, floor and ceiling) with an
    observation the frame has there, each with the deviation of exactly
    that row.  Every row is at a whole minute, and the frame had passed
    validation. *)
Theorem successful_run_table (df : loc) (fromTime toTime : Timestamp) w self w' :
  get_anomaly_summary fit_predict df fromTime toTime w = (inr self, w') ->
  exists o forecastMean forecastMin forecastMax up t,
    store w !! df = Some o /\
    validate (as_frame o) = inr tt /\
    forecast_of fit_predict AggMean (as_frame o) fromTime toTime = inr forecastMean /\
    forecast_of fit_predict AggMin (as_frame o) fromTime toTime = inr forecastMin /\
    forecast_of fit_predict AggMax (as_frame o) fromTime toTime = inr forecastMax /\
    upsample minute_ns (corridor forecastMean forecastMin forecastMax) = inr up /\
    store w' !! _forecast self = Some (TableObj t) /\
    (forall ts r,
        In (ts, r) t <->
        exists band v,
          In (ts, band) up /\ In (ts, v) (value_series (as_frame o)) /\
          scored r = mkRow (band_mean band) (band_floor band) (band_hat band) v /\
          deviation_cell r = deviation (scored r)) /\
    (forall ts r, In (ts, r) t -> (ts mod minute_ns = 0)%Z).
Proof.
  intros Hrun.
  apply get_anomaly_summary_inr in Hrun
    as (o & f1 & f2 & f3 & up & Hdf & Hv & H1 & H2 & H3 & Hup & _ & -> & ->).
  exists o, f1, f2, f3, up, (deviation_table up (value_series (as_frame o))).
  cbn [store _forecast].
  do 6 (split; [assumption|]). split.
  { rewrite lookup_app_r by lia. now rewrite Nat.sub_diag. }
  split.
  - intros ts r. rewrite in_deviation_table. split.
    + intros (band & v & Hb & Hv' & ->). exists band, v. cbn [scored deviation_cell]. auto.
    + intros (band & v & Hb & Hv' & Hs & Hd). exists band, v.
      split; [assumption|]. split; [assumption|].
      destruct r as [x c]. cbn [scored deviation_cell] in *. now subst.
  - intros ts r Hin.
    apply in_deviation_table in Hin as (band & v & Hb & _ & _).
    assert (Hts : In ts (timestamps up))
      by (unfold timestamps; apply in_map_iff; exists (ts, band); auto).
    now apply (in_upsample_index minute_ns eq_refl _ _ ts Hup) in Hts as [Hts _].
Qed.

End SuccessfulRun.

Lemma successful_run_frame_witness :
  store (snd (get_anomaly_summary persistence_predictor 0%nat (minutes 60) (minutes 120)
                (world_of sample_df))) !! 0%nat
  = Some (FrameObj sample_df).
Proof.
  refine (proj1 (successful_run_frame persistence_predictor 0%nat (minutes 60)
                   (minutes 120) (world_of sample_df)
                   (mkAnomalyResult 1%nat 2%nat) _ _) 0%nat (FrameObj sample_df) eq_refl).
  vm_compute. reflexivity.
Defined.

(** On the sample frame the row at minute 61 pairs the corridor held at
    10 with the observation 50. *)
Lemma successful_run_table_witness :
  exists t,
    store (snd (get_anomaly_summary persistence_predictor 0%nat (minutes 60)
                  (minutes 120) (world_of sample_df))) !! 1%nat = Some (TableObj t) /\
    In (minutes 61,
        mkScoredRow (row_of 10 10 10 50) (deviation (row_of 10 10 10 50))) t.
Proof.
  destruct (successful_run_table persistence_predictor 0%nat (minutes 60)
              (minutes 120) (world_of sample_df) (mkAnomalyResult 1%nat 2%nat)
              (snd (get_anomaly_summary persistence_predictor 0%nat (minutes 60)
                      (minutes 120) (world_of sample_df)))
              ltac:(vm_compute; reflexivity))
    as (o & f1 & f2 & f3 & up & t & Hdf & _ & E1 & E2 & E3 & Hup & Ht & Hrows & _).
  exists t. split; [exact Ht|].
  injection Hdf as <-.
  apply Hrows.
  exists (mkBand (Float64.of_Z 10) (Float64.of_Z 10) (Float64.of_Z 10)), (Float64.of_Z 50).
  cbn [scored deviation_cell].
  split; [|split; [|split; reflexivity]].
  - vm_compute in E1. injection E1 as <-.
    vm_compute in E2. injection E2 as <-.
    vm_compute in E3. injection E3 as <-.
    vm_compute in Hup. injection Hup as <-.
    right. left. repeat f_equal; apply Qc_is_canon; reflexivity.
  - right. right. right. left. reflexivity.
Defined.

(** ** The container and the caller's own references *)

Section Sharing.

Variable f : PyObject -> PyObject.

(** X17: the container keeps the caller's forecast object itself and a
    copy of the caller's frame.  A change the caller later makes in place
    to the forecast object is what [forecast] returns from then on; a
    change to the caller's frame never shows in [actual]; and with no
    change both accessors return what was passed in. *)
Theorem container_shares_forecast_copies_actual
    (forecast_data actual_data : loc) w o_f o_a :
  store w !! forecast_data = Some o_f ->
  store w !! actual_data = Some o_a ->
  fst (construct_mutate_read forecast_data actual_data forecast_data f
         AnomalyResult_.forecast w) = inr (f o_f)
  /\
  fst (construct_mutate_read forecast_data actual_data actual_data f
         AnomalyResult_.actual w) = inr o_a
  /\
  (forecast_data <> actual_data ->
   fst (construct_mutate_read forecast_data actual_data actual_data f
          AnomalyResult_.forecast w) = inr o_f)
  /\
  (forecast_data <> actual_data ->
   fst (construct_mutate_read forecast_data actual_data forecast_data f
          AnomalyResult_.actual w) = inr o_a).
Proof.
  intros Hf Ha.
  pose proof (lookup_lt_Some _ _ _ Hf) as Hlf.
  pose proof (lookup_lt_Some _ _ _ Ha) as Hla.
  assert (Hlen : forall l x, length (<[l := x]> (store w ++ [o_a])) = S (length (store w))).
  { intros l x. rewrite length_insert, length_app. simpl. lia. }
  unfold construct_mutate_read. repeat split.
  - rewrite (bind_inr _ _ _ _ _ (init_spec _ _ _ _ _ Hf Ha)).
    erewrite bind_inr
      by (apply mutate_Some with (o := o_f); cbn [store]; now apply lookup_snoc_old).
    cbn [store calls].
    erewrite bind_inr
      by (unfold AnomalyResult_.forecast; cbn [_forecast]; apply copy_Some with (o := f o_f);
          cbn [store]; apply list_lookup_insert_eq; rewrite length_app; simpl; lia).
    cbn [store calls]. unfold deref. cbn [store].
    rewrite Hlen. rewrite lookup_app_r by (rewrite Hlen; lia).
    rewrite Hlen, Nat.sub_diag. reflexivity.
  - rewrite (bind_inr _ _ _ _ _ (init_spec _ _ _ _ _ Hf Ha)).
    erewrite bind_inr
      by (apply mutate_Some with (o := o_a); cbn [store]; now apply lookup_snoc_old).
    cbn [store calls].
    erewrite bind_inr
      by (unfold AnomalyResult_.actual; cbn [_actual]; apply copy_Some with (o := o_a);
          cbn [store]; rewrite list_lookup_insert_ne by lia; apply lookup_snoc_new).
    cbn [store calls]. unfold deref. cbn [store].
    rewrite Hlen. rewrite lookup_app_r by (rewrite Hlen; lia).
    rewrite Hlen, Nat.sub_diag. reflexivity.
  - intros Hne.
    rewrite (bind_inr _ _ _ _ _ (init_spec _ _ _ _ _ Hf Ha)).
    erewrite bind_inr
      by (apply mutate_Some with (o := o_a); cbn [store]; now apply lookup_snoc_old).
    cbn [store calls].
    erewrite bind_inr
      by (unfold AnomalyResult_.forecast; cbn [_forecast]; apply copy_Some with (o := o_f);
          cbn [store]; rewrite list_lookup_insert_ne by congruence;
          now apply lookup_snoc_old).
    cbn [store calls]. unfold deref. cbn [store].
    rewrite Hlen. rewrite lookup_app_r by (rewrite Hlen; lia).
    rewrite Hlen, Nat.sub_diag. reflexivity.
  - intros Hne.
    rewrite (bind_inr _ _ _ _ _ (init_spec _ _ _ _ _ Hf Ha)).
    erewrite bind_inr
      by (apply mutate_Some with (o := o_f); cbn [store]; now apply lookup_snoc_old).
    cbn [store calls].
    erewrite bind_inr
      by (unfold AnomalyResult_.actual; cbn [_actual]; apply copy_Some with (o := o_a);
          cbn [store]; rewrite list_lookup_insert_ne by lia; apply lookup_snoc_new).
    cbn [store calls]. unfold deref. cbn [store].
    rewrite Hlen. rewrite lookup_app_r by (rewrite Hlen; lia).
    rewrite Hlen, Nat.sub_diag. reflexivity.
Qed.

End Sharing.

Lemma container_shares_forecast_copies_actual_witness :
  fst (construct_mutate_read 0%nat 1%nat 0%nat wipe AnomalyResult_.forecast sample_world)
  = inr (TableObj []) /\
  fst (construct_mutate_read 0%nat 1%nat 1%nat wipe AnomalyResult_.actual sample_world)
  = inr (FrameObj sample_df).
Proof.
  destruct (container_shares_forecast_copies_actual wipe 0%nat 1%nat sample_world
              _ _ eq_refl eq_refl) as (H1 & H2 & _).
  split; [exact H1|exact H2].
Defined.

(** X18: a missing frame is met with an [AttributeError] at the first
    use: [get_anomaly_summary] raises it before validation and before any
    stage, the constructor before it stores or copies anything; the store
    is left as it was. *)
Theorem None_frame_raises_AttributeError
    (fit_predict : PredictorConfig -> TimeSeriesDataFrame -> Exception + Forecast)
    (df : loc) (fromTime toTime : Timestamp) (forecast_data : loc) w :
  store w !! df = None ->
  exists msg,
    get_anomaly_summary fit_predict df fromTime toTime w = (inl (AttributeError msg), w) /\
    AnomalyResult_.init forecast_data df w = (inl (AttributeError msg), w).
Proof.
  intros H. eexists. split.
  - unfold get_anomaly_summary. apply bind_inl. unfold deref. now rewrite H.
  - unfold AnomalyResult_.init, copy. apply bind_inl. apply bind_inl.
    unfold deref. now rewrite H.
Qed.

Lemma None_frame_raises_AttributeError_witness :
  exists msg,
    get_anomaly_summary persistence_predictor 5%nat (minutes 60) (minutes 120)
      (world_of sample_df) = (inl (AttributeError msg), world_of sample_df) /\
    AnomalyResult_.init 0%nat 5%nat (world_of sample_df)
    = (inl (AttributeError msg), world_of sample_df).
Proof.
  apply (None_frame_raises_AttributeError persistence_predictor 5%nat (minutes 60)
           (minutes 120) 0%nat (world_of sample_df)).
  reflexivity.
Defined.

(** ** The corridor of well-formed forecasts *)

Section CorridorKeys.

Context {K A B : Type} `{EqDecision K}.

Lemma keys_filter_sublist (k : K) (r : list (K * B)) :
  NoDup (map fst r) ->
  NoDup (map fst (List.filter (fun y => bool_decide (k = fst y)) r)).
Proof.
  induction r as [|y r IH]; intros Hnd; [constructor|].
  cbn [map] in Hnd. apply NoDup_cons in Hnd as [Hy Hnd].
  cbn [List.filter]. destruct (bool_decide (k = fst y)); [|now apply IH].
  cbn [map]. apply NoDup_cons. split; [|now apply IH].
  intros Hin. apply Hy. apply list_elem_of_In. apply list_elem_of_In in Hin.
  apply in_map_iff in Hin as [z [Hz Hin]]. apply filter_In in Hin as [Hin _].
  apply in_map_iff. exists z. auto.
Qed.

Lemma merge_inner_keys_NoDup (l : list (K * A)) (r : list (K * B)) :
  NoDup (map fst l) -> NoDup (map fst r) -> NoDup (map fst (merge_inner l r)).
Proof.
  intros Hl Hr. induction l as [|x l IH]; [constructor|].
  cbn [map] in Hl. apply NoDup_cons in Hl as [Hx Hl].
  unfold merge_inner. cbn [flat_map]. rewrite map_app. apply NoDup_app.
  split; [|split].
  - rewrite map_map. cbn [fst].
    pose proof (keys_filter_sublist (fst x) r Hr) as Hs.
    replace (map (fun _ : K * B => fst x)
                 (List.filter (fun y => bool_decide (fst x = fst y)) r))
      with (map fst (List.filter (fun y => bool_decide (fst x = fst y)) r)); [exact Hs|].
    apply map_ext_in. intros y Hy. apply filter_In in Hy as [_ Hy].
    apply bool_decide_eq_true in Hy. now symmetry.
  - intros k Hk1 Hk2. apply list_elem_of_In in Hk1. apply list_elem_of_In in Hk2.
    rewrite map_map in Hk1. cbn [fst] in Hk1.
    apply in_map_iff in Hk1 as [y [<- _]].
    apply Hx. apply list_elem_of_In.
    change (In (fst x) (map fst (merge_inner l r))) in Hk2.
    now apply in_keys_merge_inner in Hk2 as [Hk2 _].
  - now apply IH.
Qed.

End CorridorKeys.

Lemma keys_select {K : Type} (c : ForecastRow -> float64) (f : list (K * ForecastRow)) :
  map fst (select c f) = map fst f.
Proof. unfold select. rewrite map_map. reflexivity. Qed.

Lemma keys_merge_forecasts (fMean fMin fMax : Forecast) :
  map fst (merge_forecasts fMean fMin fMax)
  = map fst (merge_inner
               (merge_inner (select fc_mean fMean) (select fc_q10 fMin))
               (select fc_q90 fMax)).
Proof. unfold merge_forecasts. rewrite map_map. reflexivity. Qed.

(** X19: when each forecast names a single item and no key twice, no
    timestamp occurs twice in the corridor, and the upsampling does not
    raise: the "duplicate labels" error can only come from a predictor
    answer that repeats a key or mixes items. *)
Theorem wellformed_forecasts_upsample (item : string) (fMean fMin fMax : Forecast) :
  single_item item fMean ->
  NoDup (forecast_keys fMean) -> NoDup (forecast_keys fMin) ->
  NoDup (forecast_keys fMax) ->
  NoDup (timestamps (corridor fMean fMin fMax)) /\
  exists up, upsample minute_ns (corridor fMean fMin fMax) = inr up.
Proof.
  intros Hitem Hm Hf Hh. unfold forecast_keys in *.
  assert (Hk : NoDup (map fst (merge_forecasts fMean fMin fMax))).
  { rewrite keys_merge_forecasts.
    apply merge_inner_keys_NoDup; [apply merge_inner_keys_NoDup|];
      now rewrite keys_select. }
  assert (Hts : NoDup (timestamps (corridor fMean fMin fMax))).
  { assert (E : timestamps (corridor fMean fMin fMax)
                = snd <$> map fst (merge_forecasts fMean fMin fMax)).
    { unfold corridor, index_by_timestamp, timestamps.
      change (snd <$> ?l) with (map snd l). now rewrite !map_map. }
    rewrite E.
    apply NoDup_fmap_2_strong; [|exact Hk].
    intros [i1 t1] [i2 t2] H1 H2 Heq. cbn in Heq. subst t2.
    assert (Hi : forall i t, In (i, t) (map fst (merge_forecasts fMean fMin fMax)) ->
                             i = item).
    { intros i t Hin. apply in_map_iff in Hin as [[k b] [Hkb Hin]]. cbn in Hkb. subst k.
      apply in_merge_forecasts in Hin as (rm & _ & _ & Hin & _).
      unfold single_item in Hitem. rewrite Forall_forall in Hitem.
      exact (Hitem _ (proj2 (list_elem_of_In _ _) Hin)). }
    apply list_elem_of_In in H1, H2.
    now rewrite (Hi _ _ H1), (Hi _ _ H2). }
  split; [exact Hts|].
  eexists. apply (upsample_inr minute_ns). split; [exact Hts|reflexivity].
Qed.

Lemma wellformed_forecasts_upsample_witness :
  NoDup (timestamps (corridor (flat_forecast 10 [60; 90]) (flat_forecast 5 [90; 120])
                              (flat_forecast 20 [30; 90]))).
Proof.
  refine (proj1 (wellformed_forecasts_upsample "single_item"
                   (flat_forecast 10 [60; 90]) (flat_forecast 5 [90; 120])
                   (flat_forecast 20 [30; 90]) _ _ _ _)).
  - unfold single_item, flat_forecast; simpl.
    repeat (apply List.Forall_cons; [reflexivity|]); apply List.Forall_nil.
  - refine (proj1 (bool_decide_eq_true _) _). vm_compute. reflexivity.
  - refine (proj1 (bool_decide_eq_true _) _). vm_compute. reflexivity.
  - refine (proj1 (bool_decide_eq_true _) _). vm_compute. reflexivity.
Defined.

(** X20: the corridor is empty exactly when no key is common to the three
    forecasts; in particular as soon as one of them is empty. *)
Theorem corridor_empty_iff (fMean fMin fMax : Forecast) :
  corridor fMean fMin fMax = [] <->
  ~ exists k, In k (forecast_keys fMean) /\ In k (forecast_keys fMin) /\
              In k (forecast_keys fMax).
Proof.
  unfold forecast_keys. split.
  - intros Hc [[item t] (H1 & H2 & H3)].
    apply in_map_iff in H1 as [[k1 rm] [E1 H1]].
    apply in_map_iff in H2 as [[k2 rn] [E2 H2]].
    apply in_map_iff in H3 as [[k3 rx] [E3 H3]]. cbn in E1, E2, E3. subst.
    assert (Hin : In (t, mkBand (fc_mean rm) (fc_q10 rn) (fc_q90 rx))
                     (corridor fMean fMin fMax)).
    { apply in_corridor. exists item, rm, rn, rx. auto. }
    rewrite Hc in Hin. destruct Hin.
  - intros Hno. destruct (corridor fMean fMin fMax) as [|[t b] rest] eqn:E; [reflexivity|].
    exfalso. apply Hno.
    assert (Hin : In (t, b) (corridor fMean fMin fMax)) by (rewrite E; now left).
    apply in_corridor in Hin as (item & rm & rn & rx & H1 & H2 & H3 & _).
    exists (item, t). repeat split; apply in_map_iff; eexists; (split; [|eassumption]);
      reflexivity.
Qed.

(** ** What upsampling does to the values *)

Section UpsampledValues.

Local Open Scope Z_scope.

Variable width : Z.
Hypothesis width_pos : 0 < width.

Lemma lookup_row_Some {A : Type} (c : Table A) t b :
  lookup_row t c = Some b -> In (t, b) c.
Proof.
  unfold lookup_row.
  match goal with
  | |- context [find ?f c] => destruct (find f c) as [[t' b']|] eqn:E
  end; cbn; [|discriminate].
  intros [= <-]. apply find_some in E as [Hin Ht]. cbn in Ht.
  apply Z.eqb_eq in Ht. now subst.
Qed.

Lemma lookup_row_None {A : Type} (c : Table A) t :
  lookup_row t c = None -> ~ In t (timestamps c).
Proof.
  unfold lookup_row.
  match goal with
  | |- context [find ?f c] => destruct (find f c) eqn:E
  end; cbn; [discriminate|].
  intros _ Hin. apply in_map_iff in Hin as [[t' b] [Ht Hin]]. cbn in Ht. subst t'.
  pose proof (find_none _ _ E _ Hin) as Hf. cbn in Hf. apply Z.eqb_neq in Hf. lia.
Qed.

Lemma row_unique {A : Type} (c : Table A) t b b' :
  NoDup (timestamps c) -> In (t, b) c -> In (t, b') c -> b = b'.
Proof.
  induction c as [|[t0 b0] c IH]; [intros _ []|].
  cbn [timestamps map fst]. intros Hnd H1 H2.
  apply NoDup_cons in Hnd as [Hn Hnd].
  assert (Hout : forall x, In (t0, x) c -> False).
  { intros x Hx. apply Hn. apply list_elem_of_In. apply in_map_iff.
    exists (t0, x). auto. }
  destruct H1 as [E1|H1], H2 as [E2|H2].
  - congruence.
  - exfalso. injection E1 as -> _. eapply Hout; eauto.
  - exfalso. injection E2 as -> _. eapply Hout; eauto.
  - now apply IH.
Qed.

Lemma lookup_row_In {A : Type} (c : Table A) t b :
  NoDup (timestamps c) -> In (t, b) c -> lookup_row t c = Some b.
Proof.
  intros Hnd Hin. destruct (lookup_row t c) as [b'|] eqn:E.
  - apply lookup_row_Some in E. f_equal. now apply (row_unique c t).
  - exfalso. apply (lookup_row_None _ _ E). apply in_map_iff. exists (t, b). auto.
Qed.

Lemma floor_to_on_grid (t : Z) : t mod width = 0 -> floor_to width t = t.
Proof.
  intros H. unfold floor_to. symmetry. apply Z_div_exact_full_2; [lia|assumption].
Qed.

Lemma in_asfreq (c : Table Band) g b :
  In (g, b) (asfreq width c) <->
  In g (timestamps (asfreq width c)) /\ b = default nan_band (lookup_row g c).
Proof.
  rewrite (timestamps_asfreq width). unfold asfreq.
  destruct (timestamps c) as [|t ts]; [split; [intros []|intros [[] _]]|].
  rewrite in_map_iff. split.
  - intros [g' [[= <- <-] Hin]]. auto.
  - intros [Hin ->]. exists g. auto.
Qed.

Lemma in_interpolate_time (a : Table Band) g b :
  In (g, b) (interpolate_time a) <->
  exists b0,
    In (g, b0) a /\
    b = mkBand (interpolate_at (column_of band_mean a) (g, band_mean b0))
               (interpolate_at (column_of band_floor a) (g, band_floor b0))
               (interpolate_at (column_of band_hat a) (g, band_hat b0)).
Proof.
  unfold interpolate_time. rewrite in_map_iff. split.
  - intros [[g' b0] [[= <- <-] Hin]]. exists b0. auto.
  - intros [b0 [Hin ->]]. exists (g, b0). auto.
Qed.

Lemma interpolate_at_known (pts : TimeSeries) g v :
  Float64.is_nan v = false -> interpolate_at pts (g, v) = v.
Proof. intros H. unfold interpolate_at, known. cbn [snd]. now rewrite H. Qed.

(** X21: upsampling keeps the corridor's own buckets: a corridor row at a
    multiple of the step whose three cells are known is found unchanged in
    the upsampled corridor. *)
Theorem upsample_keeps_known_points (c up : Table Band) (t : Timestamp) (b : Band) :
  upsample width c = inr up ->
  In (t, b) c ->
  t mod width = 0 ->
  Float64.is_nan (band_mean b) = false ->
  Float64.is_nan (band_floor b) = false ->
  Float64.is_nan (band_hat b) = false ->
  In (t, b) up.
Proof.
  intros Hup Hin Ht Hm Hf Hh.
  apply (upsample_inr width) in Hup as [Hnd ->].
  apply in_interpolate_time. exists b. split.
  - apply in_asfreq. split.
    + rewrite <- (floor_to_on_grid t Ht).
      assert (Hi : In t (timestamps c))
        by (apply in_map_iff; exists (t, b); auto).
      rewrite (timestamps_asfreq width).
      destruct (timestamps c) as [|t0 ts] eqn:E; [destruct Hi|].
      apply (span_grid width width_pos).
      split; [now apply floor_to_aligned|].
      destruct (Zlist_min_spec t0 ts) as [_ Hmin].
      destruct (Zlist_max_spec t0 ts) as [_ Hmax].
      split; apply (floor_to_mono width width_pos); auto.
    + now rewrite (lookup_row_In c t b Hnd Hin).
  - rewrite !interpolate_at_known by assumption. now destruct b.
Qed.

End UpsampledValues.

Lemma upsample_keeps_known_points_witness :
  In (minutes 90, mkBand (Float64.of_Z 10) (Float64.of_Z 4) (Float64.of_Z 21))
     (delivered
        (upsample minute_ns
           [(minutes 60, mkBand (Float64.of_Z 9) (Float64.of_Z 3) (Float64.of_Z 20));
            (minutes 90, mkBand (Float64.of_Z 10) (Float64.of_Z 4) (Float64.of_Z 21))])).
Proof.
  refine (upsample_keeps_known_points minute_ns eq_refl
            [(minutes 60, mkBand (Float64.of_Z 9) (Float64.of_Z 3) (Float64.of_Z 20));
             (minutes 90, mkBand (Float64.of_Z 10) (Float64.of_Z 4) (Float64.of_Z 21))]
            _ (minutes 90)
            (mkBand (Float64.of_Z 10) (Float64.of_Z 4) (Float64.of_Z 21))
            _ _ eq_refl eq_refl eq_refl eq_refl).
  - vm_compute. reflexivity.
  - right. left. reflexivity.
Defined.

Section FlatCorridor.

Local Open Scope Z_scope.

Variable width : Z.
Hypothesis width_pos : 0 < width.

Lemma of_Z_neq_0 (z : Z) : z <> 0 -> Q2Qc (inject_Z z) <> Q2Qc 0.
Proof.
  intros Hz H. apply Q2Qc_eq_iff in H.
  apply Hz. apply inject_Z_injective. exact H.
Qed.

Lemma flat_segment (q : Qc) (dt e : Z) :
  dt <> 0 ->
  Float64.add
    (Float64.mul
       (Float64.div (Float64.sub (Float64.Fin q) (Float64.Fin q)) (Float64.of_Z dt))
       (Float64.of_Z e))
    (Float64.Fin q)
  = Float64.Fin q.
Proof.
  intros Hdt. pose proof (of_Z_neq_0 dt Hdt) as Hne.
  unfold Float64.sub, Float64.of_Z. cbn [Float64.neg Float64.add Float64.div].
  rewrite (proj2 (Qc_eqb_neq _ _) Hne). cbn [Float64.mul Float64.add].
  f_equal. field. exact Hne.
Qed.

Lemma interpolate_at_flat (pts : TimeSeries) (y : float64) g v :
  Float64.is_finite y = true ->
  (forall p, In p pts -> known p = true -> snd p = y) ->
  v = y \/
  (Float64.is_nan v = true /\ exists p, In p pts /\ fst p < g /\ known p = true) ->
  interpolate_at pts (g, v) = y.
Proof.
  intros Hy Hpts Hv. destruct y as [q| | |]; try discriminate.
  destruct Hv as [->|[Hnan (p0 & Hp0 & Hlt0 & Hk0)]].
  { now apply interpolate_at_known. }
  unfold interpolate_at, known at 1. cbn [fst snd]. rewrite Hnan. cbn [negb].
  destruct (last (List.filter (fun q0 => (fst q0 <? g) && known q0) pts))
    as [[t0 y0]|] eqn:Eprev.
  - apply last_Some_elem_of in Eprev. apply list_elem_of_In in Eprev.
    apply filter_In in Eprev as [Hin0 Hc0]. apply andb_true_iff in Hc0 as [Hl0 Hkn0].
    cbn in Hl0. apply Z.ltb_lt in Hl0.
    pose proof (Hpts _ Hin0 Hkn0) as E0. cbn in E0. subst y0.
    destruct (head (List.filter (fun q0 => (g <? fst q0) && known q0) pts))
      as [[t1 y1]|] eqn:Enext; [|reflexivity].
    apply head_Some in Enext as [rest Enext].
    assert (Hin1 : In (t1, y1) (List.filter (fun q0 => (g <? fst q0) && known q0) pts))
      by (rewrite Enext; now left).
    apply filter_In in Hin1 as [Hin1 Hc1]. apply andb_true_iff in Hc1 as [Hl1 Hkn1].
    cbn in Hl1. apply Z.ltb_lt in Hl1.
    pose proof (Hpts _ Hin1 Hkn1) as E1. cbn in E1. subst y1.
    apply flat_segment. lia.
  - exfalso. apply last_None in Eprev.
    assert (Hin : In p0 (List.filter (fun q0 => (fst q0 <? g) && known q0) pts)).
    { apply filter_In. split; [assumption|]. apply andb_true_iff.
      split; [now apply Z.ltb_lt|assumption]. }
    rewrite Eprev in Hin. destruct Hin.
Qed.

(** X22: a flat corridor stays flat: when every corridor row sits on a
    multiple of the step and holds the same finite band, every row of the
    upsampled corridor holds that band. *)
Theorem flat_corridor_stays_flat (c up : Table Band) (b0 : Band) :
  upsample width c = inr up ->
  (forall t b, In (t, b) c -> t mod width = 0 /\ b = b0) ->
  Float64.is_finite (band_mean b0) = true ->
  Float64.is_finite (band_floor b0) = true ->
  Float64.is_finite (band_hat b0) = true ->
  forall g b, In (g, b) up -> b = b0.
Proof.
  intros Hup Hflat Hm Hf Hh g b Hin.
  apply (upsample_inr width) in Hup as [Hnd ->].
  apply in_interpolate_time in Hin as [a0 [Hin ->]].
  apply (in_asfreq width) in Hin as [Hg ->].
  set (A := asfreq width c) in *.
  (* every row of the re-indexed frame holds the band or is missing *)
  assert (Hrow : forall g' a', In (g', a') A -> a' = b0 \/ (a' = nan_band /\ ~ In g' (timestamps c))).
  { intros g' a' H'. apply (in_asfreq width) in H' as [_ ->].
    destruct (lookup_row g' c) as [x|] eqn:E.
    - left. apply lookup_row_Some in E. now apply Hflat in E as [_ ->].
    - right. split; [reflexivity|]. now apply lookup_row_None. }
  (* the earliest corridor row is on the grid and holds the band *)
  assert (Hfirst : ~ In g (timestamps c) ->
                   exists t0, In (t0, b0) A /\ t0 < g).
  { intros Hng.
    assert (Hup' : upsample width c = inr (interpolate_time A))
      by (apply (upsample_inr width); auto).
    assert (Hidx : forall x,
      In x (timestamps A) <->
      x mod width = 0 /\
      exists t t', In t (timestamps c) /\ In t' (timestamps c) /\
                   floor_to width t <= x <= floor_to width t').
    { intros x. rewrite <- (timestamps_interpolate_time A).
      now apply (in_upsample_index width width_pos c). }
    apply Hidx in Hg as [_ (u & u' & Hu & _ & Hlo & _)].
    pose proof Hu as Hu0.
    apply in_map_iff in Hu as [[t0 x] [Et0 Hx]]. cbn in Et0. subst u.
    destruct (Hflat _ _ Hx) as [Hal ->].
    rewrite (floor_to_on_grid width width_pos t0 Hal) in Hlo.
    exists t0. split.
    - apply (in_asfreq width). split.
      + apply Hidx. split; [assumption|]. exists t0, t0.
        rewrite (floor_to_on_grid width width_pos t0 Hal).
        split; [assumption|]. split; [assumption|lia].
      + now rewrite (lookup_row_In c t0 b0 Hnd Hx).
    - assert (t0 <> g) by (intros ->; now apply Hng).
      lia. }
  assert (Hcol : forall (col : Band -> float64),
    Float64.is_finite (col b0) = true ->
    col nan_band = Float64.NaN ->
    interpolate_at (column_of col A) (g, col (default nan_band (lookup_row g c)))
    = col b0).
  { intros col Hfin Hnan. apply interpolate_at_flat; [assumption| |].
    - intros p Hp Hk. unfold column_of in Hp.
      apply in_map_iff in Hp as [[g' a'] [<- Ha']]. cbn [snd fst] in *.
      destruct (Hrow _ _ Ha') as [->|[-> _]]; [reflexivity|].
      unfold known in Hk. cbn [snd] in Hk. rewrite Hnan in Hk. discriminate.
    - destruct (lookup_row g c) as [x|] eqn:E.
      + left. apply lookup_row_Some in E. now apply Hflat in E as [_ ->].
      + right. cbn [default]. rewrite Hnan. split; [reflexivity|].
        destruct (Hfirst (lookup_row_None _ _ E)) as [t0 [Ht0 Hlt]].
        exists (t0, col b0). split; [|split].
        * unfold column_of. apply in_map_iff. exists (t0, b0). auto.
        * exact Hlt.
        * unfold known. cbn [snd]. destruct (col b0); try discriminate. reflexivity. }
  rewrite (Hcol band_mean Hm eq_refl), (Hcol band_floor Hf eq_refl),
          (Hcol band_hat Hh eq_refl).
  now destruct b0.
Qed.

End FlatCorridor.

Lemma flat_corridor_stays_flat_witness :
  snd <$> delivered
            (upsample minute_ns
               [(minutes 60, mkBand (Float64.of_Z 10) (Float64.of_Z 4) (Float64.of_Z 21));
                (minutes 63, mkBand (Float64.of_Z 10) (Float64.of_Z 4) (Float64.of_Z 21))])
          !! 1%nat
  = Some (mkBand (Float64.of_Z 10) (Float64.of_Z 4) (Float64.of_Z 21)).
Proof.
  destruct (delivered _ !! 1%nat) as [[g b]|] eqn:E; [|vm_compute in E; discriminate E].
  cbn. f_equal.
  apply list_elem_of_lookup_2, list_elem_of_In in E.
  exact (flat_corridor_stays_flat minute_ns eq_refl
           [(minutes 60, mkBand (Float64.of_Z 10) (Float64.of_Z 4) (Float64.of_Z 21));
            (minutes 63, mkBand (Float64.of_Z 10) (Float64.of_Z 4) (Float64.of_Z 21))]
           _ (mkBand (Float64.of_Z 10) (Float64.of_Z 4) (Float64.of_Z 21))
           ltac:(vm_compute; reflexivity)
           ltac:(intros t x [[= <- <-]|[[= <- <-]|[]]]; split; reflexivity)
           eq_refl eq_refl eq_refl g b E).
Defined.

(** ** The plotting functions *)

Section Plots.

Lemma Plot_bind_inr {A B : Type} (m : Plot.P A) (k : A -> Plot.P B) w a w' :
  m w = (inr a, w') -> Plot.bind m k w = k a w'.
Proof. intros H. unfold Plot.bind. now rewrite H. Qed.

Lemma Plot_bind_inl {A B : Type} (m : Plot.P A) (k : A -> Plot.P B) w e w' :
  m w = (inl e, w') -> Plot.bind m k w = (inl e, w').
Proof. intros H. unfold Plot.bind. now rewrite H. Qed.

Lemma allocates_ret {A : Type} (a : A) : allocates_at_most 0 (Plot.ret a).
Proof. intros w. exists []. cbn. now rewrite app_nil_r. Qed.

Lemma allocates_raise {A : Type} (e : Plot.PlotException) :
  allocates_at_most 0 (@Plot.raise A e).
Proof. intros w. exists []. cbn. now rewrite app_nil_r. Qed.

Lemma allocates_bind {A B : Type} (n1 n2 : nat) (m : Plot.P A) (k : A -> Plot.P B) :
  allocates_at_most n1 m ->
  (forall a, allocates_at_most n2 (k a)) ->
  allocates_at_most (n1 + n2) (Plot.bind m k).
Proof.
  intros Hm Hk w. destruct (Hm w) as (e1 & Hs1 & Hl1 & Hc1).
  unfold Plot.bind. destruct (m w) as [[e|a] w1]; cbn [snd] in *.
  - exists e1. repeat split; [assumption|lia|assumption].
  - destruct (Hk a w1) as (e2 & Hs2 & Hl2 & Hc2).
    exists (e1 ++ e2). rewrite Hs2, Hs1, Hc2, Hc1, app_assoc, length_app.
    repeat split; lia.
Qed.

Lemma allocates_weaken {A : Type} (n n' : nat) (m : Plot.P A) :
  (n <= n')%nat -> allocates_at_most n m -> allocates_at_most n' m.
Proof.
  intros Hn Hm w. destruct (Hm w) as (e & Hs & Hl & Hc).
  exists e. repeat split; [assumption|lia|assumption].
Qed.

Lemma copy_None (l : loc) w :
  store w !! l = None ->
  copy l w = (inl (AttributeError "'NoneType' object has no attribute"), w).
Proof. intros H. unfold copy. apply bind_inl. unfold deref. now rewrite H. Qed.

Lemma allocates_copy (l : loc) : allocates_at_most 1 (Plot.lift_M (copy l)).
Proof.
  intros w. unfold Plot.lift_M. destruct (store w !! l) as [o|] eqn:E.
  - rewrite (copy_Some _ _ _ E). exists [o]. cbn. auto.
  - rewrite (copy_None _ _ E). exists []. cbn. rewrite app_nil_r. auto.
Qed.

Lemma allocates_deref (l : loc) : allocates_at_most 0 (Plot.lift_M (deref l)).
Proof.
  intros w. unfold Plot.lift_M, deref. exists [].
  destruct (store w !! l); cbn; rewrite app_nil_r; auto.
Qed.

Section Accessor.

(** An accessor of the container: it copies one owned object. *)
Variable accessor : AnomalyResult -> M loc.
Variable owned : AnomalyResult -> loc.
Hypothesis accessor_copies : forall r, accessor r = copy (owned r).

Lemma allocates_read_index (r : AnomalyResult) :
  allocates_at_most 1 (Plot.read_index accessor r).
Proof.
  unfold Plot.read_index. rewrite accessor_copies.
  apply (allocates_bind 1 0); [apply allocates_copy|]. intros l.
  apply (allocates_bind 0 0); [apply allocates_deref|]. intros o.
  apply allocates_ret.
Qed.

Lemma allocates_read_column (r : AnomalyResult) (key : string) :
  allocates_at_most 1 (Plot.read_column accessor r key).
Proof.
  unfold Plot.read_column. rewrite accessor_copies.
  apply (allocates_bind 1 0); [apply allocates_copy|]. intros l.
  apply (allocates_bind 0 0); [apply allocates_deref|]. intros o.
  destruct (get_column (as_frame o) key); [apply allocates_ret|apply allocates_raise].
Qed.

Lemma allocates_scatter_of (r : AnomalyResult) (key : string)
    (mode name fill line_color : option string) :
  allocates_at_most 2 (Plot.scatter_of accessor r key mode name fill line_color).
Proof.
  unfold Plot.scatter_of.
  apply (allocates_bind 1 1); [apply allocates_read_index|]. intros x.
  apply (allocates_bind 1 0); [apply allocates_read_column|]. intros y.
  apply allocates_ret.
Qed.

Lemma read_index_spec (r : AnomalyResult) w o :
  store w !! owned r = Some o ->
  Plot.read_index accessor r w
  = (inr (df_index (as_frame o)), mkWorld (store w ++ [o]) (calls w) (readonly w)).
Proof.
  intros H. unfold Plot.read_index. rewrite accessor_copies.
  erewrite Plot_bind_inr
    by (unfold Plot.lift_M; rewrite (copy_Some _ _ _ H); reflexivity).
  erewrite Plot_bind_inr
    by (unfold Plot.lift_M; erewrite deref_Some by (cbn [store]; apply lookup_snoc_new);
        reflexivity).
  reflexivity.
Qed.

Lemma read_column_spec (r : AnomalyResult) (key : string) w o :
  store w !! owned r = Some o ->
  Plot.read_column accessor r key w
  = (match get_column (as_frame o) key with
     | Some c => inr c
     | None => inl (Plot.KeyError key)
     end, mkWorld (store w ++ [o]) (calls w) (readonly w)).
Proof.
  intros H. unfold Plot.read_column. rewrite accessor_copies.
  erewrite Plot_bind_inr
    by (unfold Plot.lift_M; rewrite (copy_Some _ _ _ H); reflexivity).
  erewrite Plot_bind_inr
    by (unfold Plot.lift_M; erewrite deref_Some by (cbn [store]; apply lookup_snoc_new);
        reflexivity).
  destruct (get_column (as_frame o) key); reflexivity.
Qed.

Lemma scatter_of_spec (r : AnomalyResult) (key : string)
    (mode name fill line_color : option string) w o c :
  store w !! owned r = Some o ->
  get_column (as_frame o) key = Some c ->
  Plot.scatter_of accessor r key mode name fill line_color w
  = (inr (Plot.mkScatter (df_index (as_frame o)) c mode name fill line_color),
     mkWorld (store w ++ [o; o]) (calls w) (readonly w)).
Proof.
  intros H Hc. unfold Plot.scatter_of.
  rewrite (Plot_bind_inr _ _ _ _ _ (read_index_spec r w o H)).
  erewrite Plot_bind_inr
    by (rewrite (read_column_spec r key _ o) by (cbn [store]; now apply lookup_snoc_old);
        rewrite Hc; reflexivity).
  cbn [store calls]. rewrite <- app_assoc. reflexivity.
Qed.

Lemma scatter_of_KeyError (r : AnomalyResult) (key : string)
    (mode name fill line_color : option string) w o :
  store w !! owned r = Some o ->
  get_column (as_frame o) key = None ->
  Plot.scatter_of accessor r key mode name fill line_color w
  = (inl (Plot.KeyError key), mkWorld (store w ++ [o; o]) (calls w) (readonly w)).
Proof.
  intros H Hc. unfold Plot.scatter_of.
  rewrite (Plot_bind_inr _ _ _ _ _ (read_index_spec r w o H)).
  erewrite Plot_bind_inl
    by (rewrite (read_column_spec r key _ o) by (cbn [store]; now apply lookup_snoc_old);
        rewrite Hc; reflexivity).
  cbn [store calls]. rewrite <- app_assoc. reflexivity.
Qed.

End Accessor.

Lemma allocates_forecast_range (r : AnomalyResult) :
  allocates_at_most 2 (Plot.forecast_range r).
Proof.
  unfold Plot.forecast_range.
  apply (allocates_bind 1 1);
    [apply (allocates_read_index AnomalyResult_.forecast _forecast); reflexivity|].
  intros lo.
  apply (allocates_bind 1 0);
    [apply (allocates_read_index AnomalyResult_.forecast _forecast); reflexivity|].
  intros hi. apply allocates_ret.
Qed.

Lemma forecast_range_spec (r : AnomalyResult) w o :
  store w !! _forecast r = Some o ->
  Plot.forecast_range r w
  = (inr (Plot.index_min (df_index (as_frame o)), Plot.index_max (df_index (as_frame o))),
     mkWorld (store w ++ [o; o]) (calls w) (readonly w)).
Proof.
  intros H. unfold Plot.forecast_range.
  rewrite (Plot_bind_inr _ _ _ _ _
             (read_index_spec AnomalyResult_.forecast _forecast
                ltac:(reflexivity) r w o H)).
  erewrite Plot_bind_inr
    by (apply (read_index_spec AnomalyResult_.forecast _forecast ltac:(reflexivity))
          with (o := o); cbn [store]; now apply lookup_snoc_old).
  cbn [store calls]. rewrite <- app_assoc. reflexivity.
Qed.

(** X23: plotting never changes the container or any other object: each
    of the three functions only adds the copies its accessor calls make
    (at most 4, 10 and 12 of them) and enters no stage of the pipeline,
    whether it shows a figure or raises. *)
Theorem plots_only_add_copies (r : AnomalyResult) :
  allocates_at_most 4 (Plot.plot_deviation r) /\
  allocates_at_most 10 (Plot.plot_prediction r) /\
  allocates_at_most 12 (Plot.plot_combined_graphs r).
Proof.
  pose proof (fun key m n f c =>
                allocates_scatter_of AnomalyResult_.forecast _forecast
                  ltac:(reflexivity) r key m n f c) as Hf.
  pose proof (fun key m n f c =>
                allocates_scatter_of AnomalyResult_.actual _actual
                  ltac:(reflexivity) r key m n f c) as Ha.
  pose proof (allocates_forecast_range r) as Hr.
  split; [|split].
  - unfold Plot.plot_deviation.
    apply (allocates_bind 2 2); [apply Hf|]. intros t.
    apply (allocates_bind 2 0); [apply Hr|]. intros range. apply allocates_ret.
  - unfold Plot.plot_prediction.
    apply (allocates_bind 2 8); [apply Hf|]. intros t1.
    apply (allocates_bind 2 6); [apply Hf|]. intros t2.
    apply (allocates_bind 2 4); [apply Hf|]. intros t3.
    apply (allocates_bind 2 2); [apply Ha|]. intros t4.
    apply (allocates_bind 2 0); [apply Hr|]. intros range. apply allocates_ret.
  - unfold Plot.plot_combined_graphs.
    apply (allocates_bind 2 10); [apply Hf|]. intros t1.
    apply (allocates_bind 2 8); [apply Hf|]. intros t2.
    apply (allocates_bind 2 6); [apply Hf|]. intros t3.
    apply (allocates_bind 2 4); [apply Ha|]. intros t4.
    apply (allocates_bind 2 2); [apply Hf|]. intros t5.
    apply (allocates_bind 2 0); [apply Hr|]. intros range. apply allocates_ret.
Qed.

Lemma table_column_values (t : DeviationTable) :
  table_column t "mean" = Some (NumericColumn (map (fun r => mean (scored (snd r))) t)) /\
  table_column t "floor" = Some (NumericColumn (map (fun r => floor (scored (snd r))) t)) /\
  table_column t "hat" = Some (NumericColumn (map (fun r => hat (scored (snd r))) t)) /\
  table_column t "deviation"
  = Some (NumericColumn (map (fun r => cell_of (deviation_cell (snd r))) t)).
Proof. repeat split. Qed.

(** X24: on a container that holds a deviation table and a frame with a
    [value] column, as a run returns it, the three functions show their
    figure without raising.  Every trace drawn from the table has the
    table's index as its x values and the column it names as its y values,
    the trace of the observations has the frame's index and its [value]
    column, and the x axis spans from the least to the greatest timestamp
    of the table (a missing value at both ends when the table is empty). *)
Theorem plots_show_the_table (r : AnomalyResult) w (t : DeviationTable)
    (o : PyObject) (c : Column) :
  store w !! _forecast r = Some (TableObj t) ->
  store w !! _actual r = Some o ->
  get_column (as_frame o) "value" = Some c ->
  let col f := NumericColumn (map (fun x : Timestamp * ScoredRow => f (snd x)) t) in
  let xy (d : Plot.Scatter * option (nat * nat)) :=
    (Plot.trace_x (fst d), Plot.trace_y (fst d)) in
  let range := (Plot.index_min (table_index t), Plot.index_max (table_index t)) in
  exists fig1 fig2 fig3,
    fst (Plot.plot_deviation r w) = inr fig1 /\
    fst (Plot.plot_prediction r w) = inr fig2 /\
    fst (Plot.plot_combined_graphs r w) = inr fig3 /\
    map xy (Plot.data fig1)
    = [(table_index t, col (fun x => cell_of (deviation_cell x)))] /\
    map xy (Plot.data fig2)
    = [(table_index t, col (fun x => mean (scored x)));
       (table_index t, col (fun x => floor (scored x)));
       (table_index t, col (fun x => hat (scored x)));
       (df_index (as_frame o), c)] /\
    map xy (Plot.data fig3)
    = [(table_index t, col (fun x => mean (scored x)));
       (table_index t, col (fun x => floor (scored x)));
       (table_index t, col (fun x => hat (scored x)));
       (df_index (as_frame o), c);
       (table_index t, col (fun x => cell_of (deviation_cell x)))] /\
    Plot.xaxis_range (Plot.layout fig1) = Some range /\
    Plot.xaxis_range (Plot.layout fig2) = Some range /\
    Plot.xaxis_range (Plot.layout fig3) = Some range /\
    Plot.xaxis2_range (Plot.layout fig3) = Some range /\
    (t = [] -> range = (None, None)).
Proof.
  intros Hf Ha Hc col xy range.
  destruct (table_column_values t) as (Cm & Cf & Ch & Cd).
  unfold table_column in *.
  pose proof (fun key m n f lc w' o' c' =>
                scatter_of_spec AnomalyResult_.forecast _forecast
                  ltac:(reflexivity) r key m n f lc w' o' c') as Sf.
  pose proof (fun key m n f lc w' o' c' =>
                scatter_of_spec AnomalyResult_.actual _actual
                  ltac:(reflexivity) r key m n f lc w' o' c') as Sa.
  eexists _, _, _. split; [|split; [|split]].
  - unfold Plot.plot_deviation.
    erewrite Plot_bind_inr
      by (apply Sf with (o' := TableObj t); [exact Hf|exact Cd]).
    erewrite Plot_bind_inr
      by (apply forecast_range_spec with (o := TableObj t); cbn [store];
          now apply lookup_grown).
    reflexivity.
  - unfold Plot.plot_prediction.
    erewrite Plot_bind_inr
      by (apply Sf with (o' := TableObj t); [exact Hf|exact Cm]).
    erewrite Plot_bind_inr
      by (apply Sf with (o' := TableObj t);
          [cbn [store]; repeat apply lookup_grown; exact Hf|exact Cf]).
    cbn [store calls].
    erewrite Plot_bind_inr
      by (apply Sf with (o' := TableObj t);
          [cbn [store]; repeat apply lookup_grown; exact Hf|exact Ch]).
    cbn [store calls].
    erewrite Plot_bind_inr
      by (apply Sa with (o' := o);
          [cbn [store]; repeat apply lookup_grown; exact Ha|exact Hc]).
    cbn [store calls].
    erewrite Plot_bind_inr
      by (apply forecast_range_spec with (o := TableObj t); cbn [store];
          repeat apply lookup_grown; exact Hf).
    reflexivity.
  - unfold Plot.plot_combined_graphs.
    erewrite Plot_bind_inr
      by (apply Sf with (o' := TableObj t); [exact Hf|exact Cm]).
    erewrite Plot_bind_inr
      by (apply Sf with (o' := TableObj t);
          [cbn [store]; repeat apply lookup_grown; exact Hf|exact Cf]).
    cbn [store calls].
    erewrite Plot_bind_inr
      by (apply Sf with (o' := TableObj t);
          [cbn [store]; repeat apply lookup_grown; exact Hf|exact Ch]).
    cbn [store calls].
    erewrite Plot_bind_inr
      by (apply Sa with (o' := o);
          [cbn [store]; repeat apply lookup_grown; exact Ha|exact Hc]).
    cbn [store calls].
    erewrite Plot_bind_inr
      by (apply Sf with (o' := TableObj t);
          [cbn [store]; repeat apply lookup_grown; exact Hf|exact Cd]).
    cbn [store calls].
    erewrite Plot_bind_inr
      by (apply forecast_range_spec with (o := TableObj t); cbn [store];
          repeat apply lookup_grown; exact Hf).
    reflexivity.
  - cbn. repeat split. intros ->. reflexivity.
Qed.

End Plots.

Lemma plots_show_the_table_witness :
  exists fig,
    fst (Plot.plot_prediction (mkAnomalyResult 0%nat 1%nat) sample_world) = inr fig /\
    Plot.xaxis_range (Plot.layout fig) = Some (Some (minutes 60), Some (minutes 60)).
Proof.
  destruct (plots_show_the_table (mkAnomalyResult 0%nat 1%nat) sample_world
              _ _ _ eq_refl eq_refl eq_refl)
    as (fig1 & fig2 & fig3 & _ & H2 & _ & _ & _ & _ & _ & R2 & _).
  exists fig2. split; [exact H2|exact R2].
Defined.
